(** * wrtvoice: phrase segmentation and dialogue orchestration

    A shallow embedding of the Python sources
      - [modules/whisper_stt.py]          (class [WhisperSTT]),
      - [modules/ollama_client.py]        (class [OllamaClient]),
      - [modules/conversation_manager.py] (class [ConversationManager]),
      - [modules/pdf_parser.py]           ([extract_first_n_words]),
      - [app.py]                          ([websocket_conversation]),
    followed by the properties of the specification proved about them.

    Conventions.
      - A [datetime] is its number of microseconds since the epoch (a [Z]);
        [timedelta.total_seconds()] is the exact rational [d / 10^6].
      - A Python [str] is a [string]; [bytes] is a [list byte].
      - A Python [dict] decoded from or encoded to JSON is a [json] object,
        an association list in insertion order.
      - Calls into external collaborators (the Whisper model, the Ollama
        server, the wall clock) are parameters of the model. *)

From Stdlib Require Import ZArith QArith Lqa String Ascii List Lia Bool.
From stdpp Require Import gmap strings.
Import ListNotations.
Open Scope Z_scope.

(** ** Python strings *)

Module PyStr.

(** [str.isspace] on one character, for the code points below 256:
    U+0009..U+000D, U+001C..U+0020, U+0085 and U+00A0. *)
Definition isspace (c : ascii) : bool :=
  let n := nat_of_ascii c in
  ((9 <=? n)%nat && (n <=? 13)%nat)
  || ((28 <=? n)%nat && (n <=? 32)%nat)
  || (n =? 133)%nat
  || (n =? 160)%nat.

Fixpoint lstrip (s : string) : string :=
  match s with
  | EmptyString => EmptyString
  | String c r => if isspace c then lstrip r else s
  end.

Fixpoint rstrip (s : string) : string :=
  match s with
  | EmptyString => EmptyString
  | String c r =>
      match rstrip r with
      | EmptyString => if isspace c then EmptyString else String c EmptyString
      | r' => String c r'
      end
  end.

(** [s.strip()] *)
Definition strip (s : string) : string := rstrip (lstrip s).

(** Truthiness of a [str]: non-empty. *)
Definition truthy (s : string) : bool :=
  match s with EmptyString => false | _ => true end.

Fixpoint all_space (s : string) : bool :=
  match s with
  | EmptyString => true
  | String c r => isspace c && all_space r
  end.

(** The double-quote character, and a line feed. *)
Definition dquote : string := String (ascii_of_nat 34) EmptyString.
Definition nl : string := String (ascii_of_nat 10) EmptyString.

(** ["sep".join(parts)] *)
Fixpoint join (sep : string) (parts : list string) : string :=
  match parts with
  | [] => EmptyString
  | [p] => p
  | p :: rest => p +:+ sep +:+ join sep rest
  end.

Fixpoint concat (parts : list string) : string :=
  match parts with
  | [] => EmptyString
  | p :: rest => p +:+ concat rest
  end.

End PyStr.

(** ** [modules/whisper_stt.py] *)

Module WhisperSTT.

Definition bytes := list Byte.byte.

(** [b''.join(chunks)] *)
Definition join_bytes (chunks : list bytes) : bytes := List.concat chunks.

(** [timedelta.total_seconds()] of a difference given in microseconds:
    the exact quotient. The float the code computes is the one nearest
    to it; rounding to nearest is monotone, so a test
    [x <= total_seconds d] against a float [x] that holds of the
    quotient holds of the float. *)
Definition total_seconds (d : Z) : Q := d # 1000000.

(** The mutable fields of a [WhisperSTT] object that
    [process_audio_queue] reads or writes. [data_queue] is the
    [Queue] filled by [_record_callback], oldest chunk first. *)
Record t := mk {
  data_queue : list bytes;
  phrase_bytes : bytes;
  phrase_time : option Z;
  phrase_timeout : Q;
  is_running : bool
}.

(** The dictionary returned by [process_audio_queue]. *)
Record result := mk_result {
  text : string;
  phrase_complete : bool;
  pausing : bool;
  time_remaining : Q;
  timestamp : Z
}.

(** The state built by [__init__]. *)
Definition init (timeout : Q) : t :=
  {| data_queue := [];
     phrase_bytes := [];
     phrase_time := None;
     phrase_timeout := timeout;
     is_running := false |}.

(** [_record_callback]: the capture thread puts one chunk on the queue. *)
Definition record_callback (data : bytes) (s : t) : t :=
  {| data_queue := data_queue s ++ [data];
     phrase_bytes := phrase_bytes s;
     phrase_time := phrase_time s;
     phrase_timeout := phrase_timeout s;
     is_running := is_running s |}.

Definition start_listening (s : t) : t :=
  if is_running s then s
  else {| data_queue := data_queue s;
          phrase_bytes := phrase_bytes s;
          phrase_time := phrase_time s;
          phrase_timeout := phrase_timeout s;
          is_running := true |}.

Definition stop_listening (s : t) : t :=
  {| data_queue := data_queue s;
     phrase_bytes := phrase_bytes s;
     phrase_time := phrase_time s;
     phrase_timeout := phrase_timeout s;
     is_running := false |}.

(** Truthiness of [bytes]. *)
Definition nonempty (b : bytes) : bool :=
  match b with [] => false | _ => true end.

(** [max(0, x)]: the first argument wins a tie. *)
Definition max0 (x : Q) : Q := if Qle_bool x 0 then 0%Q else x.

Section Engine.

(** The ASR engine: [audio_model.transcribe(np.frombuffer(buf, ...))['text']]
    as a function of the accumulated buffer, taken to return a text
    for every buffer (the interface of the specification: synchronous,
    best effort, possibly the empty string). No property compares the
    texts of two calls. *)
Variable transcribe : bytes -> string.

(** [process_audio_queue], with the clock reading [now] of its first
    line as an argument. The callbacks [on_transcription] and
    [on_phrase_complete] are [None] in the application and are left
    out. *)
Definition process_audio_queue (now : Z) (s : t) : t * option result :=
  match data_queue s with
  | _ :: _ =>
      (* FIRST: new audio is available *)
      let audio_data := join_bytes (data_queue s) in
      let buf := phrase_bytes s ++ audio_data in
      let txt := PyStr.strip (transcribe buf) in
      ({| data_queue := [];
          phrase_bytes := buf;
          phrase_time := Some now;
          phrase_timeout := phrase_timeout s;
          is_running := is_running s |},
       Some {| text := txt;
               phrase_complete := false;
               pausing := false;
               time_remaining := phrase_timeout s;
               timestamp := now |})
  | [] =>
      match phrase_time s with
      | None => (s, None)
      | Some last =>
          if negb (nonempty (phrase_bytes s)) then (s, None)
          else
            let time_since_stopped := total_seconds (now - last) in
            let remaining := (phrase_timeout s - time_since_stopped)%Q in
            if Qle_bool (phrase_timeout s) time_since_stopped then
              (* THIRD: countdown finished *)
              let final_text := PyStr.strip (transcribe (phrase_bytes s)) in
              ({| data_queue := [];
                  phrase_bytes := [];
                  phrase_time := None;
                  phrase_timeout := phrase_timeout s;
                  is_running := is_running s |},
               Some {| text := final_text;
                       phrase_complete := true;
                       pausing := false;
                       time_remaining := 0%Q;
                       timestamp := now |})
            else
              (* FOURTH: still counting down *)
              (s, Some {| text := EmptyString;
                          phrase_complete := false;
                          pausing := true;
                          time_remaining := max0 remaining;
                          timestamp := now |})
      end
  end.

(** A run of ticks during which the capture thread delivers nothing:
    the result of each tick, in order. *)
Fixpoint silent_ticks (times : list Z) (s : t) : list (option result) :=
  match times with
  | [] => []
  | now :: rest =>
      let '(s', r) := process_audio_queue now s in
      r :: silent_ticks rest s'
  end.

End Engine.

(** The segmenter invariant of the data model. *)
Definition buffer_iff_time (s : t) : Prop :=
  phrase_bytes s <> [] <-> phrase_time s <> None.

Definition buffer_implies_time (s : t) : Prop :=
  phrase_bytes s <> [] -> phrase_time s <> None.

End WhisperSTT.

(** ** JSON values: the Python values [json.dump] writes and [json.load]
    returns *)

Module Json.

#[local] Unset Elimination Schemes.
Inductive json : Type :=
| JNull
| JBool (b : bool)
| JInt (z : Z)
| JFloat (q : Q)
| JStr (s : string)
| JArr (items : list json)
| JObj (fields : list (string * json)).
#[local] Set Elimination Schemes.

(** A Python [dict] with string keys, in insertion order. *)
Definition dict := list (string * json).

(** [d.get(k)]: the first binding of [k]. *)
Fixpoint lookup (k : string) (d : dict) : option json :=
  match d with
  | [] => None
  | (k', v) :: rest => if String.eqb k k' then Some v else lookup k rest
  end.

(** [d.get(k, default)] *)
Definition get (k : string) (default : json) (d : dict) : json :=
  match lookup k d with Some v => v | None => default end.

(** Python truthiness. *)
Definition truthy (v : json) : bool :=
  match v with
  | JNull => false
  | JBool b => b
  | JInt z => negb (z =? 0)
  | JFloat q => negb (Qeq_bool q 0)
  | JStr s => PyStr.truthy s
  | JArr [] => false
  | JArr (_ :: _) => true
  | JObj [] => false
  | JObj (_ :: _) => true
  end.

(** [type(v).__name__] *)
Definition type_name (v : json) : string :=
  match v with
  | JNull => "NoneType"
  | JBool _ => "bool"
  | JInt _ => "int"
  | JFloat _ => "float"
  | JStr _ => "str"
  | JArr _ => "list"
  | JObj _ => "dict"
  end.

(** [v == s] for a string literal [s]. *)
Definition eq_str (v : json) (s : string) : bool :=
  match v with JStr s' => String.eqb s' s | _ => false end.

End Json.
Import Json.

(** ** The environment of the server process *)

(** Exceptions: the class name and [str(e)]. *)
Record exn := mk_exn { exn_class : string; exn_str : string }.

(** What [json.loads(line.decode('utf-8'))] does with one received line. *)
Inductive decoded :=
| Decoded (v : json)
| JSONDecodeError
| DecodeFault (e : exn).

(** The reply of the Ollama endpoint to one streaming POST: the lines
    that arrive, then either the end of the body or an exception raised
    by the transport ([aiohttp]). A failure to connect is a reply with
    no lines and a failure. *)
Record response := mk_response {
  lines : list WhisperSTT.bytes;
  failure : option exn
}.

(** Library functions and external collaborators the sources call. *)
Class Env := {
  (** wall-clock time that passes before the [k]-th reading of
      [datetime.now(timezone.utc)], in microseconds *)
  delay : nat -> Z;
  (** the Whisper model on a buffer of samples *)
  transcribe : WhisperSTT.bytes -> string;
  (** [json.loads(line.decode('utf-8'))] *)
  json_loads : WhisperSTT.bytes -> decoded;
  (** [str.upper] *)
  upper : string -> string;
  (** [datetime.isoformat] and [datetime.fromisoformat] *)
  isoformat : Z -> string;
  fromisoformat : string -> option Z;
  (** [datetime.strftime("%Y-%m-%d_%H-%M-%S")] *)
  strftime_id : Z -> string;
  (** [round(x, 2)] *)
  round2 : Q -> Q
}.

(** ** Messages sent to the client with [websocket.send_json] *)

Inductive event :=
| EvRefused (error : string)
| EvReady
| EvHistory (bot : bool) (text timestamp : json)
| EvStatus (status : string)
| EvPausing (time_remaining : Q)
| EvTranscription (text : string) (phrase_complete : bool) (timestamp : string)
| EvChunk (chunk : string) (timestamp : string)
| EvComplete (text : string) (timestamp : string)
| EvError (message : string).

(** The dictionary of each message. *)
Definition event_json (e : event) : json :=
  match e with
  | EvRefused m => JObj [("error", JStr m)]
  | EvReady => JObj [("type", JStr "ready"); ("message", JStr "Listening started")]
  | EvHistory bot tx ts =>
      JObj [("type", JStr (if bot then "bot_response" else "transcription"));
            ("text", tx); ("timestamp", ts); ("phrase_complete", JBool true)]
  | EvStatus s => JObj [("type", JStr "status"); ("status", JStr s)]
  | EvPausing r =>
      JObj [("type", JStr "status"); ("status", JStr "pausing");
            ("time_remaining", JFloat r)]
  | EvTranscription tx pc ts =>
      JObj [("type", JStr "transcription"); ("text", JStr tx);
            ("phrase_complete", JBool pc); ("timestamp", JStr ts)]
  | EvChunk c ts =>
      JObj [("type", JStr "bot_response_chunk"); ("chunk", JStr c);
            ("timestamp", JStr ts)]
  | EvComplete tx ts =>
      JObj [("type", JStr "bot_response_complete"); ("text", JStr tx);
            ("timestamp", JStr ts)]
  | EvError m => JObj [("type", JStr "error"); ("message", JStr m)]
  end.

(** ** The state of the server and the monad of its code *)

(** The fields of a [ConversationManager]. *)
Record manager := mk_manager {
  storage_dir : string;
  session_id : option string;
  pdf_context : string;
  pdf_metadata : json;
  conversation : list dict;
  session_start : option Z
}.

Record world := mk_world {
  clock : Z;                       (* wall clock at the last observation *)
  reads : nat;                     (* clock readings made so far *)
  files : gmap string json;        (* the JSON files on disk, by path *)
  cm : manager;                    (* the global [conversation_manager] *)
  stt : WhisperSTT.t;              (* the object [whisper_stt] *)
  essay : string;                  (* [current_session["pdf_context"]] *)
  sent : list event;               (* messages sent, oldest first *)
  posted : list string;            (* prompts posted to Ollama, oldest first *)
  pausing_sent : list (Z * Z)      (* ghost: for each pausing message,
                                      newest first, the clock before the
                                      send and the reading after it *)
}.

(** The outcome of running a piece of code: a value, a Python exception,
    or [Untyped] when the code goes on with a value outside the
    annotated types of the data model (the embedding stops there). *)
Inductive outcome (A : Type) :=
| Ok (a : A)
| Raise (e : exn)
| Untyped.
Arguments Ok {A} a.
Arguments Raise {A} e.
Arguments Untyped {A}.

Definition M (A : Type) : Type := world -> outcome A * world.

Definition ret {A} (a : A) : M A := fun w => (Ok a, w).

Definition bind {A B} (c : M A) (k : A -> M B) : M B :=
  fun w =>
    match c w with
    | (Ok a, w') => k a w'
    | (Raise e, w') => (Raise e, w')
    | (Untyped, w') => (Untyped, w')
    end.

Definition raise {A} (cls msg : string) : M A :=
  fun w => (Raise {| exn_class := cls; exn_str := msg |}, w).

Definition untyped {A} : M A := fun w => (Untyped, w).

(** [try: c  except Exception as e: h e] *)
Definition try_except {A} (c : M A) (h : exn -> M A) : M A :=
  fun w =>
    match c w with
    | (Raise e, w') => h e w'
    | r => r
    end.

Notation "'let*' x ':=' c 'in' k" := (bind c (fun x => k))
  (at level 10, x name, c at level 100, k at level 200).
Notation "c1 ';;;' c2" := (bind c1 (fun _ => c2))
  (at level 100, c2 at level 200, right associativity).

Definition get_world : M world := fun w => (Ok w, w).
Definition modify (f : world -> world) : M unit := fun w => (Ok tt, f w).

Definition with_clock (t : Z) (n : nat) (w : world) : world :=
  mk_world t n (files w) (cm w) (stt w) (essay w) (sent w) (posted w) (pausing_sent w).
Definition with_files (f : gmap string json) (w : world) : world :=
  mk_world (clock w) (reads w) f (cm w) (stt w) (essay w) (sent w) (posted w) (pausing_sent w).
Definition with_cm (m : manager) (w : world) : world :=
  mk_world (clock w) (reads w) (files w) m (stt w) (essay w) (sent w) (posted w) (pausing_sent w).
Definition with_stt (s : WhisperSTT.t) (w : world) : world :=
  mk_world (clock w) (reads w) (files w) (cm w) s (essay w) (sent w) (posted w) (pausing_sent w).
Definition with_sent (l : list event) (w : world) : world :=
  mk_world (clock w) (reads w) (files w) (cm w) (stt w) (essay w) l (posted w) (pausing_sent w).
Definition with_posted (l : list string) (w : world) : world :=
  mk_world (clock w) (reads w) (files w) (cm w) (stt w) (essay w) (sent w) l (pausing_sent w).
Definition with_pausing_sent (l : list (Z * Z)) (w : world) : world :=
  mk_world (clock w) (reads w) (files w) (cm w) (stt w) (essay w) (sent w) (posted w) l.

Section Primitives.
Context `{Env}.

(** [datetime.now(timezone.utc)] *)
Definition now : M Z :=
  fun w =>
    let t := clock w + delay (reads w) in
    (Ok t, with_clock t (S (reads w)) w).

(** [await asyncio.sleep(seconds)], in microseconds: at least that much
    time passes; any excess is part of the next [delay]. *)
Definition sleep (us : Z) : M unit :=
  modify (fun w => with_clock (clock w + us) (reads w) w).

(** [await websocket.send_json(...)], the client being connected. *)
Definition send_json (e : event) : M unit :=
  modify (fun w => with_sent (sent w ++ [e]) w).

End Primitives.

(** ** [modules/conversation_manager.py] *)

Module ConversationManager.

Definition with_session_id (v : option string) (m : manager) : manager :=
  mk_manager (storage_dir m) v (pdf_context m) (pdf_metadata m)
             (conversation m) (session_start m).
Definition with_pdf_context (v : string) (m : manager) : manager :=
  mk_manager (storage_dir m) (session_id m) v (pdf_metadata m)
             (conversation m) (session_start m).
Definition with_pdf_metadata (v : json) (m : manager) : manager :=
  mk_manager (storage_dir m) (session_id m) (pdf_context m) v
             (conversation m) (session_start m).
Definition with_conversation (v : list dict) (m : manager) : manager :=
  mk_manager (storage_dir m) (session_id m) (pdf_context m) (pdf_metadata m)
             v (session_start m).
Definition with_session_start (v : option Z) (m : manager) : manager :=
  mk_manager (storage_dir m) (session_id m) (pdf_context m) (pdf_metadata m)
             (conversation m) v.

(** The object built by [__init__]. *)
Definition init (dir : string) : manager :=
  mk_manager dir None EmptyString (JObj []) [] None.

Definition update (f : manager -> manager) : M unit :=
  modify (fun w => with_cm (f (cm w)) w).

(** [os.path.join(a, b)] on a POSIX system. *)
Definition starts_with_slash (s : string) : bool :=
  match s with
  | String c _ => Ascii.eqb c "/"
  | EmptyString => false
  end.

Fixpoint ends_with_slash (s : string) : bool :=
  match s with
  | EmptyString => false
  | String c EmptyString => Ascii.eqb c "/"
  | String _ r => ends_with_slash r
  end.

Definition path_join (a b : string) : string :=
  if starts_with_slash b then b
  else if negb (PyStr.truthy a) || ends_with_slash a then a +:+ b
  else a +:+ "/" +:+ b.

(** [os.path.join(self.storage_dir, f"{session_id}.json")] *)
Definition session_path (m : manager) (sid : string) : string :=
  path_join (storage_dir m) (sid +:+ ".json").

(** [sum(1 for msg in conversation if msg['speaker'] == who)] *)
Fixpoint count_speaker (who : string) (conv : list dict) : M Z :=
  match conv with
  | [] => ret 0
  | msg :: rest =>
      match Json.lookup "speaker" msg with
      | None => raise "KeyError" "'speaker'"
      | Some v =>
          let* n := count_speaker who rest in
          ret ((if Json.eq_str v who then 1 else 0) + n)
      end
  end.

(** The slice [lst[-n:]] for [n > 0]. *)
Definition last_n {A} (n : nat) (l : list A) : list A :=
  skipn (length l - n) l.

Section Methods.
Context `{Env}.

(** The dictionary [session_data] that [save_session] dumps. *)
Definition session_data (m : manager) (sid : string) (duration : json)
    (students bots : Z) : json :=
  JObj [("session_id", JStr sid);
        ("session_start",
           match session_start m with
           | Some t0 => JStr (isoformat t0)
           | None => JNull
           end);
        ("session_duration_seconds", duration);
        ("pdf_context", JStr (pdf_context m));
        ("pdf_metadata", pdf_metadata m);
        ("conversation", JArr (map JObj (conversation m)));
        ("message_count", JInt (Z.of_nat (length (conversation m))));
        ("student_messages", JInt students);
        ("bot_messages", JInt bots)].

(** [start_session(pdf_context, pdf_metadata)] *)
Definition start_session (context : string) (metadata : json) : M string :=
  let* t := now in
  let sid := strftime_id t in
  update (fun m =>
    mk_manager (storage_dir m) (Some sid) context
               (if Json.truthy metadata then metadata else JObj [])
               [] (Some t)) ;;;
  ret sid.

(** [save_session(filepath)] *)
Definition save_session (filepath : option string) : M string :=
  let* w := get_world in
  let m := cm w in
  match session_id m with
  | None => raise "ValueError" "No active session to save"
  | Some sid =>
      if negb (PyStr.truthy sid) then
        raise "ValueError" "No active session to save"
      else
        let path :=
          match filepath with
          | Some p => if PyStr.truthy p then p else session_path m sid
          | None => session_path m sid
          end in
        let* duration :=
          match session_start m with
          | Some t0 =>
              let* t := now in
              ret (JFloat (WhisperSTT.total_seconds (t - t0)))
          | None => ret JNull
          end in
        let* students := count_speaker "student" (conversation m) in
        let* bots := count_speaker "bot" (conversation m) in
        let data := session_data m sid duration students bots in
        modify (fun w => with_files (<[path := data]> (files w)) w) ;;;
        ret path
  end.

(** [add_message(speaker, text, audio_duration, audio_file, metadata)] *)
Definition add_message (speaker text : string) (audio_duration : option Q)
    (audio_file : option string) (metadata : option json) : M dict :=
  let* t := now in
  let message :=
    [("timestamp", JStr (isoformat t));
     ("speaker", JStr speaker);
     ("text", JStr text)]
    ++ match audio_duration with
       | Some d => [("audio_duration", JFloat (round2 d))]
       | None => []
       end
    ++ match audio_file with
       | Some f => if PyStr.truthy f then [("audio_file", JStr f)] else []
       | None => []
       end
    ++ match metadata with
       | Some md => if Json.truthy md then [("metadata", md)] else []
       | None => []
       end in
  update (fun m => with_conversation (conversation m ++ [message]) m) ;;;
  save_session None ;;;
  ret message.

(** [get_conversation_history(last_n)] *)
Definition get_conversation_history (n : option Z) : M (list dict) :=
  let* w := get_world in
  let conv := conversation (cm w) in
  match n with
  | None => ret conv
  | Some 0 => ret conv
  | Some (Zpos p) => ret (last_n (Pos.to_nat p) conv)
  | Some (Zneg p) => ret (skipn (Pos.to_nat p) conv)
  end.

(** [data[key]] for a decoded JSON document. *)
Definition subscript (key : string) (data : json) : M json :=
  match data with
  | JObj d =>
      match Json.lookup key d with
      | Some v => ret v
      | None => raise "KeyError" ("'" +:+ key +:+ "'")
      end
  | _ => raise "TypeError" (Json.type_name data)
  end.

Fixpoint as_dicts (items : list json) : option (list dict) :=
  match items with
  | [] => Some []
  | JObj d :: rest =>
      match as_dicts rest with
      | Some ds => Some (d :: ds)
      | None => None
      end
  | _ :: _ => None
  end.

(** [load_session(session_id)]. The fields are assigned one by one;
    an exception on the way leaves the earlier assignments in place
    and makes the method return [False]. *)
Definition load_session (sid : string) : M bool :=
  let* w := get_world in
  let filepath := session_path (cm w) sid in
  match files w !! filepath with
  | None => ret false
  | Some data =>
      try_except
        (let* v_id := subscript "session_id" data in
         (match v_id with
          | JStr s => update (with_session_id (Some s))
          | JNull => update (with_session_id None)
          | _ => untyped
          end) ;;;
         let v_start :=
           match data with
           | JObj d => Json.get "session_start" JNull d
           | _ => JNull
           end in
         (if Json.truthy v_start then
            match v_start with
            | JStr s =>
                match fromisoformat s with
                | Some t => update (with_session_start (Some t))
                | None => raise "ValueError" ("Invalid isoformat string: " +:+ s)
                end
            | _ => raise "TypeError" "fromisoformat: argument must be str"
            end
          else update (with_session_start None)) ;;;
         let* v_ctx := subscript "pdf_context" data in
         (match v_ctx with
          | JStr s => update (with_pdf_context s)
          | _ => untyped
          end) ;;;
         let v_meta :=
           match data with
           | JObj d => Json.get "pdf_metadata" (JObj []) d
           | _ => JObj []
           end in
         update (with_pdf_metadata v_meta) ;;;
         let* v_conv := subscript "conversation" data in
         (match v_conv with
          | JArr items =>
              match as_dicts items with
              | Some ds => update (with_conversation ds)
              | None => untyped
              end
          | _ => untyped
          end) ;;;
         ret true)
        (fun _ => ret false)
  end.

End Methods.

(** Every turn of the conversation has a ['speaker'] entry. *)
Definition has_speaker (msg : dict) : Prop := Json.lookup "speaker" msg <> None.

End ConversationManager.

(** ** [modules/ollama_client.py] *)

Module OllamaClient.

Definition SOCRATIC_SYSTEM_PROMPT : string :=
  "You are a Socratic tutor helping a student defend their essay through critical questioning."
  +:+ PyStr.nl +:+ PyStr.nl +:+
  "Your role:" +:+ PyStr.nl +:+
  "- Ask probing questions to challenge assumptions and claims" +:+ PyStr.nl +:+
  "- Request specific evidence and reasoning" +:+ PyStr.nl +:+
  "- Highlight potential logical inconsistencies or gaps" +:+ PyStr.nl +:+
  "- Guide the student to think deeper without giving direct answers" +:+ PyStr.nl +:+
  "- Be respectful but intellectually rigorous" +:+ PyStr.nl +:+
  "- Keep responses conversational and under 50 words" +:+ PyStr.nl +:+
  "- Focus on one question or challenge at a time" +:+ PyStr.nl +:+ PyStr.nl +:+
  "Remember: Your goal is to strengthen their argument by making them defend it thoroughly.".

(** [f"[Error: {str(e)}]"] *)
Definition error_fragment (e : exn) : json :=
  JStr ("[Error: " +:+ exn_str e +:+ "]").

Definition no_get (v : json) : exn :=
  {| exn_class := "AttributeError";
     exn_str := "'" +:+ Json.type_name v +:+ "' object has no attribute 'get'" |}.

Section Client.
Context `{Env}.

(** The body of [async for line in response.content]: the chunks
    yielded, and the exception that leaves the loop, if any. A
    [JSONDecodeError] skips the line; any other exception leaves the
    loop. *)
Fixpoint read_lines (ls : list WhisperSTT.bytes) : list json * option exn :=
  match ls with
  | [] => ([], None)
  | line :: rest =>
      if WhisperSTT.nonempty line then
        match json_loads line with
        | JSONDecodeError => read_lines rest
        | DecodeFault e => ([], Some e)
        | Decoded (JObj d) =>
            let chunk := Json.get "response" (JStr EmptyString) d in
            if Json.truthy chunk then
              let '(cs, e) := read_lines rest in (chunk :: cs, e)
            else read_lines rest
        | Decoded v => ([], Some (no_get v))
        end
      else read_lines rest
  end.

(** [generate_stream(prompt)]: everything the generator yields before
    it ends, [server] being the reply of the endpoint to the POST. *)
Definition generate_stream (server : string -> response) (prompt : string)
    : list json :=
  let r := server prompt in
  let '(cs, e) := read_lines (lines r) in
  match e with
  | Some e => cs ++ [error_fragment e]
  | None =>
      match failure r with
      | Some e => cs ++ [error_fragment e]
      | None => cs
      end
  end.

(** One line [f"{msg['speaker'].upper()}: {msg['text']}"] of the history. *)
Definition history_line (msg : dict) : M string :=
  match Json.lookup "speaker" msg with
  | None => raise "KeyError" "'speaker'"
  | Some (JStr sp) =>
      match Json.lookup "text" msg with
      | None => raise "KeyError" "'text'"
      | Some (JStr tx) => ret (upper sp +:+ ": " +:+ tx)
      | Some _ => untyped
      end
  | Some v =>
      raise "AttributeError"
        ("'" +:+ Json.type_name v +:+ "' object has no attribute 'upper'")
  end.

Fixpoint history_lines (msgs : list dict) : M (list string) :=
  match msgs with
  | [] => ret []
  | msg :: rest =>
      let* l := history_line msg in
      let* ls := history_lines rest in
      ret (l :: ls)
  end.

(** The prompt of [generate_socratic_response_stream]. *)
Definition socratic_prompt (student_input essay : string)
    (conversation_history : list dict) : M string :=
  let* ls := history_lines (ConversationManager.last_n 6 conversation_history) in
  let history_text := PyStr.join PyStr.nl ls in
  ret (SOCRATIC_SYSTEM_PROMPT +:+ PyStr.nl +:+ PyStr.nl +:+
       "Essay Context (first 500 words):" +:+ PyStr.nl +:+
       essay +:+ PyStr.nl +:+ PyStr.nl +:+
       "Recent Conversation:" +:+ PyStr.nl +:+
       (if PyStr.truthy history_text then history_text
        else "(No prior conversation)") +:+ PyStr.nl +:+ PyStr.nl +:+
       "Student's latest statement:" +:+ PyStr.nl +:+
       PyStr.dquote +:+ student_input +:+ PyStr.dquote +:+ PyStr.nl +:+ PyStr.nl +:+
       "Your Socratic response:").

(** [generate_socratic_response_stream]: builds the prompt, posts it,
    and yields what [generate_stream] yields. *)
Definition generate_socratic_response_stream (server : string -> response)
    (student_input essay : string) (conversation_history : list dict)
    : M (list json) :=
  let* prompt := socratic_prompt student_input essay conversation_history in
  modify (fun w => with_posted (posted w ++ [prompt]) w) ;;;
  ret (generate_stream server prompt).

End Client.

End OllamaClient.

(** ** [app.py]: [websocket_conversation] *)

Module App.

(** The two variables of the main loop. *)
Record locals := mk_locals {
  current_student_text : string;
  last_pausing_time : option Z
}.

Definition reset : locals :=
  {| current_student_text := EmptyString; last_pausing_time := None |}.

(** What the outside world does during one iteration of the loop: the
    chunks the capture thread has put on the queue since the last
    iteration, and how the Ollama endpoint answers a prompt. *)
Record tick := mk_tick {
  arrived : list WhisperSTT.bytes;
  server : string -> response
}.

Definition concat_error (v : json) : string :=
  "can only concatenate str (not " +:+ PyStr.dquote +:+ Json.type_name v
  +:+ PyStr.dquote +:+ ") to str".

Section Loop.
Context `{Env}.

(** [await asyncio.sleep(0.25)] *)
Definition pause : M unit := sleep 250000.

(** [whisper_stt.process_audio_queue()] on the shared object. *)
Definition poll (chunks : list WhisperSTT.bytes) : M (option WhisperSTT.result) :=
  modify (fun w =>
    with_stt (fold_left (fun s d => WhisperSTT.record_callback d s) chunks (stt w)) w) ;;;
  let* t := now in
  let* w := get_world in
  let '(s', r) := WhisperSTT.process_audio_queue transcribe t (stt w) in
  modify (with_stt s') ;;;
  ret r.

(** The body of [async for chunk in ...], over the chunks yielded. *)
Fixpoint consume (chunks : list json) (full_response : string) : M string :=
  match chunks with
  | [] => ret full_response
  | chunk :: rest =>
      if Json.truthy chunk then
        match chunk with
        | JStr c =>
            let* t := now in
            send_json (EvChunk c (isoformat t)) ;;;
            consume rest (full_response +:+ c)
        | _ => raise "TypeError" (concat_error chunk)
        end
      else consume rest full_response
  end.

(** The phrase round trip, lines 244 to 296. *)
Definition respond (tk : tick) (r : WhisperSTT.result) : M locals :=
  let text := WhisperSTT.text r in
  send_json (EvTranscription text true (isoformat (WhisperSTT.timestamp r))) ;;;
  ConversationManager.add_message "student" text None None None ;;;
  send_json (EvStatus "analyzing") ;;;
  let* conversation_history :=
    ConversationManager.get_conversation_history (Some 10) in
  send_json (EvStatus "responding") ;;;
  let* w := get_world in
  let* chunks :=
    OllamaClient.generate_socratic_response_stream
      (server tk) text (essay w) conversation_history in
  let* full_response := consume chunks EmptyString in
  let* t := now in
  send_json (EvComplete full_response (isoformat t)) ;;;
  ConversationManager.add_message "bot" full_response None None None ;;;
  send_json (EvStatus "listening") ;;;
  pause ;;;
  ret reset.

(** The pausing branch, lines 221 to 231. *)
Definition on_pausing (r : WhisperSTT.result) (l : locals) : M locals :=
  let* due :=
    match last_pausing_time l with
    | None => ret true
    | Some last =>
        let* t := now in
        ret (Qle_bool (1 # 2) (WhisperSTT.total_seconds (t - last)))
    end in
  if due then
    let* w := get_world in
    send_json (EvPausing (WhisperSTT.time_remaining r)) ;;;
    let* t := now in
    modify (fun w' => with_pausing_sent ((clock w, t) :: pausing_sent w') w') ;;;
    pause ;;;
    ret {| current_student_text := current_student_text l;
           last_pausing_time := Some t |}
  else
    pause ;;; ret l.

(** The live-update branch, lines 299 to 313. *)
Definition on_live (r : WhisperSTT.result) (l : locals) : M locals :=
  let text := WhisperSTT.text r in
  if PyStr.truthy text && negb (String.eqb text (current_student_text l)) then
    send_json (EvTranscription text false (isoformat (WhisperSTT.timestamp r))) ;;;
    send_json (EvStatus "listening") ;;;
    pause ;;;
    ret {| current_student_text := text; last_pausing_time := None |}
  else
    pause ;;; ret l.

(** What the loop does with the result of one poll. *)
Definition dispatch (tk : tick) (result : option WhisperSTT.result)
    (l : locals) : M locals :=
  match result with
  | None => pause ;;; ret l
  | Some r =>
      if WhisperSTT.pausing r then on_pausing r l
      else if WhisperSTT.phrase_complete r then
        if negb (PyStr.truthy (PyStr.strip (WhisperSTT.text r))) then
          (* skip empty phrases; [continue] skips the sleep *)
          send_json (EvStatus "listening") ;;;
          ret reset
        else respond tk r
      else on_live r l
  end.

(** One iteration of [while True]. *)
Definition iteration (tk : tick) (l : locals) : M locals :=
  let* result := poll (arrived tk) in
  dispatch tk result l.

Fixpoint main_loop (ticks : list tick) (l : locals) : M locals :=
  match ticks with
  | [] => ret l
  | tk :: rest =>
      let* l' := iteration tk l in
      main_loop rest l'
  end.

(** The replay of the conversation history, lines 202 to 208. *)
Fixpoint replay (msgs : list dict) : M unit :=
  match msgs with
  | [] => ret tt
  | msg :: rest =>
      let* sp := ConversationManager.subscript "speaker" (JObj msg) in
      let* tx := ConversationManager.subscript "text" (JObj msg) in
      let* ts := ConversationManager.subscript "timestamp" (JObj msg) in
      send_json (EvHistory (Json.eq_str sp "bot") tx ts) ;;;
      replay rest
  end.

(** [websocket_conversation], for as long as the environment is
    described by [ticks]. The result is [Some l] when the loop is
    still running, with its variables [l], and [None] when the
    handler has returned. *)
Definition websocket_conversation (session_active : bool)
    (whisper_stt : option WhisperSTT.t) (ticks : list tick)
    : M (option locals) :=
  if negb session_active then
    send_json (EvRefused "No active session") ;;; ret None
  else
    match whisper_stt with
    | None => send_json (EvRefused "Whisper not initialized") ;;; ret None
    | Some s =>
        modify (with_stt (WhisperSTT.start_listening s)) ;;;
        fun w =>
          match (send_json EvReady ;;;
                 let* history :=
                   ConversationManager.get_conversation_history None in
                 replay history ;;;
                 main_loop ticks reset) w with
          | (Ok l, w') => (Ok (Some l), w')
          | (Raise e, w') =>
              (send_json (EvError (exn_str e)) ;;;
               modify (fun w => with_stt (WhisperSTT.stop_listening (stt w)) w) ;;;
               ret None) w'
          | (Untyped, w') => (Untyped, w')
          end
    end.

End Loop.

(** *** Reading the log of sent messages *)

Definition is_transcription (e : event) : bool :=
  match e with EvTranscription _ _ _ => true | _ => false end.

(** The texts of the incomplete (live) transcriptions, in order. *)
Fixpoint live_texts (log : list event) : list string :=
  match log with
  | [] => []
  | EvTranscription tx false _ :: rest => tx :: live_texts rest
  | _ :: rest => live_texts rest
  end.

(** The fragments of the [bot_response_chunk] messages, in order. *)
Fixpoint chunk_texts (log : list event) : list string :=
  match log with
  | [] => []
  | EvChunk c _ :: rest => c :: chunk_texts rest
  | _ :: rest => chunk_texts rest
  end.

(** The texts of the [bot_response_complete] messages, in order. *)
Fixpoint complete_texts (log : list event) : list string :=
  match log with
  | [] => []
  | EvComplete tx _ :: rest => tx :: complete_texts rest
  | _ :: rest => complete_texts rest
  end.

(** No two neighbours of a list are equal. *)
Fixpoint no_repeat (l : list string) : Prop :=
  match l with
  | a :: (b :: _) as rest => a <> b /\ no_repeat rest
  | _ => True
  end.

(** Consecutive pausing messages, newest first, are half a second
    apart: the clock before a send is at least 500 ms after the
    reading that followed the previous send. *)
Fixpoint throttled (stamps : list (Z * Z)) : Prop :=
  match stamps with
  | (lo2, _) :: ((_, hi1) :: _) as rest => hi1 + 500000 <= lo2 /\ throttled rest
  | _ => True
  end.

End App.

(** ** [modules/pdf_parser.py] *)

Module PDFParser.

(** [text.split()]: the maximal runs of characters that are not
    whitespace. [word] is the run being read. *)
Fixpoint split_from (s : string) (word : string) : list string :=
  match s with
  | EmptyString => if PyStr.truthy word then [word] else []
  | String c r =>
      if PyStr.isspace c then
        if PyStr.truthy word then word :: split_from r EmptyString
        else split_from r EmptyString
      else split_from r (word +:+ String c EmptyString)
  end.

Definition split (s : string) : list string := split_from s EmptyString.

(** The inner loop of [extract_first_n_words]: the words of one page
    are appended until there are [n_words] of them. *)
Fixpoint take_words (words : list string) (n_words : Z)
    (all_text : list string) (word_count : Z) : list string * Z :=
  match words with
  | [] => (all_text, word_count)
  | word :: rest =>
      if n_words <=? word_count then (all_text, word_count)
      else take_words rest n_words (all_text ++ [word]) (word_count + 1)
  end.

(** The outer loop, over the texts [page.extract_text()] of the pages;
    a page after the one that completes the count is not read. *)
Fixpoint read_pages (pages : list string) (n_words : Z)
    (all_text : list string) (word_count : Z) : list string :=
  match pages with
  | [] => all_text
  | text :: rest =>
      let '(all_text', word_count') :=
        take_words (split text) n_words all_text word_count in
      if n_words <=? word_count' then all_text'
      else read_pages rest n_words all_text' word_count'
  end.

(** [extract_first_n_words], on the texts of the pages of the file. *)
Definition extract_first_n_words (pages : list string) (n_words : Z) : string :=
  PyStr.join " " (read_pages pages n_words [] 0).

(** A word: not empty, no whitespace in it. *)
Fixpoint no_space (s : string) : bool :=
  match s with
  | EmptyString => true
  | String c r => negb (PyStr.isspace c) && no_space r
  end.

Definition is_word (s : string) : bool := PyStr.truthy s && no_space s.

End PDFParser.

(** ** Vocabulary of the properties *)

Module Obs.

(** The number of pausing messages in a log. *)
Fixpoint count_pausing (log : list event) : nat :=
  match log with
  | [] => 0
  | EvPausing _ :: rest => S (count_pausing rest)
  | _ :: rest => count_pausing rest
  end.

Definition is_pausing (e : event) : bool :=
  match e with EvPausing _ => true | _ => false end.

(** Code that sends no pausing message, leaves the segmenter alone and
    during which time does not run backwards. *)
Definition frame (w w' : world) : Prop :=
  pausing_sent w' = pausing_sent w
  /\ stt w' = stt w
  /\ clock w <= clock w'
  /\ count_pausing (sent w') = count_pausing (sent w).

Definition framed {A} (c : M A) : Prop := forall w, frame w (snd (c w)).

(** Code that, when it returns, returns the reset loop variables after
    a sleep of 250 ms. *)
Definition ends_slept (c : M App.locals) : Prop :=
  forall w,
    frame w (snd (c w))
    /\ forall l, fst (c w) = Ok l ->
         l = App.reset /\ clock w + 250000 <= clock (snd (c w)).

(** The pausing stamps are half a second apart and there is one for
    each pausing message sent. *)
Definition logged (w : world) : Prop :=
  App.throttled (pausing_sent w)
  /\ length (pausing_sent w) = count_pausing (sent w).

(** The invariant of the main loop, at the top of an iteration. *)
Definition loop_inv (l : App.locals) (w : world) : Prop :=
  logged w
  /\ match pausing_sent w with
     | [] => App.last_pausing_time l = None
     | (_, hi) :: _ =>
         (App.last_pausing_time l = Some hi /\ hi + 250000 <= clock w)
         \/ (App.last_pausing_time l = None /\ hi + 500000 <= clock w)
         \/ (App.last_pausing_time l = None /\ hi + 250000 <= clock w
             /\ WhisperSTT.phrase_bytes (stt w) = [])
     end.

(** A result of the segmenter that is a live update. *)
Definition is_live (r : WhisperSTT.result) : Prop :=
  WhisperSTT.pausing r = false /\ WhisperSTT.phrase_complete r = false.

(** A turn as [add_message] builds it: a speaker and a text, both
    strings. *)
Definition is_turn (msg : dict) : bool :=
  match Json.lookup "speaker" msg, Json.lookup "text" msg with
  | Some (JStr _), Some (JStr _) => true
  | _, _ => false
  end.

(** The ["response"] entry of a decoded line, as [generate_stream]
    reads it: [data.get("response", "")]. *)
Definition response_of `{Env} (line : WhisperSTT.bytes) : json :=
  match json_loads line with
  | Decoded (JObj d) => Json.get "response" (JStr EmptyString) d
  | _ => JStr EmptyString
  end.

(** A line that [generate_stream] skips: empty, or not JSON. *)
Definition skipped `{Env} (line : WhisperSTT.bytes) : Prop :=
  line = [] \/ json_loads line = JSONDecodeError.

(** The exception, other than [JSONDecodeError], that a line raises in
    the body of [generate_stream]. *)
Definition fault_of `{Env} (line : WhisperSTT.bytes) : option exn :=
  if WhisperSTT.nonempty line then
    match json_loads line with
    | DecodeFault e => Some e
    | Decoded (JObj _) => None
    | Decoded v => Some (OllamaClient.no_get v)
    | JSONDecodeError => None
    end
  else None.

(** A stored turn that the replay on connection can read, and the
    message it is replayed as. *)
Definition is_record (msg : dict) : bool :=
  match Json.lookup "speaker" msg, Json.lookup "text" msg,
        Json.lookup "timestamp" msg with
  | Some _, Some _, Some _ => true
  | _, _, _ => false
  end.

Definition history_event (msg : dict) : event :=
  EvHistory (Json.eq_str (Json.get "speaker" JNull msg) "bot")
            (Json.get "text" JNull msg) (Json.get "timestamp" JNull msg).

(** The exception of [save_session] without a session. *)
Definition no_session : exn :=
  {| exn_class := "ValueError"; exn_str := "No active session to save" |}.

(** The number of turns whose speaker is [who]. *)
Definition count_who (who : string) (conv : list dict) : Z :=
  Z.of_nat (length (List.filter
    (fun msg => match Json.lookup "speaker" msg with
                | Some v => Json.eq_str v who
                | None => false
                end) conv)).

(** A turn with a ['speaker'] entry. *)
Definition speaks (msg : dict) : bool :=
  match Json.lookup "speaker" msg with Some _ => true | None => false end.

Definition is_text (v : json) : bool :=
  match v with JStr _ => true | _ => false end.

Definition text_of (v : json) : string :=
  match v with JStr s => s | _ => EmptyString end.

Definition is_chunk (e : event) : bool :=
  match e with EvChunk _ _ => true | _ => false end.

(** The manager holds a session that [save_session] accepts. *)
Definition session_ok (m : manager) : Prop :=
  (exists sid, session_id m = Some sid /\ PyStr.truthy sid = true)
  /\ forallb is_turn (conversation m) = true.

(** The turn [add_message(speaker, text)] appends at time [t]. *)
Definition turn `{Env} (t : Z) (speaker text : string) : dict :=
  [("timestamp", JStr (isoformat t)); ("speaker", JStr speaker);
   ("text", JStr text)].

(** A message the main loop may send: a live transcription with a
    text, a final transcription whose text is not blank, a status, a
    chunk or a complete response. *)
Definition event_ok (e : event) : bool :=
  match e with
  | EvTranscription tx false _ => PyStr.truthy tx
  | EvTranscription tx true _ => PyStr.truthy (PyStr.strip tx)
  | EvStatus _ | EvPausing _ | EvChunk _ _ | EvComplete _ _ => true
  | EvRefused _ | EvReady | EvHistory _ _ _ | EvError _ => false
  end.

(** The numbers of final transcriptions and of complete responses in
    a log. *)
Fixpoint count_final (log : list event) : nat :=
  match log with
  | [] => 0
  | EvTranscription _ true _ :: rest => S (count_final rest)
  | _ :: rest => count_final rest
  end.

Fixpoint count_complete (log : list event) : nat :=
  match log with
  | [] => 0
  | EvComplete _ _ :: rest => S (count_complete rest)
  | _ :: rest => count_complete rest
  end.

(** A student turn with a text that is not blank, and a bot turn, as
    [add_message] builds them. *)
Definition student_turn `{Env} (msg : dict) : Prop :=
  exists t tx, msg = turn t "student" tx
               /\ PyStr.truthy (PyStr.strip tx) = true.

Definition bot_turn `{Env} (msg : dict) : Prop :=
  exists t tx, msg = turn t "bot" tx.

(** Turns in strict alternation, a student turn first; [exchanges]
    when the last turn is a bot turn. *)
Fixpoint dialogue `{Env} (l : list dict) : Prop :=
  match l with
  | [] => True
  | [s] => student_turn s
  | s :: b :: rest => student_turn s /\ bot_turn b /\ dialogue rest
  end.

Fixpoint exchanges `{Env} (l : list dict) : Prop :=
  match l with
  | [] => True
  | [s] => False
  | s :: b :: rest => student_turn s /\ bot_turn b /\ exchanges rest
  end.

(** What a piece of the loop leaves behind: messages [evs], turns
    [new] and prompts [ps]. *)
Definition leaves (w w' : world) (evs : list event) (new : list dict)
    (ps : list string) : Prop :=
  sent w' = sent w ++ evs
  /\ conversation (cm w') = conversation (cm w) ++ new
  /\ posted w' = posted w ++ ps.


Section Runs.
Context `{Env}.

(** The loop fed with a sequence of segmenter results. *)
Fixpoint dispatch_all (tk : App.tick) (results : list WhisperSTT.result)
    (l : App.locals) : M App.locals :=
  match results with
  | [] => ret l
  | r :: rest =>
      let* l' := App.dispatch tk (Some r) l in
      dispatch_all tk rest l'
  end.

End Runs.

End Obs.

(** ** A small environment to run the model on *)

Module Demo.

Definition epoch : string := "1970-01-01T00:00:00+00:00".

(** A clock that advances 1 ms per reading, a recogniser that hears
    one word per non-zero sample byte, an endpoint whose lines each
    carry the fragment ["Why? "], the line of one zero byte excepted. *)
#[local] Instance env : Env := {|
  delay := fun _ => 1000;
  transcribe := fun buf =>
    PyStr.join " "
      (map (fun b => match b with Byte.x00 => EmptyString | _ => "la" end) buf);
  json_loads := fun line =>
    match line with
    | [Byte.x00] => JSONDecodeError
    | _ => Decoded (JObj [("response", JStr "Why? "); ("done", JBool false)])
    end;
  upper := fun s => s;
  isoformat := fun _ => epoch;
  fromisoformat := fun _ => Some 0;
  strftime_id := fun _ => "1970-01-01_00-00-00";
  round2 := fun q => q
|}.

Definition silent_server (_ : string) : response :=
  {| lines := []; failure := None |}.

Definition chunk : WhisperSTT.bytes := [Byte.x01; Byte.x02].
Definition silence : WhisperSTT.bytes := [Byte.x00; Byte.x00].

Definition manager0 : manager :=
  mk_manager "conversations" (Some "1970-01-01_00-00-00") "An essay." (JObj [])
             [] (Some 0).

Definition world0 : world :=
  mk_world 0 0 ∅ manager0 (WhisperSTT.init 5) "An essay." [] [] [].

(** Two lines, then the end of the body. *)
Definition talking_server (_ : string) : response :=
  {| lines := [[Byte.x01]; [Byte.x02]]; failure := None |}.

(** One line, then the connection drops. *)
Definition failing_server (_ : string) : response :=
  {| lines := [[Byte.x01]];
     failure := Some {| exn_class := "ClientPayloadError";
                        exn_str := "Response payload is not completed" |} |}.

Definition audio : App.tick := App.mk_tick [chunk] silent_server.
Definition quiet : App.tick := App.mk_tick [] silent_server.
Definition talk : App.tick := App.mk_tick [] talking_server.
Definition drop : App.tick := App.mk_tick [] failing_server.

(** A finished phrase, and live updates. *)
Definition phrase : WhisperSTT.result :=
  WhisperSTT.mk_result "la la" true false 0 6000000.
Definition live (text : string) : WhisperSTT.result :=
  WhisperSTT.mk_result text false false 5 0.

(** Six seconds after two bytes of silence were heard. *)
Definition world_silence : world :=
  mk_world 6000000 0 ∅ manager0
    (WhisperSTT.mk [] silence (Some 0) 5 true) "An essay." [] [] [].

(** A manager that has talked, one with a turn that lacks its speaker,
    and a world with no session, six seconds after a chunk was heard. *)
Definition talked : manager :=
  mk_manager "conversations" (Some "1970-01-01_00-00-00") "An essay." (JObj [])
             [Obs.turn 0 "student" "la"; Obs.turn 0 "bot" "Why? "] (Some 0).

Definition world_talked : world :=
  mk_world 0 0 ∅ talked (WhisperSTT.init 5) "An essay." [] [] [].

(** The same conversation with the metadata of a three-page essay. *)
Definition world_archived : world :=
  mk_world 0 0 ∅
    (mk_manager "conversations" (Some "1970-01-01_00-00-00") "An essay."
       (JObj [("title", JStr "On doubt"); ("author", JStr "Unknown");
              ("pages", JInt 3)])
       [Obs.turn 0 "student" "la"; Obs.turn 0 "bot" "Why? "] (Some 0))
    (WhisperSTT.init 5) "An essay." [] [] [].

Definition world_nameless : world :=
  mk_world 0 0 ∅
    (mk_manager "conversations" (Some "1970-01-01_00-00-00") "An essay."
       (JObj []) [[("text", JStr "la")]] (Some 0))
    (WhisperSTT.init 5) "An essay." [] [] [].

Definition world_closed : world :=
  mk_world 6000000 0 ∅ (ConversationManager.init "conversations")
    (WhisperSTT.init 5) "" [] [] [].

(** A file that names a session and an essay and has no conversation. *)
Definition stub : dict :=
  [("session_id", JStr "other"); ("pdf_context", JStr "Another essay.")].

Definition world_stub : world :=
  mk_world 0 0 (<[ "conversations/other.json" := JObj stub ]> ∅) manager0
    (WhisperSTT.init 5) "An essay." [] [] [].

(** The reply of [talking_server] with a line that is not JSON in the
    middle. *)
Definition stuttering_server (_ : string) : response :=
  {| lines := [[Byte.x01]; [Byte.x00]; [Byte.x02]]; failure := None |}.

(** An environment whose decoder rejects the byte [0xff], and a reply
    with that byte on its second line. *)
Definition not_utf8 : exn :=
  {| exn_class := "UnicodeDecodeError";
     exn_str := "'utf-8' codec can't decode byte 0xff in position 0: invalid start byte" |}.

Definition env_strict : Env := {|
  delay := fun _ => 1000;
  transcribe := @transcribe env;
  json_loads := fun line =>
    match line with
    | [Byte.xff] => DecodeFault not_utf8
    | _ => @json_loads env line
    end;
  upper := fun s => s;
  isoformat := fun _ => epoch;
  fromisoformat := fun _ => Some 0;
  strftime_id := fun _ => "1970-01-01_00-00-00";
  round2 := fun q => q
|}.

Definition garbled_server (_ : string) : response :=
  {| lines := [[Byte.x01]; [Byte.xff]; [Byte.x02]]; failure := None |}.

End Demo.

(** * Properties *)

(** ** Strings *)

Lemma lstrip_all_space (s : string) :
  PyStr.all_space s = true -> PyStr.lstrip s = EmptyString.
Proof.
  induction s as [|c r IH]; simpl; [reflexivity|].
  intros Hs. apply andb_true_iff in Hs as [Hc Hr].
  rewrite Hc. auto.
Qed.

Lemma rstrip_empty_all_space (s : string) :
  PyStr.rstrip s = EmptyString -> PyStr.all_space s = true.
Proof.
  induction s as [|c r IH]; simpl; [reflexivity|].
  destruct (PyStr.rstrip r) eqn:Hr; [|discriminate].
  destruct (PyStr.isspace c); [|discriminate].
  intros _. simpl. auto.
Qed.

Lemma lstrip_not_space (s : string) :
  PyStr.all_space (PyStr.lstrip s) = true -> PyStr.all_space s = true.
Proof.
  induction s as [|c r IH]; simpl; [reflexivity|].
  destruct (PyStr.isspace c) eqn:Hc; simpl.
  - auto.
  - rewrite Hc. simpl. discriminate.
Qed.

(** [not text.strip()] holds exactly for the empty and the
    whitespace-only strings. *)
Lemma strip_falsy_iff (s : string) :
  PyStr.truthy (PyStr.strip s) = false <-> PyStr.all_space s = true.
Proof.
  unfold PyStr.strip. split.
  - intros Hf. apply lstrip_not_space, rstrip_empty_all_space.
    destruct (PyStr.rstrip (PyStr.lstrip s)); [reflexivity|discriminate].
  - intros Hs. rewrite lstrip_all_space by assumption. reflexivity.
Qed.

(** ** The segmenter *)

Section SegmenterProperties.
Import WhisperSTT.
Variable asr : bytes -> string.

Lemma nonempty_true (b : bytes) : b <> [] -> nonempty b = true.
Proof. destruct b; [congruence|reflexivity]. Qed.

(** An idle segmenter stays idle, and reports nothing, for as long as
    no audio arrives. *)
Lemma idle_stays_idle (times : list Z) (s : t) :
  data_queue s = [] -> phrase_time s = None ->
  Forall (fun r => r = None) (silent_ticks asr times s).
Proof.
  intros Hq Ht. induction times as [|now rest IH]; simpl; [constructor|].
  unfold process_audio_queue. rewrite Hq, Ht. constructor; auto.
Qed.

(** C1. With a non-empty buffer, a last-audio timestamp and an empty
    queue, a tick at which the silence has lasted [phrase_timeout] or
    longer returns the phrase-complete result with the transcript of
    the buffer, clears the buffer and the timestamp, and every later
    tick without new audio returns [None]. *)
Theorem C1_timeout_completes_phrase (s : t) (last now : Z) (later : list Z) :
  data_queue s = [] ->
  phrase_bytes s <> [] ->
  phrase_time s = Some last ->
  (phrase_timeout s <= total_seconds (now - last))%Q ->
  exists s',
    process_audio_queue asr now s =
      (s', Some {| text := PyStr.strip (asr (phrase_bytes s));
                   phrase_complete := true;
                   pausing := false;
                   time_remaining := 0%Q;
                   timestamp := now |})
    /\ phrase_bytes s' = []
    /\ phrase_time s' = None
    /\ data_queue s' = []
    /\ Forall (fun r => r = None) (silent_ticks asr later s').
Proof.
  intros Hq Hb Ht Hle.
  unfold process_audio_queue. rewrite Hq, Ht.
  rewrite (nonempty_true _ Hb). simpl.
  apply Qle_bool_iff in Hle. rewrite Hle.
  eexists. split; [reflexivity|].
  repeat split; try reflexivity.
  apply idle_stays_idle; reflexivity.
Qed.

(** The new-audio branch, for any state with a chunk on the queue. *)
Lemma audio_tick (s : t) (now : Z) :
  data_queue s <> [] ->
  process_audio_queue asr now s =
    ({| data_queue := [];
        phrase_bytes := phrase_bytes s ++ join_bytes (data_queue s);
        phrase_time := Some now;
        phrase_timeout := phrase_timeout s;
        is_running := is_running s |},
     Some {| text := PyStr.strip (asr (phrase_bytes s ++ join_bytes (data_queue s)));
             phrase_complete := false;
             pausing := false;
             time_remaining := phrase_timeout s;
             timestamp := now |}).
Proof.
  intros Hq. unfold process_audio_queue.
  destruct (data_queue s); [congruence|reflexivity].
Qed.

(** C2. A tick that finds audio on the queue never completes a phrase:
    it drains the queue into the buffer, sets the timestamp to the
    time of the tick and returns a live update. So when a chunk arrives
    after any tick, such as one 0.1 s short of the timeout, the next
    tick returns a live update, whenever it happens. *)
Theorem C2_new_audio_has_priority (s : t) (now : Z) :
  data_queue s <> [] ->
  process_audio_queue asr now s =
    ({| data_queue := [];
        phrase_bytes := phrase_bytes s ++ join_bytes (data_queue s);
        phrase_time := Some now;
        phrase_timeout := phrase_timeout s;
        is_running := is_running s |},
     Some {| text := PyStr.strip (asr (phrase_bytes s ++ join_bytes (data_queue s)));
             phrase_complete := false;
             pausing := false;
             time_remaining := phrase_timeout s;
             timestamp := now |})
  /\ forall (before later : Z) (s0 : t) (chunk : bytes),
       exists r,
         snd (process_audio_queue asr later
                (record_callback chunk (fst (process_audio_queue asr before s0))))
           = Some r
         /\ phrase_complete r = false /\ pausing r = false.
Proof.
  intros Hq. split; [apply audio_tick; exact Hq|].
  intros before later s0 chunk. rewrite audio_tick.
  - eexists. simpl. repeat split.
  - simpl. intros Hnil. apply app_eq_nil in Hnil as [_ Hnil]. discriminate.
Qed.

(** C3, as amended. The buffer is empty and the timestamp unset in the
    initial state, and every call keeps "buffer non-empty implies
    timestamp set". From a state in which the equivalence holds, a call
    keeps it exactly when the queue is empty or the buffer after the
    drain is not empty. It is lost only when the queue holds nothing
    but empty chunks and the buffer is empty: the timestamp is then set
    and the buffer stays empty. With the buffer empty, whatever the
    timestamp, a tick that finds no audio returns [None] and changes
    nothing. *)
Theorem C3_invariant_amended (timeout : Q) (now : Z) (s : t) :
  buffer_iff_time (init timeout)
  /\ (buffer_implies_time s ->
      buffer_implies_time (fst (process_audio_queue asr now s)))
  /\ (buffer_iff_time s ->
      (buffer_iff_time (fst (process_audio_queue asr now s))
       <-> data_queue s = []
           \/ phrase_bytes s ++ join_bytes (data_queue s) <> []))
  /\ (data_queue s <> [] ->
      phrase_bytes s ++ join_bytes (data_queue s) = [] ->
      phrase_time (fst (process_audio_queue asr now s)) = Some now
      /\ phrase_bytes (fst (process_audio_queue asr now s)) = [])
  /\ (data_queue s = [] ->
      phrase_bytes s = [] ->
      process_audio_queue asr now s = (s, None)).
Proof.
  split; [|split; [|split; [|split]]].
  - unfold buffer_iff_time; simpl. split; congruence.
  - unfold buffer_implies_time, process_audio_queue. intros Hinv.
    destruct (data_queue s) eqn:Hq.
    + destruct (phrase_time s) eqn:Ht; simpl; [|rewrite Ht; exact Hinv].
      destruct (nonempty (phrase_bytes s)); simpl; [|rewrite Ht; congruence].
      destruct (Qle_bool _ _); simpl; [congruence|rewrite Ht; congruence].
    + simpl. congruence.
  - unfold buffer_iff_time, process_audio_queue. intros Hinv.
    destruct (data_queue s) as [|c q] eqn:Hq.
    + split; [intros _; left; reflexivity|intros _].
      destruct (phrase_time s) eqn:Ht; simpl; [|rewrite Ht; exact Hinv].
      destruct (nonempty (phrase_bytes s)); simpl; [|rewrite Ht; exact Hinv].
      destruct (Qle_bool _ _); simpl; [|rewrite Ht; exact Hinv].
      split; congruence.
    + simpl. split.
      * intros [_ Hback]. right. apply Hback. discriminate.
      * intros [Hc|Hc]; [discriminate|]. split; [congruence|].
        intros _. exact Hc.
  - intros Hq Hempty. rewrite (audio_tick s now Hq). simpl.
    split; [reflexivity|exact Hempty].
  - intros Hq Hb. unfold process_audio_queue. rewrite Hq, Hb.
    destruct (phrase_time s); reflexivity.
Qed.

End SegmenterProperties.

(** C1 at work: 5 s after the last chunk the phrase completes. *)
Lemma C1_witness :
  exists s',
    WhisperSTT.process_audio_queue (@transcribe Demo.env) 5000000
      (WhisperSTT.mk [] Demo.chunk (Some 0) 5 true) =
      (s', Some (WhisperSTT.mk_result "la la" true false 0 5000000))
    /\ WhisperSTT.phrase_bytes s' = []
    /\ WhisperSTT.phrase_time s' = None
    /\ WhisperSTT.data_queue s' = []
    /\ Forall (fun r => r = None)
         (WhisperSTT.silent_ticks (@transcribe Demo.env) [5250000; 5500000] s').
Proof.
  apply (C1_timeout_completes_phrase (@transcribe Demo.env)
           (WhisperSTT.mk [] Demo.chunk (Some 0) 5 true) 0 5000000
           [5250000; 5500000]).
  - reflexivity.
  - discriminate.
  - reflexivity.
  - vm_compute. discriminate.
Defined.

(** C2 at work: audio arriving 4.9 s into a 5 s countdown. *)
Lemma C2_witness :
  WhisperSTT.process_audio_queue (@transcribe Demo.env) 4900000
    (WhisperSTT.mk [Demo.chunk] Demo.chunk (Some 0) 5 true) =
    (WhisperSTT.mk [] (Demo.chunk ++ Demo.chunk) (Some 4900000) 5 true,
     Some (WhisperSTT.mk_result "la la la la" false false 5 4900000)).
Proof.
  apply (C2_new_audio_has_priority (@transcribe Demo.env)
           (WhisperSTT.mk [Demo.chunk] Demo.chunk (Some 0) 5 true) 4900000).
  discriminate.
Defined.

(** The countdown of that scenario: 4.9 s of silence give a pausing
    result with 0.1 s left, and the chunk that follows cancels it. *)
Example countdown_cancelled :
  snd (WhisperSTT.process_audio_queue (@transcribe Demo.env) 4900000
         (WhisperSTT.mk [] Demo.chunk (Some 0) 5 true))
    = Some (WhisperSTT.mk_result "" false true (100000 # 1000000) 4900000)
  /\ snd (WhisperSTT.process_audio_queue (@transcribe Demo.env) 5100000
            (WhisperSTT.record_callback Demo.chunk
               (fst (WhisperSTT.process_audio_queue (@transcribe Demo.env) 4900000
                       (WhisperSTT.mk [] Demo.chunk (Some 0) 5 true)))))
    = Some (WhisperSTT.mk_result "la la la la" false false 5 5100000).
Proof. split; reflexivity. Qed.

(** C3 as stated fails: a queue holding one empty chunk sets the
    timestamp and leaves the buffer empty. *)
Lemma C3_counterexample :
  WhisperSTT.buffer_iff_time (WhisperSTT.init 5)
  /\ ~ WhisperSTT.buffer_iff_time
       (fst (WhisperSTT.process_audio_queue (@transcribe Demo.env) 0
               (WhisperSTT.record_callback [] (WhisperSTT.init 5)))).
Proof.
  split.
  - unfold WhisperSTT.buffer_iff_time; simpl. split; congruence.
  - unfold WhisperSTT.buffer_iff_time; simpl. intros [_ Hback].
    apply Hback; [discriminate|reflexivity].
Qed.

(** C3 as amended, at work: a chunk drained into the empty buffer, and
    an empty chunk drained into a buffer that holds a chunk. *)
Lemma C3_witness :
  WhisperSTT.buffer_iff_time
    (fst (WhisperSTT.process_audio_queue (@transcribe Demo.env) 0
            (WhisperSTT.record_callback Demo.chunk (WhisperSTT.init 5))))
  /\ WhisperSTT.buffer_iff_time
       (fst (WhisperSTT.process_audio_queue (@transcribe Demo.env) 1000000
               (WhisperSTT.mk [[]] Demo.chunk (Some 0) 5 true))).
Proof.
  split.
  - apply (C3_invariant_amended (@transcribe Demo.env) 5 0
             (WhisperSTT.record_callback Demo.chunk (WhisperSTT.init 5))).
    + unfold WhisperSTT.buffer_iff_time; simpl. split; congruence.
    + right. discriminate.
  - apply (C3_invariant_amended (@transcribe Demo.env) 5 1000000
             (WhisperSTT.mk [[]] Demo.chunk (Some 0) 5 true)).
    + unfold WhisperSTT.buffer_iff_time; simpl. split; intros _; discriminate.
    + right. discriminate.
Defined.

(** ** The orchestrator: one result at a time *)

Section DispatchProperties.
Context `{Env}.
Import WhisperSTT App.

(** What [poll] leaves untouched. *)
Lemma poll_frame (chunks : list bytes) (w : world) :
  let w1 := snd (poll chunks w) in
  sent w1 = sent w /\ cm w1 = cm w /\ posted w1 = posted w
  /\ files w1 = files w /\ essay w1 = essay w
  /\ pausing_sent w1 = pausing_sent w
  /\ clock w1 = clock w + delay (reads w).
Proof.
  unfold poll, bind, modify, now, get_world, ret. simpl.
  destruct (process_audio_queue _ _ _) as [s' r]. simpl. repeat split.
Qed.

(** C4. When the poll of an iteration returns a completed phrase whose
    text is empty or only whitespace, the iteration sends
    [Status(listening)] and nothing else, resets the loop variables
    and goes on to the next iteration: no transcription is sent, the
    conversation gets no turn and no prompt is posted. *)
Theorem C4_empty_phrase_discarded (tk : tick) (l : locals) (w w1 : world)
    (r : result) :
  poll (arrived tk) w = (Ok (Some r), w1) ->
  pausing r = false ->
  phrase_complete r = true ->
  PyStr.all_space (text r) = true ->
  iteration tk l w =
    (Ok reset, with_sent (sent w1 ++ [EvStatus "listening"]) w1)
  /\ sent w1 = sent w
  /\ cm w1 = cm w
  /\ posted w1 = posted w
  /\ files w1 = files w.
Proof.
  intros Hpoll Hp Hc Hs.
  pose proof (poll_frame (arrived tk) w) as Hf. rewrite Hpoll in Hf.
  simpl in Hf. destruct Hf as (Hsent & Hcm & Hposted & Hfiles & _).
  split; [|tauto].
  unfold iteration, bind. rewrite Hpoll. unfold dispatch.
  rewrite Hp, Hc.
  apply strip_falsy_iff in Hs. rewrite Hs. reflexivity.
Qed.

(** What the loop does with a live update. *)
Lemma dispatch_live (tk : tick) (r : result) (l : locals) (w : world) :
  Obs.is_live r ->
  dispatch tk (Some r) l w =
    if PyStr.truthy (text r) && negb (String.eqb (text r) (current_student_text l))
    then (Ok {| current_student_text := text r; last_pausing_time := None |},
          with_clock (clock w + 250000) (reads w)
            (with_sent (sent w ++ [EvTranscription (text r) false
                                     (isoformat (timestamp r));
                                   EvStatus "listening"]) w))
    else (Ok l, with_clock (clock w + 250000) (reads w) w).
Proof.
  intros [Hp Hc]. unfold dispatch, on_live. rewrite Hp, Hc.
  destruct (PyStr.truthy (text r) && _); [|reflexivity].
  unfold bind, send_json, pause, sleep, modify, ret, with_sent, with_clock.
  simpl. rewrite <- app_assoc. reflexivity.
Qed.

(** C10. A live update whose text is the empty string sends nothing,
    whatever the last live text was: the iteration only sleeps. *)
Theorem C10_empty_live_text_not_sent (tk : tick) (r : result) (l : locals)
    (w : world) :
  Obs.is_live r ->
  text r = EmptyString ->
  dispatch tk (Some r) l w = (Ok l, with_clock (clock w + 250000) (reads w) w)
  /\ sent (snd (dispatch tk (Some r) l w)) = sent w.
Proof.
  intros Hlive Ht. rewrite dispatch_live by assumption.
  rewrite Ht. simpl. split; reflexivity.
Qed.

Lemma live_texts_app (a b : list event) :
  live_texts (a ++ b) = live_texts a ++ live_texts b.
Proof.
  induction a as [|e a IH]; simpl; [reflexivity|].
  destruct e; simpl; try exact IH.
  destruct phrase_complete0; simpl; [exact IH|]. f_equal. exact IH.
Qed.

Lemma last_cons {A} (l : list A) (a d : A) :
  List.last (a :: l) d = List.last l a.
Proof.
  revert a d. induction l as [|b l IH]; intros a d; [reflexivity|].
  change (List.last (a :: b :: l) d) with (List.last (b :: l) d).
  rewrite !IH. reflexivity.
Qed.

(** A run of live updates: the texts forwarded, each different from
    the one forwarded before it. *)
Lemma live_run (tk : tick) (rs : list result) :
  Forall Obs.is_live rs ->
  forall (l : locals) (w : world),
  exists evs l' w',
    Obs.dispatch_all tk rs l w = (Ok l', w')
    /\ sent w' = sent w ++ evs
    /\ no_repeat (current_student_text l :: live_texts evs)
    /\ current_student_text l' =
         List.last (live_texts evs) (current_student_text l).
Proof.
  induction 1 as [|r rs Hr _ IH]; intros l w.
  - exists [], l, w. simpl. rewrite app_nil_r. repeat split.
  - cbn [Obs.dispatch_all]. unfold bind at 1.
    rewrite (dispatch_live tk r l w Hr).
    destruct (PyStr.truthy (text r)
              && negb (String.eqb (text r) (current_student_text l))) eqn:Hnew.
    + apply andb_true_iff in Hnew as [_ Hneq].
      apply negb_true_iff, String.eqb_neq in Hneq.
      match goal with |- context [Obs.dispatch_all tk rs ?l1 ?w1] =>
        destruct (IH l1 w1) as (evs & l' & w' & Hrun & Hsent & Hrep & Hlast)
      end.
      simpl in Hsent, Hrep, Hlast.
      eexists (_ :: _ :: evs), l', w'. split; [exact Hrun|].
      split; [rewrite Hsent, <- app_assoc; reflexivity|].
      split.
      * simpl. split; [congruence|exact Hrep].
      * simpl live_texts. rewrite last_cons. exact Hlast.
    + match goal with |- context [Obs.dispatch_all tk rs ?l1 ?w1] =>
        destruct (IH l1 w1) as (evs & l' & w' & Hrun & Hsent & Hrep & Hlast)
      end.
      exists evs, l', w'. auto.
Qed.

(** C7. In a run of live updates, every incomplete transcription sent
    carries a text different from the live text sent before it; of two
    consecutive live updates with the same text the second sends
    nothing, so that the pair sends exactly one transcription when the
    text is new and non-empty. *)
Theorem C7_live_updates_deduplicated (tk : tick) (rs : list result)
    (r1 r2 : result) (l : locals) (w : world) :
  Forall Obs.is_live rs ->
  Obs.is_live r1 ->
  Obs.is_live r2 ->
  text r1 = text r2 ->
  (exists evs l' w',
      Obs.dispatch_all tk rs reset w = (Ok l', w')
      /\ sent w' = sent w ++ evs
      /\ no_repeat (live_texts evs))
  /\ (exists evs1 evs2 l1 w1 l2 w2,
        dispatch tk (Some r1) l w = (Ok l1, w1)
        /\ dispatch tk (Some r2) l1 w1 = (Ok l2, w2)
        /\ sent w1 = sent w ++ evs1
        /\ sent w2 = sent w1 ++ evs2
        /\ evs2 = []
        /\ (PyStr.truthy (text r1) = true ->
            text r1 <> current_student_text l ->
            live_texts (evs1 ++ evs2) = [text r1])).
Proof.
  intros Hrs H1 H2 Heq. split.
  - destruct (live_run tk rs Hrs reset w) as (evs & l' & w' & Hrun & Hs & Hrep & _).
    exists evs, l', w'. repeat split; try assumption.
    simpl in Hrep. destruct (live_texts evs) as [|a [|b rest]]; simpl in *; tauto.
  - rewrite (dispatch_live tk r1 l w H1).
    destruct (PyStr.truthy (text r1)
              && negb (String.eqb (text r1) (current_student_text l))) eqn:Hnew.
    + eexists [_; _], [], _, _, _, _. split; [reflexivity|].
      rewrite (dispatch_live tk r2 _ _ H2). simpl.
      rewrite <- Heq, String.eqb_refl, andb_false_r.
      split; [reflexivity|]. simpl. rewrite app_nil_r.
      repeat split; reflexivity.
    + exists [], [], l, (with_clock (clock w + 250000) (reads w) w).
      eexists _, _. split; [reflexivity|].
      rewrite (dispatch_live tk r2 _ _ H2). rewrite <- Heq, Hnew.
      split; [reflexivity|]. simpl. rewrite !app_nil_r.
      repeat split; try reflexivity.
      intros Ht Hne. apply String.eqb_neq in Hne.
      rewrite Ht, Hne in Hnew. discriminate.
Qed.

End DispatchProperties.

(** ** Code that sends no pausing message *)

Section Frames.
Context `{Env}.
Hypothesis delay_nonneg : forall k, 0 <= delay k.
Import Obs.

Lemma frame_refl (w : world) : frame w w.
Proof. unfold frame. repeat split; lia. Qed.

Lemma frame_trans (w1 w2 w3 : world) : frame w1 w2 -> frame w2 w3 -> frame w1 w3.
Proof.
  unfold frame. intros (Ha & Hb & Hc & Hd) (Ha' & Hb' & Hc' & Hd').
  repeat split; try congruence; lia.
Qed.

Lemma framed_ret {A} (a : A) : framed (ret a).
Proof. intros w. apply frame_refl. Qed.

Lemma framed_raise {A} (cls msg : string) : framed (@raise A cls msg).
Proof. intros w. apply frame_refl. Qed.

Lemma framed_untyped {A} : framed (@untyped A).
Proof. intros w. apply frame_refl. Qed.

Lemma framed_get_world : framed get_world.
Proof. intros w. apply frame_refl. Qed.

Lemma framed_bind {A B} (c : M A) (k : A -> M B) :
  framed c -> (forall a, framed (k a)) -> framed (bind c k).
Proof.
  intros Hc Hk w. unfold bind. specialize (Hc w).
  destruct (c w) as [[a| |] w']; simpl in *; try exact Hc.
  eapply frame_trans; [exact Hc|apply Hk].
Qed.

Lemma framed_try_except {A} (c : M A) (h : exn -> M A) :
  framed c -> (forall e, framed (h e)) -> framed (try_except c h).
Proof.
  intros Hc Hh w. unfold try_except. specialize (Hc w).
  destruct (c w) as [[a| |] w']; simpl in *; try exact Hc.
  eapply frame_trans; [exact Hc|apply Hh].
Qed.

Lemma framed_now : framed now.
Proof.
  intros w. unfold now, frame. simpl. specialize (delay_nonneg (reads w)).
  repeat split; lia.
Qed.

Lemma framed_pause : framed App.pause.
Proof. intros w. unfold frame. simpl. repeat split; lia. Qed.

Lemma count_pausing_app (a b : list event) :
  count_pausing (a ++ b) = (count_pausing a + count_pausing b)%nat.
Proof.
  induction a as [|e a IH]; simpl; [reflexivity|].
  destruct e; simpl; rewrite ?IH; reflexivity.
Qed.

Lemma framed_send (e : event) : is_pausing e = false -> framed (send_json e).
Proof.
  intros He w. unfold frame. simpl. rewrite count_pausing_app.
  destruct e; try discriminate; simpl; repeat split; lia.
Qed.

Lemma framed_update (f : manager -> manager) : framed (ConversationManager.update f).
Proof. intros w. unfold frame. simpl. repeat split; lia. Qed.

Lemma framed_write (f : gmap string json -> gmap string json) :
  framed (modify (fun w => with_files (f (files w)) w)).
Proof. intros w. unfold frame. simpl. repeat split; lia. Qed.

Lemma framed_post (f : list string -> list string) :
  framed (modify (fun w => with_posted (f (posted w)) w)).
Proof. intros w. unfold frame. simpl. repeat split; lia. Qed.

Ltac framed_step :=
  first
    [ apply framed_ret | apply framed_raise | apply framed_untyped
    | apply framed_get_world | apply framed_now | apply framed_pause
    | apply framed_update | apply framed_write | apply framed_post
    | apply framed_send; reflexivity
    | apply framed_bind; [|intros ?]
    | apply framed_try_except; [|intros ?] ].

Lemma framed_count_speaker (who : string) (conv : list dict) :
  framed (ConversationManager.count_speaker who conv).
Proof.
  induction conv as [|msg rest IH]; simpl; [framed_step|].
  destruct (Json.lookup "speaker" msg); repeat framed_step. exact IH.
Qed.

Lemma framed_save_session (filepath : option string) :
  framed (ConversationManager.save_session filepath).
Proof.
  unfold ConversationManager.save_session. repeat framed_step.
  destruct (session_id (cm a)) as [sid|]; [|framed_step].
  destruct (negb (PyStr.truthy sid)); [framed_step|].
  framed_step.
  - destruct (session_start (cm a)); repeat framed_step.
  - framed_step; [apply framed_count_speaker|].
    framed_step; [apply framed_count_speaker|].
    repeat framed_step.
Qed.

Lemma framed_add_message (speaker text : string) (d : option Q)
    (f : option string) (md : option json) :
  framed (ConversationManager.add_message speaker text d f md).
Proof.
  unfold ConversationManager.add_message.
  framed_step; [framed_step|]. framed_step; [framed_step|].
  framed_step; [apply framed_save_session|framed_step].
Qed.

Lemma framed_history (n : option Z) :
  framed (ConversationManager.get_conversation_history n).
Proof.
  unfold ConversationManager.get_conversation_history.
  framed_step; [framed_step|].
  destruct n as [[|p|p]|]; framed_step.
Qed.

Lemma framed_history_lines (msgs : list dict) :
  framed (OllamaClient.history_lines msgs).
Proof.
  induction msgs as [|msg rest IH]; simpl; [framed_step|].
  framed_step.
  - unfold OllamaClient.history_line.
    destruct (Json.lookup "speaker" msg) as [[]|]; try framed_step.
    destruct (Json.lookup "text" msg) as [[]|]; framed_step.
  - framed_step; [exact IH|framed_step].
Qed.

Lemma framed_socratic_stream (srv : string -> response) (input ctx : string)
    (history : list dict) :
  framed (OllamaClient.generate_socratic_response_stream srv input ctx history).
Proof.
  unfold OllamaClient.generate_socratic_response_stream,
    OllamaClient.socratic_prompt.
  framed_step.
  - framed_step; [apply framed_history_lines|framed_step].
  - repeat framed_step.
Qed.

Lemma framed_consume (chunks : list json) :
  forall full, framed (App.consume chunks full).
Proof.
  induction chunks as [|c rest IH]; intros full; simpl; [framed_step|].
  destruct (Json.truthy c); [|apply IH].
  destruct c; try framed_step.
  - framed_step.
  - framed_step; [framed_step|apply IH].
Qed.

Lemma ends_slept_bind {A} (c : M A) (k : A -> M App.locals) :
  framed c -> (forall a, ends_slept (k a)) -> ends_slept (bind c k).
Proof.
  intros Hc Hk w. unfold bind. specialize (Hc w).
  destruct (c w) as [[a| |] w'] eqn:Hcw; simpl in *.
  - destruct (Hk a w') as [Hf Hok]. split.
    + eapply frame_trans; eassumption.
    + intros l Hl. destruct (Hok l Hl) as [-> Hclock].
      split; [reflexivity|]. destruct Hc as (_ & _ & Hle & _). lia.
  - split; [exact Hc|]. intros l Hl. discriminate.
  - split; [exact Hc|]. intros l Hl. discriminate.
Qed.

(** The phrase round trip sends no pausing message, and when it
    returns it has slept and reset the loop variables. *)
Lemma respond_ends_slept (tk : App.tick) (r : WhisperSTT.result) :
  ends_slept (App.respond tk r).
Proof.
  unfold App.respond.
  apply ends_slept_bind; [apply framed_send; reflexivity|intros _].
  apply ends_slept_bind; [apply framed_add_message|intros _].
  apply ends_slept_bind; [apply framed_send; reflexivity|intros _].
  apply ends_slept_bind; [apply framed_history|intros history].
  apply ends_slept_bind; [apply framed_send; reflexivity|intros _].
  apply ends_slept_bind; [apply framed_get_world|intros w0].
  apply ends_slept_bind; [apply framed_socratic_stream|intros chunks].
  apply ends_slept_bind; [apply framed_consume|intros full].
  apply ends_slept_bind; [apply framed_now|intros t].
  apply ends_slept_bind; [apply framed_send; reflexivity|intros _].
  apply ends_slept_bind; [apply framed_add_message|intros _].
  apply ends_slept_bind; [apply framed_send; reflexivity|intros _].
  intros w. simpl. split.
  - unfold frame. simpl. repeat split; lia.
  - intros l Hl. inversion Hl. split; [reflexivity|lia].
Qed.

End Frames.

(** ** The throttle of the pausing messages *)

Section Throttle.
Context `{Env}.
Hypothesis delay_nonneg : forall k, 0 <= delay k.
Import Obs.

Lemma push_keeps_buffer (chunks : list WhisperSTT.bytes) (s : WhisperSTT.t) :
  WhisperSTT.phrase_bytes
    (fold_left (fun s d => WhisperSTT.record_callback d s) chunks s)
  = WhisperSTT.phrase_bytes s.
Proof.
  revert s. induction chunks as [|c rest IH]; intros s; simpl; [reflexivity|].
  rewrite IH. reflexivity.
Qed.

(** A pausing result comes from a non-empty buffer. *)
Lemma pausing_has_buffer asr (now : Z) (s s' : WhisperSTT.t)
    (r : WhisperSTT.result) :
  WhisperSTT.process_audio_queue asr now s = (s', Some r) ->
  WhisperSTT.pausing r = true ->
  WhisperSTT.phrase_bytes s <> [].
Proof.
  unfold WhisperSTT.process_audio_queue.
  destruct (WhisperSTT.data_queue s).
  - destruct (WhisperSTT.phrase_time s); [|discriminate].
    destruct (WhisperSTT.phrase_bytes s); simpl; [discriminate|].
    intros _ _. discriminate.
  - intros Heq Hp. inversion Heq; subst. discriminate.
Qed.

(** A completed phrase leaves the buffer empty. *)
Lemma complete_clears_buffer asr (now : Z) (s s' : WhisperSTT.t)
    (r : WhisperSTT.result) :
  WhisperSTT.process_audio_queue asr now s = (s', Some r) ->
  WhisperSTT.phrase_complete r = true ->
  WhisperSTT.phrase_bytes s' = [].
Proof.
  unfold WhisperSTT.process_audio_queue.
  destruct (WhisperSTT.data_queue s).
  - destruct (WhisperSTT.phrase_time s); [|discriminate].
    destruct (negb _); [discriminate|].
    destruct (Qle_bool _ _); intros Heq Hc; inversion Heq; subst;
      [reflexivity|discriminate].
  - intros Heq Hc. inversion Heq; subst. discriminate.
Qed.

Lemma poll_spec (chunks : list WhisperSTT.bytes) (w : world) :
  let s0 := fold_left (fun s d => WhisperSTT.record_callback d s) chunks (stt w) in
  let t := clock w + delay (reads w) in
  let p := WhisperSTT.process_audio_queue transcribe t s0 in
  App.poll chunks w =
    (Ok (snd p), with_stt (fst p) (with_clock t (S (reads w)) (with_stt s0 w))).
Proof.
  unfold App.poll, bind, modify, now, get_world, ret. simpl.
  destruct (WhisperSTT.process_audio_queue _ _ _) as [s' r]. reflexivity.
Qed.

Lemma half_second (t last : Z) :
  Qle_bool (1 # 2) (WhisperSTT.total_seconds (t - last)) = true ->
  last + 500000 <= t.
Proof.
  intros Hq. apply Qle_bool_iff in Hq.
  unfold Qle, WhisperSTT.total_seconds in Hq. simpl in Hq. lia.
Qed.

(** The loop variables unchanged, a quarter of a second later. *)
Lemma inv_later (l : App.locals) (w w' : world) :
  loop_inv l w ->
  pausing_sent w' = pausing_sent w ->
  count_pausing (sent w') = count_pausing (sent w) ->
  clock w + 250000 <= clock w' ->
  loop_inv l w'.
Proof.
  unfold loop_inv, logged. intros [[Hth Hlen] Hcase] Hps Hcount Hclock.
  rewrite Hps, Hcount. split; [tauto|].
  destruct (pausing_sent w) as [|[lo hi] rest]; [exact Hcase|].
  destruct Hcase as [[Hl Hc]|[[Hl Hc]|(Hl & Hc & _)]].
  - left. split; [assumption|lia].
  - right; left. split; [assumption|lia].
  - right; left. split; [assumption|lia].
Qed.

(** The throttle reset, a quarter of a second later. *)
Lemma inv_reset_later (l l' : App.locals) (w w' : world) :
  loop_inv l w ->
  App.last_pausing_time l' = None ->
  pausing_sent w' = pausing_sent w ->
  count_pausing (sent w') = count_pausing (sent w) ->
  clock w + 250000 <= clock w' ->
  loop_inv l' w'.
Proof.
  unfold loop_inv, logged. intros [[Hth Hlen] Hcase] Hnone Hps Hcount Hclock.
  rewrite Hps, Hcount. split; [tauto|].
  destruct (pausing_sent w) as [|[lo hi] rest]; [exact Hnone|].
  right; left. split; [assumption|].
  destruct Hcase as [[Hl Hc]|[[Hl Hc]|(Hl & Hc & _)]]; lia.
Qed.

(** The throttle reset at once, the segmenter being idle. *)
Lemma inv_reset_idle (l l' : App.locals) (w w' : world) :
  loop_inv l w ->
  App.last_pausing_time l' = None ->
  pausing_sent w' = pausing_sent w ->
  count_pausing (sent w') = count_pausing (sent w) ->
  clock w <= clock w' ->
  WhisperSTT.phrase_bytes (stt w') = [] ->
  loop_inv l' w'.
Proof.
  unfold loop_inv, logged.
  intros [[Hth Hlen] Hcase] Hnone Hps Hcount Hclock Hidle.
  rewrite Hps, Hcount. split; [tauto|].
  destruct (pausing_sent w) as [|[lo hi] rest]; [exact Hnone|].
  right; right. repeat split; try assumption.
  destruct Hcase as [[Hl Hc]|[[Hl Hc]|(Hl & Hc & _)]]; lia.
Qed.

(** A pausing message goes out. *)
Lemma inv_emit (l l' : App.locals) (w w' : world) (lo hi : Z) :
  loop_inv l w ->
  pausing_sent w' = (lo, hi) :: pausing_sent w ->
  count_pausing (sent w') = S (count_pausing (sent w)) ->
  (forall lo0 hi0 rest, pausing_sent w = (lo0, hi0) :: rest -> hi0 + 500000 <= lo) ->
  App.last_pausing_time l' = Some hi ->
  hi + 250000 <= clock w' ->
  loop_inv l' w'.
Proof.
  unfold loop_inv, logged.
  intros [[Hth Hlen] Hcase] Hps Hcount Hgap Hl Hclock.
  rewrite Hps, Hcount. simpl. split.
  - split; [|lia].
    destruct (pausing_sent w) as [|[lo0 hi0] rest]; [exact I|].
    split; [|exact Hth]. eapply Hgap. reflexivity.
  - left. split; assumption.
Qed.

Lemma logged_frame (w w' : world) : logged w -> frame w w' -> logged w'.
Proof.
  unfold logged, frame. intros [Hth Hlen] (Hps & _ & _ & Hcount).
  rewrite Hps, Hcount. tauto.
Qed.

(** One iteration keeps the invariant of the loop; if it raises, the
    log is still throttled. *)
Lemma iteration_inv (tk : App.tick) (l : App.locals) (w : world) :
  loop_inv l w ->
  match App.iteration tk l w with
  | (Ok l', w') => loop_inv l' w'
  | (_, w') => logged w'
  end.
Proof.
  intros Hinv. unfold App.iteration. unfold bind at 1.
  rewrite poll_spec. cbv zeta.
  set (s0 := fold_left _ (App.arrived tk) (stt w)).
  set (t := clock w + delay (reads w)).
  assert (Ht : clock w <= t) by (specialize (delay_nonneg (reads w)); lia).
  destruct (WhisperSTT.process_audio_queue transcribe t s0) as [s' res] eqn:Hp.
  simpl fst; simpl snd.
  set (w1 := with_stt s' (with_clock t (S (reads w)) (with_stt s0 w))).
  destruct res as [r|].
  - unfold App.dispatch.
    destruct (WhisperSTT.pausing r) eqn:Hpause.
    + (* pausing *)
      assert (Hbuf : WhisperSTT.phrase_bytes (stt w) <> []).
      { rewrite <- (push_keeps_buffer (App.arrived tk)).
        eapply pausing_has_buffer; eassumption. }
      unfold App.on_pausing.
      destruct (App.last_pausing_time l) as [last|] eqn:Hlast.
      * unfold bind at 1. unfold bind at 1. simpl fst.
        unfold now at 1. cbv zeta. unfold ret at 1.
        set (t1 := clock w1 + delay (reads w1)).
        assert (Ht1 : t <= t1)
          by (subst t1; simpl; specialize (delay_nonneg (S (reads w))); lia).
        destruct (Qle_bool (1 # 2) (WhisperSTT.total_seconds (t1 - last))) eqn:Hdue.
        -- apply half_second in Hdue.
           unfold bind, get_world, send_json, modify, now, App.pause, sleep, ret.
           simpl.
           match goal with |- loop_inv ?l' ?w' =>
             apply (inv_emit l l' w w' t1 (t1 + delay (S (S (reads w)))))
           end; simpl; try reflexivity; try assumption; try lia;
             try (rewrite !count_pausing_app; simpl; lia).
           intros lo0 hi0 rest Hps. destruct Hinv as [_ Hcase].
           rewrite Hps in Hcase.
           destruct Hcase as [[Hl Hc]|[[Hl _]|(Hl & _)]]; congruence.
        -- unfold bind, App.pause, sleep, modify, ret. simpl.
           apply (inv_later l w); simpl; try reflexivity; try assumption.
           specialize (delay_nonneg (S (reads w))). subst t1. simpl. lia.
      * unfold bind, get_world, send_json, modify, now, App.pause, sleep, ret.
        simpl.
        match goal with |- loop_inv ?l' ?w' =>
          apply (inv_emit l l' w w' t (t + delay (S (reads w))))
        end; simpl; try reflexivity; try assumption; try lia;
          try (rewrite !count_pausing_app; simpl; lia).
        intros lo0 hi0 rest Hps. destruct Hinv as [_ Hcase].
        rewrite Hps in Hcase.
        destruct Hcase as [[Hl Hc]|[[Hl Hc]|(Hl & Hc & Hidle)]];
          try congruence; lia.
    + destruct (WhisperSTT.phrase_complete r) eqn:Hcomplete.
      * destruct (negb (PyStr.truthy (PyStr.strip (WhisperSTT.text r)))).
        -- (* empty phrase: no sleep *)
           unfold bind, send_json, modify, ret. simpl.
           apply (inv_reset_idle l App.reset w); simpl;
             try reflexivity; try assumption; try lia;
             try (rewrite !count_pausing_app; simpl; lia).
           eapply complete_clears_buffer; eassumption.
        -- (* the round trip *)
           destruct (respond_ends_slept delay_nonneg tk r w1) as [Hf Hok].
           destruct (App.respond tk r w1) as [[l'| |] w'] eqn:Hr; simpl in *.
           ++ destruct (Hok l' eq_refl) as [-> Hclock].
              destruct Hf as (Hps & _ & _ & Hcount).
              apply (inv_reset_later l App.reset w); simpl;
                try reflexivity; try assumption; lia.
           ++ destruct Hf as (Hps & _ & _ & Hcount). unfold logged.
              rewrite Hps, Hcount. apply Hinv.
           ++ destruct Hf as (Hps & _ & _ & Hcount). unfold logged.
              rewrite Hps, Hcount. apply Hinv.
      * (* live update *)
        unfold App.on_live.
        destruct (PyStr.truthy (WhisperSTT.text r) && _).
        -- unfold bind, send_json, App.pause, sleep, modify, ret. simpl.
           apply (inv_reset_later l _ w); simpl;
             try reflexivity; try assumption; try lia;
             try (rewrite !count_pausing_app; simpl; lia).
        -- unfold bind, App.pause, sleep, modify, ret. simpl.
           apply (inv_later l w); simpl; try reflexivity; try assumption; lia.
  - unfold App.dispatch, bind, App.pause, sleep, modify, ret. simpl.
    apply (inv_later l w); simpl; try reflexivity; try assumption; lia.
Qed.

Lemma main_loop_logged (ticks : list App.tick) :
  forall (l : App.locals) (w : world),
    loop_inv l w -> logged (snd (App.main_loop ticks l w)).
Proof.
  induction ticks as [|tk rest IH]; intros l w Hinv; simpl.
  - apply Hinv.
  - unfold bind. pose proof (iteration_inv tk l w Hinv) as Hit.
    destruct (App.iteration tk l w) as [[l'| |] w']; simpl; auto.
Qed.

(** C6. With a wall clock that does not run backwards and sleeps that
    last their 250 ms, in every run of the main loop that starts with
    no pausing message sent, two consecutive pausing messages are at
    least 500 ms apart, whatever is sent between them: the clock before
    the later send is at least 500000 us after the clock reading that
    followed the earlier send. While [last_pausing_time] is set this is
    the test of line 225; after a reset of [last_pausing_time] two
    sleeps separate the messages, the iteration that skips its sleep
    leaving the segmenter idle. Every pausing message sent has its pair
    of clock values in the record. *)
Theorem C6_pausing_throttled (ticks : list App.tick) (w : world) :
  pausing_sent w = [] ->
  count_pausing (sent w) = 0%nat ->
  let w' := snd (App.main_loop ticks App.reset w) in
  App.throttled (pausing_sent w')
  /\ length (pausing_sent w') = count_pausing (sent w').
Proof.
  intros Hps Hcount. apply main_loop_logged.
  unfold loop_inv, logged. rewrite Hps, Hcount. simpl. tauto.
Qed.

End Throttle.

(** ** The phrase round trip *)

Section RoundTrip.
Context `{Env}.
Import Obs.

Lemma append_assoc (a b c : string) : (a +:+ b) +:+ c = a +:+ (b +:+ c).
Proof.
  induction a as [|x a IH]; [reflexivity|].
  change (String x ((a +:+ b) +:+ c) = String x (a +:+ (b +:+ c))).
  f_equal. exact IH.
Qed.

Lemma append_nil_r (a : string) : a +:+ EmptyString = a.
Proof.
  induction a as [|x a IH]; [reflexivity|].
  change (String x (a +:+ EmptyString) = String x a). f_equal. exact IH.
Qed.

Lemma bind_ok {A B} (c : M A) (k : A -> M B) (w w' : world) (a : A) :
  c w = (Ok a, w') -> bind c k w = k a w'.
Proof. intros Hc. unfold bind. rewrite Hc. reflexivity. Qed.

Lemma now_ok (w : world) :
  now w = (Ok (clock w + delay (reads w)),
           with_clock (clock w + delay (reads w)) (S (reads w)) w).
Proof. reflexivity. Qed.

Lemma send_ok (e : event) (w : world) :
  send_json e w = (Ok tt, with_sent (sent w ++ [e]) w).
Proof. reflexivity. Qed.

Lemma forallb_app_single {A} (f : A -> bool) (l : list A) (a : A) :
  forallb f l = true -> f a = true -> forallb f (l ++ [a]) = true.
Proof.
  intros Hl Ha. rewrite forallb_app, Hl. simpl. rewrite Ha. reflexivity.
Qed.

Lemma forallb_skipn {A} (f : A -> bool) (n : nat) (l : list A) :
  forallb f l = true -> forallb f (skipn n l) = true.
Proof.
  revert l. induction n as [|n IH]; intros l Hl; [exact Hl|].
  destruct l as [|a l]; [reflexivity|]. simpl in *.
  apply andb_true_iff in Hl as [_ Hl]. auto.
Qed.

Lemma count_speaker_ok (who : string) (conv : list dict) (w : world) :
  forallb speaks conv = true ->
  exists n, ConversationManager.count_speaker who conv w = (Ok n, w).
Proof.
  induction conv as [|msg rest IH]; simpl; intros Hall.
  - exists 0. reflexivity.
  - apply andb_true_iff in Hall as [Hmsg Hrest].
    destruct (IH Hrest) as [n Hn]. unfold speaks in Hmsg.
    destruct (Json.lookup "speaker" msg) as [v|]; [|discriminate].
    eexists. rewrite (bind_ok _ _ _ _ _ Hn). reflexivity.
Qed.

Lemma turns_speak (conv : list dict) :
  forallb is_turn conv = true -> forallb speaks conv = true.
Proof.
  induction conv as [|msg rest IH]; simpl; [reflexivity|].
  intros Hall. apply andb_true_iff in Hall as [Hmsg Hrest].
  rewrite (IH Hrest), andb_true_r. unfold is_turn, speaks in *.
  destruct (Json.lookup "speaker" msg); [reflexivity|discriminate].
Qed.

(** With a session id and a speaker in every turn, [save_session]
    writes [session_data] to the file of the session and returns its
    path; only the clock and the files change. *)
Lemma save_session_doc (w : world) (sid : string) :
  session_id (cm w) = Some sid ->
  PyStr.truthy sid = true ->
  forallb speaks (conversation (cm w)) = true ->
  exists duration students bots t n,
    ConversationManager.save_session None w =
      (Ok (ConversationManager.session_path (cm w) sid),
       with_files
         (<[ConversationManager.session_path (cm w) sid :=
            ConversationManager.session_data (cm w) sid duration students bots]>
            (files w))
         (with_clock t n w)).
Proof.
  intros Hsid Htruthy Hturns.
  unfold ConversationManager.save_session.
  rewrite (bind_ok get_world _ w w w eq_refl). rewrite Hsid, Htruthy.
  change (negb true) with false. cbv iota.
  destruct (session_start (cm w)) as [t0|] eqn:Hstart.
  - set (w1 := with_clock (clock w + delay (reads w)) (S (reads w)) w).
    assert (Hd : (let* t1 := now in
                  ret (JFloat (WhisperSTT.total_seconds (t1 - t0)))) w =
                 (Ok (JFloat (WhisperSTT.total_seconds
                                (clock w + delay (reads w) - t0))), w1))
      by reflexivity.
    rewrite (bind_ok _ _ _ _ _ Hd).
    destruct (count_speaker_ok "student" (conversation (cm w)) w1 Hturns) as [a Ha].
    rewrite (bind_ok _ _ _ _ _ Ha).
    destruct (count_speaker_ok "bot" (conversation (cm w)) w1 Hturns) as [b Hb].
    rewrite (bind_ok _ _ _ _ _ Hb).
    do 5 eexists. reflexivity.
  - rewrite (bind_ok (ret JNull) _ w w JNull eq_refl).
    destruct (count_speaker_ok "student" (conversation (cm w)) w Hturns) as [a Ha].
    rewrite (bind_ok _ _ _ _ _ Ha).
    destruct (count_speaker_ok "bot" (conversation (cm w)) w Hturns) as [b Hb].
    rewrite (bind_ok _ _ _ _ _ Hb).
    exists JNull, a, b, (clock w), (reads w).
    destruct w; reflexivity.
Qed.

Lemma save_session_ok (w : world) :
  session_ok (cm w) ->
  exists path doc t n,
    ConversationManager.save_session None w =
      (Ok path, with_files (<[path := doc]> (files w)) (with_clock t n w)).
Proof.
  intros [(sid & Hsid & Htruthy) Hturns].
  destruct (save_session_doc w sid Hsid Htruthy (turns_speak _ Hturns))
    as (d & a & b & t & n & Hsave).
  do 4 eexists. exact Hsave.
Qed.

(** [add_message(speaker, text)] on a session that can be saved. *)
Lemma add_message_ok (speaker text : string) (w : world) :
  session_ok (cm w) ->
  exists t w',
    ConversationManager.add_message speaker text None None None w =
      (Ok (turn t speaker text), w')
    /\ cm w' = ConversationManager.with_conversation
                 (conversation (cm w) ++ [turn t speaker text]) (cm w)
    /\ sent w' = sent w
    /\ posted w' = posted w
    /\ essay w' = essay w
    /\ session_ok (cm w').
Proof.
  intros Hok. unfold ConversationManager.add_message.
  unfold bind at 1. unfold now at 1. cbv zeta.
  cbn [app].
  set (t := clock w + delay (reads w)).
  fold (turn t speaker text).
  unfold bind at 1. unfold ConversationManager.update, modify at 1.
  set (w1 := with_cm _ _).
  assert (Hok1 : session_ok (cm w1)).
  { destruct Hok as [Hsid Hturns]. split; [exact Hsid|].
    subst w1. simpl.
    apply forallb_app_single; [exact Hturns|reflexivity]. }
  destruct (save_session_ok w1 Hok1) as (path & doc & t' & n & Hsave).
  rewrite (bind_ok _ _ _ _ _ Hsave).
  exists t. eexists. split; [reflexivity|].
  subst w1. simpl. repeat split; try reflexivity; apply Hok1.
Qed.

Lemma history_lines_ok (msgs : list dict) (w : world) :
  forallb is_turn msgs = true ->
  exists ls, OllamaClient.history_lines msgs w = (Ok ls, w).
Proof.
  induction msgs as [|msg rest IH]; simpl; intros Hall.
  - exists []. reflexivity.
  - apply andb_true_iff in Hall as [Hmsg Hrest].
    destruct (IH Hrest) as [ls Hls].
    unfold OllamaClient.history_line, is_turn in *.
    destruct (Json.lookup "speaker" msg) as [[]|]; try discriminate.
    destruct (Json.lookup "text" msg) as [[]|]; try discriminate.
    eexists. unfold bind at 1. unfold ret at 1.
    rewrite (bind_ok _ _ _ _ _ Hls). reflexivity.
Qed.

Lemma socratic_stream_ok (srv : string -> response) (input ctx : string)
    (history : list dict) (w : world) :
  forallb is_turn history = true ->
  exists prompt,
    OllamaClient.generate_socratic_response_stream srv input ctx history w =
      (Ok (OllamaClient.generate_stream srv prompt),
       with_posted (posted w ++ [prompt]) w).
Proof.
  intros Hall.
  unfold OllamaClient.generate_socratic_response_stream,
    OllamaClient.socratic_prompt.
  destruct (history_lines_ok (ConversationManager.last_n 6 history) w) as [ls Hls].
  { apply forallb_skipn. exact Hall. }
  unfold bind at 1. unfold bind at 1. rewrite Hls.
  eexists. reflexivity.
Qed.

Lemma history_ok (w : world) :
  forallb is_turn (conversation (cm w)) = true ->
  exists history,
    ConversationManager.get_conversation_history (Some 10) w = (Ok history, w)
    /\ forallb is_turn history = true.
Proof.
  intros Hall. eexists. split; [reflexivity|].
  apply forallb_skipn. exact Hall.
Qed.

(** The round trip up to the first fragment, and from the last fragment
    on. [w1] is the world in which the fragments are consumed. *)
Lemma respond_via_consume (tk : App.tick) (r : WhisperSTT.result) (w : world) :
  session_ok (cm w) ->
  exists t1 prompt w1,
    sent w1 = sent w ++ [EvTranscription (WhisperSTT.text r) true
                           (isoformat (WhisperSTT.timestamp r));
                         EvStatus "analyzing"; EvStatus "responding"]
    /\ conversation (cm w1) =
         conversation (cm w) ++ [turn t1 "student" (WhisperSTT.text r)]
    /\ posted w1 = posted w ++ [prompt]
    /\ session_ok (cm w1)
    /\ forall full w2,
         App.consume (OllamaClient.generate_stream (App.server tk) prompt)
           EmptyString w1 = (Ok full, w2) ->
         cm w2 = cm w1 ->
         exists t2 t3 w',
           App.respond tk r w = (Ok App.reset, w')
           /\ sent w' = sent w2 ++ [EvComplete full (isoformat t2);
                                    EvStatus "listening"]
           /\ conversation (cm w') =
                conversation (cm w1) ++ [turn t3 "bot" full]
           /\ posted w' = posted w2.
Proof.
  intros Hok. unfold App.respond.
  rewrite (bind_ok _ _ _ _ _ (send_ok _ w)).
  set (wa := with_sent _ w).
  destruct (add_message_ok "student" (WhisperSTT.text r) wa Hok)
    as (t1 & wb & Hadd & Hcm & Hsent & Hposted & Hessay & Hokb).
  rewrite (bind_ok _ _ _ _ _ Hadd).
  rewrite (bind_ok _ _ _ _ _ (send_ok _ wb)).
  set (wc := with_sent _ wb).
  destruct (history_ok wc) as (history & Hhist & Hturns); [apply Hokb|].
  rewrite (bind_ok _ _ _ _ _ Hhist).
  rewrite (bind_ok _ _ _ _ _ (send_ok _ wc)).
  set (wd := with_sent _ wc).
  rewrite (bind_ok get_world _ wd wd wd eq_refl).
  destruct (socratic_stream_ok (App.server tk) (WhisperSTT.text r) (essay wd)
              history wd Hturns) as [prompt Hstream].
  rewrite (bind_ok _ _ _ _ _ Hstream).
  set (w1 := with_posted _ wd).
  exists t1, prompt, w1. split; [|split; [|split; [|split]]].
  - subst w1 wd wc wa. simpl. rewrite Hsent. simpl.
    rewrite <- !app_assoc. reflexivity.
  - subst w1 wd wc. simpl. rewrite Hcm. reflexivity.
  - subst w1 wd wc wa. simpl. rewrite Hposted. reflexivity.
  - exact Hokb.
  - intros full w2 Hconsume Hcm2.
    rewrite (bind_ok _ _ _ _ _ Hconsume).
    rewrite (bind_ok now _ _ _ _ (now_ok _)).
    rewrite (bind_ok _ _ _ _ _ (send_ok _ _)).
    set (we := with_sent _ _).
    assert (Hoke : session_ok (cm we)).
    { subst we. simpl. rewrite Hcm2. exact Hokb. }
    destruct (add_message_ok "bot" full we Hoke)
      as (t3 & wf & Hadd3 & Hcm3 & Hsent3 & Hposted3 & _ & _).
    rewrite (bind_ok _ _ _ _ _ Hadd3).
    exists (clock w2 + delay (reads w2)), t3. eexists.
    split; [reflexivity|]. simpl. rewrite Hsent3, Hcm3, Hposted3.
    subst we. simpl. rewrite Hcm2.
    rewrite <- !app_assoc. repeat split; reflexivity.
Qed.

(** Consuming text fragments: one chunk message per non-empty fragment,
    and the running string grows by every fragment. *)
Lemma consume_text (chunks : list json) :
  forallb is_text chunks = true ->
  forall (full : string) (w : world),
  exists evs w',
    App.consume chunks full w =
      (Ok (full +:+ PyStr.concat (map text_of chunks)), w')
    /\ sent w' = sent w ++ evs
    /\ forallb is_chunk evs = true
    /\ App.chunk_texts evs = List.filter PyStr.truthy (map text_of chunks)
    /\ PyStr.concat (App.chunk_texts evs) = PyStr.concat (map text_of chunks)
    /\ cm w' = cm w
    /\ posted w' = posted w.
Proof.
  induction chunks as [|c rest IH]; intros Hall full w.
  - exists [], w. simpl. rewrite append_nil_r, app_nil_r. repeat split.
  - simpl in Hall. apply andb_true_iff in Hall as [Hc Hrest].
    destruct c as [| | | |s| |]; try discriminate.
    cbn [App.consume]. destruct s as [|x s].
    + change (Json.truthy (JStr EmptyString)) with false. cbv iota.
      destruct (IH Hrest full w) as (evs & w' & Hrun & Hs & Hch & Hct & Hcc & Hcm & Hp).
      exists evs, w'. simpl. repeat split; assumption.
    + change (Json.truthy (JStr (String x s))) with true. cbv iota.
      rewrite (bind_ok now _ _ _ _ (now_ok _)).
      rewrite (bind_ok _ _ _ _ _ (send_ok _ _)).
      match goal with |- context [App.consume rest ?f ?w0] =>
        destruct (IH Hrest f w0) as (evs & w' & Hrun & Hs & Hch & Hct & Hcc & Hcm & Hp)
      end.
      eexists (_ :: evs), w'. rewrite Hrun. simpl in Hs, Hcm, Hp.
      split; [rewrite append_assoc; reflexivity|].
      split; [rewrite Hs, <- app_assoc; reflexivity|].
      simpl. rewrite Hcc, Hct. repeat split; assumption.
Qed.

(** C5. In a phrase round trip whose stream yields text fragments, one
    prompt is posted, and the chunk messages sent between
    [Status(responding)] and the complete message carry, in order, the
    non-empty fragments the stream yields for that prompt. The
    concatenation of the fragments, which is the concatenation of the
    texts of the chunk messages, is the text of the complete message
    that follows them, and that text is the text of the bot turn
    appended to the conversation. *)
Theorem C5_chunks_concatenate_to_complete (tk : App.tick)
    (r : WhisperSTT.result) (w : world) :
  session_ok (cm w) ->
  (forall prompt,
     forallb is_text (OllamaClient.generate_stream (App.server tk) prompt) = true) ->
  exists (prompt : string) (chunks : list event) (full : string)
         (t1 t2 t3 : Z) (w' : world),
    App.respond tk r w = (Ok App.reset, w')
    /\ posted w' = posted w ++ [prompt]
    /\ sent w' =
         sent w
         ++ [EvTranscription (WhisperSTT.text r) true
               (isoformat (WhisperSTT.timestamp r));
             EvStatus "analyzing"; EvStatus "responding"]
         ++ chunks
         ++ [EvComplete full (isoformat t2); EvStatus "listening"]
    /\ forallb is_chunk chunks = true
    /\ App.chunk_texts chunks =
         List.filter PyStr.truthy
           (map text_of (OllamaClient.generate_stream (App.server tk) prompt))
    /\ full =
         PyStr.concat
           (map text_of (OllamaClient.generate_stream (App.server tk) prompt))
    /\ PyStr.concat (App.chunk_texts chunks) = full
    /\ conversation (cm w') =
         conversation (cm w)
         ++ [turn t1 "student" (WhisperSTT.text r); turn t3 "bot" full].
Proof.
  intros Hok Htext.
  destruct (respond_via_consume tk r w Hok)
    as (t1 & prompt & w1 & Hsent1 & Hconv1 & Hposted1 & _ & Hrest).
  destruct (consume_text _ (Htext prompt) EmptyString w1)
    as (evs & w2 & Hrun & Hsent2 & Hch & Hct & Hcc & Hcm2 & Hposted2).
  destruct (Hrest _ _ Hrun Hcm2)
    as (t2 & t3 & w' & Hresp & Hsent' & Hconv' & Hposted').
  exists prompt, evs,
    (PyStr.concat (map text_of (OllamaClient.generate_stream
                                  (App.server tk) prompt))).
  exists t1, t2, t3, w'.
  split; [exact Hresp|].
  split; [rewrite Hposted', Hposted2; exact Hposted1|].
  split; [rewrite Hsent', Hsent2, Hsent1, <- !app_assoc; reflexivity|].
  split; [exact Hch|]. split; [exact Hct|]. split; [reflexivity|].
  split; [exact Hcc|].
  rewrite Hconv', Hconv1, <- app_assoc. reflexivity.
Qed.

End RoundTrip.

(** ** A transport failure in the stream *)

Section TransportFailure.
Context `{Env}.
Import Obs.

Lemma bind_assoc {A B C} (c : M A) (k : A -> M B) (k' : B -> M C) (w : world) :
  bind (bind c k) k' w = bind c (fun a => bind (k a) k') w.
Proof. unfold bind. destruct (c w) as [[a| |] w']; reflexivity. Qed.

(** Consuming [a ++ b] is consuming [a], then [b]. *)
Lemma consume_app (a b : list json) :
  forall (full : string) (w : world),
    App.consume (a ++ b) full w = bind (App.consume a full) (App.consume b) w.
Proof.
  induction a as [|c a IH]; intros full w; cbn [app App.consume].
  - reflexivity.
  - destruct (Json.truthy c); [|apply IH].
    destruct c; try reflexivity.
    rewrite bind_assoc. rewrite !(bind_ok now _ _ _ _ (now_ok _)).
    rewrite bind_assoc. rewrite !(bind_ok _ _ _ _ _ (send_ok _ _)).
    apply IH.
Qed.

(** C9. When the transport raises after the lines [ls] of the reply, the
    stream yields the fragments of those lines, then the single
    fragment ["[Error: <message>]"], and ends. The round trip that
    consumes it sends that fragment as a chunk, completes the response,
    returns to [Status(listening)] and leaves the loop running. *)
Theorem C9_transport_failure_yields_error_fragment (tk : App.tick)
    (r : WhisperSTT.result) (w : world) (ls : list WhisperSTT.bytes)
    (e : exn) (cs : list json) :
  (forall prompt, App.server tk prompt = {| lines := ls; failure := Some e |}) ->
  OllamaClient.read_lines ls = (cs, None) ->
  forallb is_text cs = true ->
  session_ok (cm w) ->
  (forall prompt,
     OllamaClient.generate_stream (App.server tk) prompt =
       cs ++ [JStr ("[Error: " +:+ exn_str e +:+ "]")])
  /\ exists (before : list event) (full ts : string) (t2 : Z) (w' : world),
       App.respond tk r w = (Ok App.reset, w')
       /\ sent w' =
            sent w ++ before
            ++ [EvChunk ("[Error: " +:+ exn_str e +:+ "]") ts;
                EvComplete full (isoformat t2);
                EvStatus "listening"]
       /\ full = PyStr.concat (map text_of cs)
                 +:+ "[Error: " +:+ exn_str e +:+ "]".
Proof.
  intros Hsrv Hlines Htext Hok.
  assert (Hstream : forall prompt,
            OllamaClient.generate_stream (App.server tk) prompt =
              cs ++ [JStr ("[Error: " +:+ exn_str e +:+ "]")]).
  { intros prompt. unfold OllamaClient.generate_stream.
    rewrite Hsrv. simpl lines. rewrite Hlines. reflexivity. }
  split; [exact Hstream|].
  destruct (respond_via_consume tk r w Hok)
    as (t1 & prompt & w1 & Hsent1 & _ & _ & _ & Hrest).
  destruct (consume_text cs Htext EmptyString w1)
    as (evs & w2 & Hrun & Hsent2 & _ & _ & _ & Hcm2 & _).
  set (err := "[Error: " +:+ exn_str e +:+ "]") in *.
  set (w3 := with_sent
               (sent w2 ++ [EvChunk err (isoformat (clock w2 + delay (reads w2)))])
               (with_clock (clock w2 + delay (reads w2)) (S (reads w2)) w2)).
  assert (Hall : App.consume (OllamaClient.generate_stream (App.server tk) prompt)
                   EmptyString w1 =
                 (Ok ((EmptyString +:+ PyStr.concat (map text_of cs)) +:+ err), w3)).
  { rewrite Hstream, consume_app. rewrite (bind_ok _ _ _ _ _ Hrun).
    reflexivity. }
  destruct (Hrest _ _ Hall) as (t2 & t3 & w' & Hresp & Hsent' & _).
  { subst w3. simpl. exact Hcm2. }
  exists ([EvTranscription (WhisperSTT.text r) true
             (isoformat (WhisperSTT.timestamp r));
           EvStatus "analyzing"; EvStatus "responding"] ++ evs).
  exists (PyStr.concat (map text_of cs) +:+ err).
  exists (isoformat (clock w2 + delay (reads w2))), t2, w'.
  split; [exact Hresp|]. split; [|reflexivity].
  rewrite Hsent'. subst w3. simpl. rewrite Hsent2, Hsent1.
  rewrite <- !app_assoc. reflexivity.
Qed.

End TransportFailure.

(** ** Saving and loading a session *)

Section Persistence.
Context `{Env}.
Import Obs.

Lemma as_dicts_map (conv : list dict) :
  ConversationManager.as_dicts (map JObj conv) = Some conv.
Proof.
  induction conv as [|msg rest IH]; simpl; [reflexivity|].
  rewrite IH. reflexivity.
Qed.

(** C8. A session with an id, whose turns each have a speaker, is saved
    to its file; loading that id into any manager on the same storage
    directory then succeeds and restores the session id, the essay
    context, the metadata and the turns, in order. Turns and metadata
    are JSON values, and the file holds the document that [json.load]
    reads back from what [json.dump] wrote. *)
Theorem C8_save_then_load_restores (w : world) (sid : string) (m' : manager) :
  session_id (cm w) = Some sid ->
  PyStr.truthy sid = true ->
  forallb speaks (conversation (cm w)) = true ->
  (forall t0, session_start (cm w) = Some t0 ->
              fromisoformat (isoformat t0) <> None) ->
  storage_dir m' = storage_dir (cm w) ->
  exists (path : string) (w1 w2 : world),
    ConversationManager.save_session None w = (Ok path, w1)
    /\ ConversationManager.load_session sid (with_cm m' w1) = (Ok true, w2)
    /\ session_id (cm w2) = Some sid
    /\ conversation (cm w2) = conversation (cm w)
    /\ pdf_metadata (cm w2) = pdf_metadata (cm w)
    /\ pdf_context (cm w2) = pdf_context (cm w).
Proof.
  intros Hsid Htruthy Hturns Hiso Hdir.
  destruct (save_session_doc w sid Hsid Htruthy Hturns)
    as (d & a & b & t & n & Hsave).
  set (path := ConversationManager.session_path (cm w) sid) in *.
  set (doc := ConversationManager.session_data (cm w) sid d a b) in *.
  set (w0 := with_files (<[path := doc]> (files w)) (with_clock t n w)) in *.
  set (w1 := with_cm m' w0).
  assert (Hpath : ConversationManager.session_path (cm w1) sid = path).
  { subst w1 path. unfold ConversationManager.session_path. simpl.
    rewrite Hdir. reflexivity. }
  assert (Hlook : files w1 !! path = Some doc).
  { subst w1 w0. simpl. apply lookup_insert_eq. }
  assert (Hload : exists w2,
            ConversationManager.load_session sid w1 = (Ok true, w2)
            /\ session_id (cm w2) = Some sid
            /\ conversation (cm w2) = conversation (cm w)
            /\ pdf_metadata (cm w2) = pdf_metadata (cm w)
            /\ pdf_context (cm w2) = pdf_context (cm w)).
  { unfold ConversationManager.load_session.
    rewrite (bind_ok get_world _ w1 w1 w1 eq_refl).
    rewrite Hpath, Hlook. subst doc.
    unfold ConversationManager.session_data, try_except.
    destruct (session_start (cm w)) as [t0|] eqn:Hstart.
    - destruct (fromisoformat (isoformat t0)) as [t0'|] eqn:Hparse;
        [|exfalso; eapply Hiso; [reflexivity|exact Hparse]].
      destruct (PyStr.truthy (isoformat t0)) eqn:Hts.
      + eexists. unfold bind, ConversationManager.subscript,
          ConversationManager.update, modify, ret. simpl.
        rewrite Hts, Hparse, as_dicts_map. simpl.
        split; [reflexivity|]. simpl. repeat split; reflexivity.
      + eexists. unfold bind, ConversationManager.subscript,
          ConversationManager.update, modify, ret. simpl.
        rewrite Hts, as_dicts_map. simpl.
        split; [reflexivity|]. simpl. repeat split; reflexivity.
    - eexists. unfold bind, ConversationManager.subscript,
        ConversationManager.update, modify, ret. simpl.
      rewrite as_dicts_map. simpl.
      split; [reflexivity|]. simpl. repeat split; reflexivity. }
  destruct Hload as (w2 & Hload & Hrest).
  exists path, w0, w2. split; [exact Hsave|]. split; [exact Hload|exact Hrest].
Qed.

End Persistence.

(** ** The properties at work in the small environment *)

Lemma demo_session_ok : Obs.session_ok (cm Demo.world0).
Proof.
  split; [|reflexivity].
  exists "1970-01-01_00-00-00". split; reflexivity.
Defined.

(** C4 at work: six seconds after two bytes of silence the phrase
    completes with an empty text and only [Status(listening)] is sent. *)
Lemma C4_witness :
  sent (snd (App.iteration (H := Demo.env) Demo.quiet App.reset Demo.world_silence))
    = [EvStatus "listening"]
  /\ conversation (cm (snd (App.iteration (H := Demo.env) Demo.quiet App.reset
                              Demo.world_silence))) = []
  /\ posted (snd (App.iteration (H := Demo.env) Demo.quiet App.reset
                    Demo.world_silence)) = [].
Proof.
  destruct (C4_empty_phrase_discarded (H := Demo.env) Demo.quiet App.reset
              Demo.world_silence
              (snd (App.poll (H := Demo.env) [] Demo.world_silence))
              (WhisperSTT.mk_result "" true false 0 6001000))
    as (Hrun & _); [reflexivity..|].
  rewrite Hrun. repeat split; reflexivity.
Defined.

(** C10 at work. *)
Lemma C10_witness :
  sent (snd (App.dispatch (H := Demo.env) Demo.quiet (Some (Demo.live ""))
               (App.mk_locals "la" None) Demo.world0)) = [].
Proof.
  destruct (C10_empty_live_text_not_sent (H := Demo.env) Demo.quiet
              (Demo.live "") (App.mk_locals "la" None) Demo.world0)
    as [_ Hsent]; [split; reflexivity|reflexivity|].
  exact Hsent.
Defined.

(** C7 at work: ["la"], ["la"], ["la la"] sends two transcriptions. *)
Lemma C7_witness :
  exists evs l' w',
    Obs.dispatch_all (H := Demo.env) Demo.quiet
      [Demo.live "la"; Demo.live "la"; Demo.live "la la"] App.reset Demo.world0
      = (Ok l', w')
    /\ sent w' = sent Demo.world0 ++ evs
    /\ App.no_repeat (App.live_texts evs).
Proof.
  apply (C7_live_updates_deduplicated (H := Demo.env) Demo.quiet
           [Demo.live "la"; Demo.live "la"; Demo.live "la la"]
           (Demo.live "la") (Demo.live "la") App.reset Demo.world0).
  - repeat constructor.
  - split; reflexivity.
  - split; reflexivity.
  - reflexivity.
Defined.

(** C6 at work: speech, four quiet polls, speech again, one quiet poll. *)
Lemma C6_witness :
  App.throttled
    (pausing_sent
       (snd (App.main_loop (H := Demo.env)
               [Demo.audio; Demo.quiet; Demo.quiet; Demo.quiet; Demo.quiet;
                Demo.audio; Demo.quiet] App.reset Demo.world0)))
  /\ length
       (pausing_sent
          (snd (App.main_loop (H := Demo.env)
                  [Demo.audio; Demo.quiet; Demo.quiet; Demo.quiet; Demo.quiet;
                   Demo.audio; Demo.quiet] App.reset Demo.world0))) = 3%nat.
Proof.
  destruct (C6_pausing_throttled (H := Demo.env)
              (fun k => ltac:(simpl; lia))
              [Demo.audio; Demo.quiet; Demo.quiet; Demo.quiet; Demo.quiet;
               Demo.audio; Demo.quiet] Demo.world0 eq_refl eq_refl)
    as [Hthrottled _].
  split; [exact Hthrottled|reflexivity].
Defined.

(** C5 at work: the two fragments ["Why? "] are sent as two chunks and
    make the response ["Why? Why? "], stored as the bot turn. *)
Lemma C5_witness :
  exists (chunks : list event) (t1 t2 t3 : Z) (w' : world),
    App.respond (H := Demo.env) Demo.talk Demo.phrase Demo.world0
      = (Ok App.reset, w')
    /\ sent w' =
         [EvTranscription "la la" true Demo.epoch;
          EvStatus "analyzing"; EvStatus "responding"]
         ++ chunks
         ++ [EvComplete "Why? Why? " (@isoformat Demo.env t2);
             EvStatus "listening"]
    /\ App.chunk_texts chunks = ["Why? "; "Why? "]
    /\ conversation (cm w') =
         [Obs.turn (H := Demo.env) t1 "student" "la la";
          Obs.turn (H := Demo.env) t3 "bot" "Why? Why? "].
Proof.
  destruct (C5_chunks_concatenate_to_complete (H := Demo.env) Demo.talk
              Demo.phrase Demo.world0 demo_session_ok)
    as (prompt & chunks & full & t1 & t2 & t3 & w' & Hrun & _ & Hsent & _
        & Htexts & Hfull & _ & Hconv).
  - intros prompt. reflexivity.
  - exists chunks, t1, t2, t3, w'.
    split; [exact Hrun|]. split; [rewrite Hsent, Hfull; reflexivity|].
    split; [rewrite Htexts; reflexivity|].
    rewrite Hconv, Hfull. reflexivity.
Defined.

(** C9 at work: one fragment, then the connection drops. *)
Lemma C9_witness :
  OllamaClient.generate_stream (H := Demo.env) Demo.failing_server "prompt"
    = [JStr "Why? "; JStr "[Error: Response payload is not completed]"]
  /\ exists w',
       App.respond (H := Demo.env) Demo.drop Demo.phrase Demo.world0
         = (Ok App.reset, w')
       /\ List.last (sent w') EvReady = EvStatus "listening".
Proof.
  destruct (C9_transport_failure_yields_error_fragment (H := Demo.env)
              Demo.drop Demo.phrase Demo.world0 [[Byte.x01]]
              {| exn_class := "ClientPayloadError";
                 exn_str := "Response payload is not completed" |}
              [JStr "Why? "])
    as (Hstream & before & full & ts & t2 & w' & Hrun & Hsent & _).
  - intros prompt. reflexivity.
  - reflexivity.
  - reflexivity.
  - exact demo_session_ok.
  - split; [apply Hstream|].
    exists w'. split; [exact Hrun|].
    rewrite Hsent.
    match goal with |- List.last (?a ++ ?b ++ [?x; ?y; ?z]) _ = _ =>
      change (a ++ b ++ [x; y; z]) with (a ++ b ++ [x; y] ++ [z])
    end.
    rewrite !app_assoc. apply last_last.
Defined.

(** C8 at work: a session with two turns and the metadata of a
    three-page essay, saved and then loaded into a fresh manager, whose
    session id is unset, whose conversation is empty and whose metadata
    are [{}]. *)
Lemma C8_witness :
  exists (path : string) (w1 w2 : world),
    ConversationManager.save_session (H := Demo.env) None Demo.world_archived
      = (Ok path, w1)
    /\ ConversationManager.load_session (H := Demo.env) "1970-01-01_00-00-00"
         (with_cm (ConversationManager.init "conversations") w1) = (Ok true, w2)
    /\ session_id (cm w2) = Some "1970-01-01_00-00-00"
    /\ conversation (cm w2) =
         [Obs.turn (H := Demo.env) 0 "student" "la";
          Obs.turn (H := Demo.env) 0 "bot" "Why? "]
    /\ pdf_metadata (cm w2) =
         JObj [("title", JStr "On doubt"); ("author", JStr "Unknown");
               ("pages", JInt 3)]
    /\ pdf_context (cm w2) = "An essay."
    /\ conversation (cm w2) <> conversation (ConversationManager.init "conversations")
    /\ pdf_metadata (cm w2) <> pdf_metadata (ConversationManager.init "conversations").
Proof.
  destruct (C8_save_then_load_restores (H := Demo.env) Demo.world_archived
              "1970-01-01_00-00-00" (ConversationManager.init "conversations"))
    as (path & w1 & w2 & Hsave & Hload & Hid & Hconv & Hmeta & Hctx).
  - reflexivity.
  - reflexivity.
  - reflexivity.
  - intros t0 _. discriminate.
  - reflexivity.
  - exists path, w1, w2.
    split; [exact Hsave|]. split; [exact Hload|]. split; [exact Hid|].
    split; [rewrite Hconv; reflexivity|].
    split; [rewrite Hmeta; reflexivity|].
    split; [rewrite Hctx; reflexivity|].
    split; [rewrite Hconv; discriminate|rewrite Hmeta; discriminate].
Defined.

(** * Further properties of the code *)

(** ** [WhisperSTT.process_audio_queue] *)

Section SegmenterRuns.
Import WhisperSTT.
Variable asr : bytes -> string.

(** X4. Whatever the state, a tick leaves the queue empty, keeps the
    timeout and [is_running], and either clears the buffer or extends
    it; its result, if any, is stamped with the time of the tick, is
    never both pausing and complete, and has no text when pausing. *)
Theorem tick_shape (s : t) (now : Z) :
  let p := process_audio_queue asr now s in
  data_queue (fst p) = []
  /\ phrase_timeout (fst p) = phrase_timeout s
  /\ is_running (fst p) = is_running s
  /\ (phrase_bytes (fst p) = []
      \/ phrase_bytes (fst p) = phrase_bytes s ++ join_bytes (data_queue s))
  /\ forall r, snd p = Some r ->
       timestamp r = now
       /\ pausing r && phrase_complete r = false
       /\ (pausing r = true -> text r = EmptyString).
Proof.
  unfold process_audio_queue.
  destruct (data_queue s) as [|c q] eqn:Hq.
  - destruct (phrase_time s) as [last|]; simpl.
    + destruct (negb (nonempty (phrase_bytes s))); simpl.
      * rewrite app_nil_r. repeat split; auto; discriminate.
      * destruct (Qle_bool _ _); simpl.
        -- repeat split; auto; inversion H; subst; simpl; auto; discriminate.
        -- rewrite app_nil_r.
           repeat split; auto; inversion H; subst; simpl; auto.
    + rewrite app_nil_r. repeat split; auto; discriminate.
  - simpl. repeat split; auto; inversion H; subst; simpl; auto; discriminate.
Qed.


End SegmenterRuns.

(** ** [ConversationManager]: saving *)

Section Saving.
Context `{Env}.
Import Obs.

Lemma save_session_raises (filepath : option string) (w : world) :
  session_id (cm w) = None \/ session_id (cm w) = Some EmptyString ->
  ConversationManager.save_session filepath w = (Raise no_session, w).
Proof.
  intros [Hsid|Hsid]; unfold ConversationManager.save_session;
    rewrite (bind_ok get_world _ w w w eq_refl), Hsid; reflexivity.
Qed.

Lemma count_speaker_value (who : string) (conv : list dict) (w : world) :
  forallb speaks conv = true ->
  ConversationManager.count_speaker who conv w = (Ok (count_who who conv), w).
Proof.
  unfold count_who.
  induction conv as [|msg rest IH]; simpl; intros Hall; [reflexivity|].
  apply andb_true_iff in Hall as [Hmsg Hrest]. unfold speaks in Hmsg.
  destruct (Json.lookup "speaker" msg) as [v|]; [|discriminate].
  rewrite (bind_ok _ _ _ _ _ (IH Hrest)). unfold ret.
  destruct (Json.eq_str v who); simpl length; f_equal; f_equal; lia.
Qed.

Lemma count_speaker_raises (who : string) (conv : list dict) (w : world) :
  forallb speaks conv = false ->
  ConversationManager.count_speaker who conv w =
    (Raise {| exn_class := "KeyError"; exn_str := "'speaker'" |}, w).
Proof.
  induction conv as [|msg rest IH]; simpl; intros Hall; [discriminate|].
  unfold speaks in Hall at 1.
  destruct (Json.lookup "speaker" msg) as [v|]; [|reflexivity].
  simpl in Hall. unfold bind. rewrite (IH Hall). reflexivity.
Qed.

(** X6. When a turn of the conversation has no ['speaker'] entry,
    [save_session] raises [KeyError('speaker')] before it opens the
    file: the files and the manager are as before. *)
Theorem save_session_needs_speakers (filepath : option string) (w : world)
    (sid : string) :
  session_id (cm w) = Some sid ->
  PyStr.truthy sid = true ->
  forallb speaks (conversation (cm w)) = false ->
  exists w',
    ConversationManager.save_session filepath w =
      (Raise {| exn_class := "KeyError"; exn_str := "'speaker'" |}, w')
    /\ files w' = files w
    /\ cm w' = cm w.
Proof.
  intros Hsid Htruthy Hturns.
  unfold ConversationManager.save_session.
  rewrite (bind_ok get_world _ w w w eq_refl), Hsid, Htruthy.
  change (negb true) with false. cbv iota.
  destruct (session_start (cm w)) as [t0|].
  - set (w1 := with_clock (clock w + delay (reads w)) (S (reads w)) w).
    assert (Hd : (let* t1 := now in
                  ret (JFloat (WhisperSTT.total_seconds (t1 - t0)))) w =
                 (Ok (JFloat (WhisperSTT.total_seconds
                                (clock w + delay (reads w) - t0))), w1))
      by reflexivity.
    rewrite (bind_ok _ _ _ _ _ Hd).
    exists w1. unfold bind at 1.
    rewrite (count_speaker_raises "student" _ w1 Hturns). repeat split.
  - rewrite (bind_ok (ret JNull) _ w w JNull eq_refl).
    exists w. unfold bind at 1.
    rewrite (count_speaker_raises "student" _ w Hturns). repeat split.
Qed.

(** X7. The document [save_session] writes counts the turns: its
    [message_count] is the length of the conversation, and its
    [student_messages] and [bot_messages] are the numbers of turns
    whose speaker is ['student'] and ['bot'], which together never
    exceed [message_count]. *)
Theorem saved_counts (w : world) (sid : string) :
  session_id (cm w) = Some sid ->
  PyStr.truthy sid = true ->
  forallb speaks (conversation (cm w)) = true ->
  exists path doc w',
    ConversationManager.save_session None w = (Ok path, w')
    /\ files w' !! path = Some (JObj doc)
    /\ Json.lookup "message_count" doc =
         Some (JInt (Z.of_nat (length (conversation (cm w)))))
    /\ Json.lookup "student_messages" doc =
         Some (JInt (count_who "student" (conversation (cm w))))
    /\ Json.lookup "bot_messages" doc =
         Some (JInt (count_who "bot" (conversation (cm w))))
    /\ count_who "student" (conversation (cm w))
       + count_who "bot" (conversation (cm w))
       <= Z.of_nat (length (conversation (cm w))).
Proof.
  intros Hsid Htruthy Hturns.
  assert (Hle : count_who "student" (conversation (cm w))
                + count_who "bot" (conversation (cm w))
                <= Z.of_nat (length (conversation (cm w)))).
  { unfold count_who. induction (conversation (cm w)) as [|msg rest IH];
      simpl; [lia|].
    simpl in Hturns. apply andb_true_iff in Hturns as [_ Hrest].
    specialize (IH Hrest).
    destruct (Json.lookup "speaker" msg) as [[]|]; simpl; try lia.
    destruct (String.eqb s "student") eqn:Hs; simpl.
    - apply String.eqb_eq in Hs. subst s. simpl. lia.
    - destruct (String.eqb s "bot"); simpl; lia. }
  unfold ConversationManager.save_session.
  rewrite (bind_ok get_world _ w w w eq_refl), Hsid, Htruthy.
  change (negb true) with false. cbv iota.
  destruct (session_start (cm w)) as [t0|] eqn:Hstart.
  - set (w1 := with_clock (clock w + delay (reads w)) (S (reads w)) w).
    assert (Hd : (let* t1 := now in
                  ret (JFloat (WhisperSTT.total_seconds (t1 - t0)))) w =
                 (Ok (JFloat (WhisperSTT.total_seconds
                                (clock w + delay (reads w) - t0))), w1))
      by reflexivity.
    rewrite (bind_ok _ _ _ _ _ Hd).
    rewrite (bind_ok _ _ _ _ _ (count_speaker_value "student" _ w1 Hturns)).
    rewrite (bind_ok _ _ _ _ _ (count_speaker_value "bot" _ w1 Hturns)).
    eexists _, _, _. split; [reflexivity|].
    split; [simpl; apply lookup_insert_eq|].
    repeat split; try reflexivity. exact Hle.
  - rewrite (bind_ok (ret JNull) _ w w JNull eq_refl).
    rewrite (bind_ok _ _ _ _ _ (count_speaker_value "student" _ w Hturns)).
    rewrite (bind_ok _ _ _ _ _ (count_speaker_value "bot" _ w Hturns)).
    eexists _, _, _. split; [reflexivity|].
    split; [simpl; apply lookup_insert_eq|].
    repeat split; try reflexivity. exact Hle.
Qed.

Lemma add_message_dangling (speaker text : string) (w : world) :
  session_id (cm w) = None ->
  exists t w',
    ConversationManager.add_message speaker text None None None w =
      (Raise no_session, w')
    /\ conversation (cm w') = conversation (cm w) ++ [turn t speaker text]
    /\ files w' = files w
    /\ sent w' = sent w /\ posted w' = posted w /\ stt w' = stt w.
Proof.
  intros Hsid. unfold ConversationManager.add_message.
  rewrite (bind_ok now _ _ _ _ (now_ok _)). cbn [app].
  set (t := clock w + delay (reads w)). fold (turn t speaker text).
  unfold bind at 1. unfold ConversationManager.update, modify at 1.
  set (w1 := with_cm _ _).
  exists t, w1. unfold bind.
  rewrite (save_session_raises None w1) by (left; exact Hsid).
  repeat split.
Qed.

(** X8. Without a session, [add_message] raises [ValueError], but only
    after the turn has been appended: the conversation is one turn
    longer and no file is written. *)
Theorem add_message_without_session (speaker text : string) (w : world) :
  session_id (cm w) = None ->
  exists t w',
    ConversationManager.add_message speaker text None None None w =
      (Raise no_session, w')
    /\ conversation (cm w') = conversation (cm w) ++ [turn t speaker text]
    /\ files w' = files w.
Proof.
  intros Hsid.
  destruct (add_message_dangling speaker text w Hsid)
    as (t & w' & Hrun & Hconv & Hfiles & _).
  exists t, w'. auto.
Qed.

Lemma add_message_saved (speaker text : string) (w : world) (sid : string) :
  session_id (cm w) = Some sid ->
  PyStr.truthy sid = true ->
  forallb speaks (conversation (cm w)) = true ->
  exists t doc w',
    ConversationManager.add_message speaker text None None None w =
      (Ok (turn t speaker text), w')
    /\ conversation (cm w') = conversation (cm w) ++ [turn t speaker text]
    /\ files w' !! ConversationManager.session_path (cm w) sid = Some (JObj doc)
    /\ Json.lookup "conversation" doc =
         Some (JArr (map JObj (conversation (cm w) ++ [turn t speaker text])))
    /\ Json.lookup "pdf_context" doc = Some (JStr (pdf_context (cm w)))
    /\ forall other, other <> ConversationManager.session_path (cm w) sid ->
         files w' !! other = files w !! other.
Proof.
  intros Hsid Htruthy Hturns. unfold ConversationManager.add_message.
  rewrite (bind_ok now _ _ _ _ (now_ok _)). cbn [app].
  set (t := clock w + delay (reads w)). fold (turn t speaker text).
  unfold bind at 1. unfold ConversationManager.update, modify at 1.
  set (w1 := with_cm _ _).
  assert (Hturns1 : forallb speaks (conversation (cm w1)) = true).
  { subst w1. simpl. apply forallb_app_single; [exact Hturns|reflexivity]. }
  destruct (save_session_doc w1 sid Hsid Htruthy Hturns1)
    as (d & a & b & t' & n & Hsave).
  rewrite (bind_ok _ _ _ _ _ Hsave).
  exists t. eexists. eexists. split; [reflexivity|].
  split; [reflexivity|]. split; [simpl; apply lookup_insert_eq|].
  split; [reflexivity|]. split; [reflexivity|].
  intros other Hother. simpl. apply lookup_insert_ne.
  intros Heq. apply Hother. rewrite <- Heq. reflexivity.
Qed.

(** X9. With a session that can be saved, [add_message] returns the
    turn it appended, and the file of the session then holds the whole
    conversation, the new turn included; no other file is touched. *)
Theorem add_message_persists (speaker text : string) (w : world) (sid : string) :
  session_id (cm w) = Some sid ->
  PyStr.truthy sid = true ->
  forallb speaks (conversation (cm w)) = true ->
  exists t doc w',
    ConversationManager.add_message speaker text None None None w =
      (Ok (turn t speaker text), w')
    /\ conversation (cm w') = conversation (cm w) ++ [turn t speaker text]
    /\ files w' !! ConversationManager.session_path (cm w) sid = Some (JObj doc)
    /\ Json.lookup "conversation" doc =
         Some (JArr (map JObj (conversation (cm w) ++ [turn t speaker text])))
    /\ forall other, other <> ConversationManager.session_path (cm w) sid ->
         files w' !! other = files w !! other.
Proof.
  intros Hsid Htruthy Hturns.
  destruct (add_message_saved speaker text w sid Hsid Htruthy Hturns)
    as (t & doc & w' & Hrun & Hconv & Hfile & Hdoc & _ & Hother).
  exists t, doc, w'. auto.
Qed.

End Saving.

(** ** [ConversationManager]: loading, history, starting *)

Section Loading.
Context `{Env}.
Import Obs.

(** X10. A failed load is not undone. When the file is an object with
    a session id and an essay context but no ['conversation'] entry
    (and no session start), [load_session] returns [False] after it
    has overwritten the session id, the session start, the context and
    the metadata of the manager; the conversation is the old one. *)
Theorem load_session_fails_half_way (sid : string) (w : world)
    (d : dict) (loaded_id context : string) :
  files w !! ConversationManager.session_path (cm w) sid = Some (JObj d) ->
  Json.lookup "session_id" d = Some (JStr loaded_id) ->
  Json.lookup "session_start" d = None ->
  Json.lookup "pdf_context" d = Some (JStr context) ->
  Json.lookup "conversation" d = None ->
  exists w',
    ConversationManager.load_session sid w = (Ok false, w')
    /\ session_id (cm w') = Some loaded_id
    /\ session_start (cm w') = None
    /\ pdf_context (cm w') = context
    /\ pdf_metadata (cm w') = Json.get "pdf_metadata" (JObj []) d
    /\ conversation (cm w') = conversation (cm w).
Proof.
  intros Hfile Hid Hstart Hctx Hconv.
  unfold ConversationManager.load_session.
  rewrite (bind_ok get_world _ w w w eq_refl), Hfile.
  eexists. unfold try_except, bind, ConversationManager.subscript,
    ConversationManager.update, modify, ret, raise, Json.get.
  rewrite Hid, Hstart, Hctx, Hconv. simpl.
  split; [reflexivity|]. simpl. repeat split; reflexivity.
Qed.

(** X11. [get_conversation_history(n)] for a positive [n] returns the
    last [n] turns, all of them when there are fewer: a suffix of the
    conversation of length [min n (len conversation)]. Without [n], or
    with [n = 0], it returns the whole conversation. It changes
    nothing. *)
Theorem history_is_a_suffix (n : positive) (w : world) :
  exists earlier recent,
    ConversationManager.get_conversation_history (Some (Zpos n)) w
      = (Ok recent, w)
    /\ conversation (cm w) = earlier ++ recent
    /\ length recent = Nat.min (Pos.to_nat n) (length (conversation (cm w)))
    /\ ConversationManager.get_conversation_history None w
         = (Ok (conversation (cm w)), w)
    /\ ConversationManager.get_conversation_history (Some 0) w
         = (Ok (conversation (cm w)), w).
Proof.
  exists (firstn (length (conversation (cm w)) - Pos.to_nat n) (conversation (cm w))).
  exists (ConversationManager.last_n (Pos.to_nat n) (conversation (cm w))).
  split; [reflexivity|]. unfold ConversationManager.last_n.
  split; [symmetry; apply firstn_skipn|].
  split; [rewrite length_skipn; lia|]. split; reflexivity.
Qed.

Lemma last_n_last_n {A} (n m : nat) (l : list A) :
  (n <= m)%nat ->
  ConversationManager.last_n n (ConversationManager.last_n m l)
  = ConversationManager.last_n n l.
Proof.
  intros Hnm. unfold ConversationManager.last_n.
  rewrite skipn_skipn, length_skipn. f_equal. lia.
Qed.

(** X12. The prompt of a round trip shows the last six turns only: the
    orchestrator passes the last ten turns of the conversation, of
    which [generate_socratic_response_stream] keeps the last six, so
    the call is the one made with the last six turns. *)
Theorem prompt_shows_last_six_turns (srv : string -> response)
    (input ctx : string) (conv : list dict) (w : world) :
  OllamaClient.generate_socratic_response_stream srv input ctx
    (ConversationManager.last_n 10 conv) w
  = OllamaClient.generate_socratic_response_stream srv input ctx
      (ConversationManager.last_n 6 conv) w.
Proof.
  unfold OllamaClient.generate_socratic_response_stream,
    OllamaClient.socratic_prompt.
  rewrite (last_n_last_n 6 10) by lia.
  rewrite (last_n_last_n 6 6) by lia. reflexivity.
Qed.

(** X13. [start_session] drops the previous conversation and names the
    session after the time of the call; when that name is not empty, a
    first [add_message] succeeds and leaves a conversation of exactly
    that turn, saved under the new name with the new context. *)
Theorem start_session_then_add_message (context speaker text : string)
    (metadata : json) (w : world) :
  PyStr.truthy (strftime_id (clock w + delay (reads w))) = true ->
  exists sid w1 t doc w2,
    ConversationManager.start_session context metadata w = (Ok sid, w1)
    /\ sid = strftime_id (clock w + delay (reads w))
    /\ session_id (cm w1) = Some sid
    /\ conversation (cm w1) = []
    /\ pdf_metadata (cm w1) =
         (if Json.truthy metadata then metadata else JObj [])
    /\ ConversationManager.add_message speaker text None None None w1
         = (Ok (turn t speaker text), w2)
    /\ conversation (cm w2) = [turn t speaker text]
    /\ files w2 !! ConversationManager.session_path (cm w) sid = Some (JObj doc)
    /\ Json.lookup "pdf_context" doc = Some (JStr context)
    /\ Json.lookup "conversation" doc = Some (JArr [JObj (turn t speaker text)]).
Proof.
  intros Hname.
  set (sid := strftime_id (clock w + delay (reads w))) in *.
  set (w1 := with_cm
               (mk_manager (storage_dir (cm w)) (Some sid) context
                  (if Json.truthy metadata then metadata else JObj [])
                  [] (Some (clock w + delay (reads w))))
               (with_clock (clock w + delay (reads w)) (S (reads w)) w)).
  assert (Hstart : ConversationManager.start_session context metadata w
                   = (Ok sid, w1)) by reflexivity.
  destruct (add_message_saved speaker text w1 sid eq_refl Hname eq_refl)
    as (t & doc & w2 & Hadd & Hconv & Hfile & Hdoc & Hctx & _).
  exists sid, w1, t, doc, w2.
  split; [exact Hstart|]. split; [reflexivity|]. split; [reflexivity|].
  split; [reflexivity|]. split; [reflexivity|]. split; [exact Hadd|].
  split; [exact Hconv|]. split; [exact Hfile|].
  split; [exact Hctx|exact Hdoc].
Qed.

End Loading.

(** ** [OllamaClient.generate_stream] *)

Section Streaming.
Context `{Env}.
Import Obs.

Lemma read_lines_truthy (ls : list WhisperSTT.bytes) :
  forallb Json.truthy (fst (OllamaClient.read_lines ls)) = true.
Proof.
  induction ls as [|line rest IH]; simpl; [reflexivity|].
  destruct (WhisperSTT.nonempty line); [|exact IH].
  destruct (json_loads line) as [v| |e]; try exact IH; try reflexivity.
  destruct v; try reflexivity.
  destruct (Json.truthy (Json.get "response" (JStr EmptyString) fields)) eqn:Ht;
    [|exact IH].
  destruct (OllamaClient.read_lines rest) as [cs e]. simpl in *.
  rewrite Ht. exact IH.
Qed.

(** X14. [generate_stream] never yields an empty fragment: everything
    it yields, the error fragment included, is truthy. *)
Theorem stream_fragments_are_truthy (srv : string -> response) (prompt : string) :
  forallb Json.truthy (OllamaClient.generate_stream srv prompt) = true.
Proof.
  unfold OllamaClient.generate_stream.
  pose proof (read_lines_truthy (lines (srv prompt))) as Hcs.
  destruct (OllamaClient.read_lines (lines (srv prompt))) as [cs e].
  simpl in Hcs.
  destruct e as [e|]; [|destruct (failure (srv prompt)) as [e|]];
    try exact Hcs; rewrite forallb_app, Hcs; reflexivity.
Qed.

Lemma read_lines_app (pre post : list WhisperSTT.bytes) :
  OllamaClient.read_lines (pre ++ post) =
    match OllamaClient.read_lines pre with
    | (cs, Some e) => (cs, Some e)
    | (cs, None) =>
        (cs ++ fst (OllamaClient.read_lines post),
         snd (OllamaClient.read_lines post))
    end.
Proof.
  induction pre as [|line rest IH]; simpl.
  - destruct (OllamaClient.read_lines post); reflexivity.
  - destruct (WhisperSTT.nonempty line); [|exact IH].
    destruct (json_loads line) as [v| |e]; try exact IH; try reflexivity.
    destruct v; try reflexivity.
    destruct (Json.truthy _); [|exact IH].
    rewrite IH. destruct (OllamaClient.read_lines rest) as [cs [e|]]; reflexivity.
Qed.

(** X15. Empty lines and lines that are not JSON are skipped: a reply
    with such a line anywhere yields what the reply without it
    yields. *)
Theorem skipped_lines_do_not_matter (srv srv' : string -> response)
    (prompt : string) (pre post : list WhisperSTT.bytes)
    (line : WhisperSTT.bytes) :
  skipped line ->
  lines (srv prompt) = pre ++ line :: post ->
  lines (srv' prompt) = pre ++ post ->
  failure (srv' prompt) = failure (srv prompt) ->
  OllamaClient.generate_stream srv prompt
  = OllamaClient.generate_stream srv' prompt.
Proof.
  intros Hskip Hl Hl' Hf. unfold OllamaClient.generate_stream.
  rewrite Hl, Hl', Hf, !read_lines_app.
  assert (Hline : OllamaClient.read_lines (line :: post)
                  = OllamaClient.read_lines post).
  { simpl. destruct Hskip as [->|Hbad]; [reflexivity|].
    destruct (WhisperSTT.nonempty line); [|reflexivity].
    rewrite Hbad. reflexivity. }
  rewrite Hline. reflexivity.
Qed.

(** X16. A line that raises in the body (bytes that are not UTF-8, or
    a JSON value that is not an object) ends the stream: after the
    fragments of the lines before it comes the error fragment of that
    exception, and nothing of what the server sends afterwards. *)
Theorem body_fault_ends_the_stream (srv : string -> response) (prompt : string)
    (pre post : list WhisperSTT.bytes) (line : WhisperSTT.bytes)
    (cs : list json) (e : exn) :
  lines (srv prompt) = pre ++ line :: post ->
  OllamaClient.read_lines pre = (cs, None) ->
  fault_of line = Some e ->
  OllamaClient.generate_stream srv prompt
  = cs ++ [JStr ("[Error: " +:+ exn_str e +:+ "]")].
Proof.
  intros Hl Hpre Hfault. unfold OllamaClient.generate_stream.
  rewrite Hl, read_lines_app, Hpre.
  assert (Hline : OllamaClient.read_lines (line :: post) = ([], Some e)).
  { simpl. unfold fault_of in Hfault.
    destruct (WhisperSTT.nonempty line); [|discriminate].
    destruct (json_loads line) as [v| |e']; try discriminate.
    - destruct v; inversion Hfault; reflexivity.
    - inversion Hfault. reflexivity. }
  rewrite Hline. simpl. rewrite app_nil_r. reflexivity.
Qed.

(** X17. When every line of the reply is a JSON object and the
    transport does not fail, the stream is the sequence of the
    non-empty ["response"] entries, in order. *)
Theorem clean_stream_is_the_responses (srv : string -> response)
    (prompt : string) :
  Forall (fun line => line <> [] /\ exists d, json_loads line = Decoded (JObj d))
         (lines (srv prompt)) ->
  failure (srv prompt) = None ->
  OllamaClient.generate_stream srv prompt
  = List.filter Json.truthy (map response_of (lines (srv prompt))).
Proof.
  intros Hall Hf. unfold OllamaClient.generate_stream. rewrite Hf.
  assert (Hrl : OllamaClient.read_lines (lines (srv prompt)) =
                (List.filter Json.truthy (map response_of (lines (srv prompt))),
                 None)).
  { induction Hall as [|line rest [Hne [d Hd]] _ IH]; simpl; [reflexivity|].
    rewrite (nonempty_true line Hne).
    assert (Hr : response_of line = Json.get "response" (JStr EmptyString) d)
      by (unfold response_of; rewrite Hd; reflexivity).
    rewrite Hd, Hr.
    destruct (Json.truthy (Json.get "response" (JStr EmptyString) d));
      rewrite IH; reflexivity. }
  rewrite Hrl. reflexivity.
Qed.

End Streaming.

(** ** [PDFParser.extract_first_n_words] *)

Section Words.
Import PDFParser.

Lemma append_char_assoc (a : string) (c : ascii) (b : string) :
  (a +:+ String c EmptyString) +:+ b = a +:+ String c b.
Proof.
  induction a as [|x a IH]; [reflexivity|].
  change (String x ((a +:+ String c EmptyString) +:+ b)
          = String x (a +:+ String c b)).
  f_equal. exact IH.
Qed.

Lemma truthy_append_char (a : string) (c : ascii) :
  PyStr.truthy (a +:+ String c EmptyString) = true.
Proof. destruct a; reflexivity. Qed.

Lemma no_space_append_char (a : string) (c : ascii) :
  no_space a = true -> PyStr.isspace c = false ->
  no_space (a +:+ String c EmptyString) = true.
Proof.
  intros Ha Hc. induction a as [|x a IH].
  - change (negb (PyStr.isspace c) && true = true). rewrite Hc. reflexivity.
  - change (negb (PyStr.isspace x) && no_space (a +:+ String c EmptyString) = true).
    simpl in Ha. apply andb_true_iff in Ha as [Hx Ha].
    rewrite Hx, (IH Ha). reflexivity.
Qed.

(** Every string [split] returns is a word. *)
Lemma split_from_words (s : string) :
  forall word, no_space word = true ->
    forallb is_word (split_from s word) = true.
Proof.
  induction s as [|c r IH]; intros word Hw; simpl.
  - destruct (PyStr.truthy word) eqn:Ht; [|reflexivity].
    simpl. unfold is_word. rewrite Ht, Hw. reflexivity.
  - destruct (PyStr.isspace c) eqn:Hc.
    + destruct (PyStr.truthy word) eqn:Ht; [|apply IH; reflexivity].
      simpl. unfold is_word at 1. rewrite Ht, Hw. simpl. apply IH. reflexivity.
    + apply IH. apply no_space_append_char; assumption.
Qed.

(** Reading a word character by character. *)
Lemma split_from_word (w rest word : string) :
  no_space w = true ->
  split_from (w +:+ rest) word = split_from rest (word +:+ w).
Proof.
  revert word. induction w as [|c w IH]; intros word Hw.
  - change (EmptyString +:+ rest) with rest. rewrite append_nil_r. reflexivity.
  - simpl in Hw. apply andb_true_iff in Hw as [Hc Hw].
    apply negb_true_iff in Hc.
    change (String c w +:+ rest) with (String c (w +:+ rest)).
    simpl. rewrite Hc, (IH _ Hw), append_char_assoc. reflexivity.
Qed.

(** Splitting words joined by single spaces gives the words back. *)
Lemma split_join (ws : list string) :
  forallb is_word ws = true -> split (PyStr.join " " ws) = ws.
Proof.
  unfold split. induction ws as [|w ws IH]; intros Hall; [reflexivity|].
  simpl in Hall. apply andb_true_iff in Hall as [Hw Hws].
  unfold is_word in Hw. apply andb_true_iff in Hw as [Ht Hn].
  destruct ws as [|w2 ws].
  - simpl PyStr.join. rewrite <- (append_nil_r w) at 1.
    rewrite (split_from_word w EmptyString EmptyString Hn).
    change (EmptyString +:+ w) with w. simpl. rewrite Ht. reflexivity.
  - change (PyStr.join " " (w :: w2 :: ws))
      with (w +:+ " " +:+ PyStr.join " " (w2 :: ws)).
    rewrite (split_from_word w _ EmptyString Hn).
    change (EmptyString +:+ w) with w.
    change (" " +:+ PyStr.join " " (w2 :: ws))
      with (String " " (PyStr.join " " (w2 :: ws))).
    simpl split_from. rewrite Ht. f_equal. apply IH. exact Hws.
Qed.

Lemma take_words_spec (words : list string) (n : Z) :
  forall (all_text : list string) (count : Z),
    take_words words n all_text count =
      (all_text ++ firstn (Z.to_nat (n - count)) words,
       count + Z.of_nat (length (firstn (Z.to_nat (n - count)) words))).
Proof.
  induction words as [|w rest IH]; intros all_text count; simpl.
  - rewrite firstn_nil, app_nil_r. simpl. f_equal. lia.
  - destruct (n <=? count) eqn:Hle.
    + apply Z.leb_le in Hle.
      replace (Z.to_nat (n - count)) with 0%nat by lia.
      simpl. rewrite app_nil_r. f_equal. lia.
    + apply Z.leb_gt in Hle. rewrite IH.
      replace (Z.to_nat (n - count)) with (S (Z.to_nat (n - (count + 1)))) by lia.
      simpl. rewrite <- app_assoc. simpl. f_equal. lia.
Qed.

Lemma read_pages_spec (pages : list string) (n : Z) :
  forall (all_text : list string) (count : Z),
    read_pages pages n all_text count =
      all_text ++ firstn (Z.to_nat (n - count)) (List.concat (map split pages)).
Proof.
  induction pages as [|text rest IH]; intros all_text count; simpl.
  - rewrite firstn_nil, app_nil_r. reflexivity.
  - rewrite take_words_spec. rewrite firstn_app.
    set (k := Z.to_nat (n - count)).
    destruct (n <=? count + Z.of_nat (length (firstn k (split text)))) eqn:Hle.
    + apply Z.leb_le in Hle. rewrite length_firstn in Hle.
      assert (Hk : (k - length (split text) = 0)%nat).
      { destruct (Nat.min_spec k (length (split text))) as [[Hlt Hm]|[Hge Hm]];
          rewrite Hm in *; subst k; lia. }
      rewrite Hk. simpl. rewrite app_nil_r. reflexivity.
    + apply Z.leb_gt in Hle. rewrite length_firstn in Hle.
      rewrite IH, <- app_assoc. f_equal. f_equal. f_equal.
      rewrite length_firstn.
      destruct (Nat.min_spec k (length (split text))) as [[Hlt Hm]|[Hge Hm]];
        rewrite Hm in *; subst k; lia.
Qed.

Lemma extract_spec (pages : list string) (n : Z) :
  extract_first_n_words pages n =
    PyStr.join " " (firstn (Z.to_nat n) (List.concat (map split pages))).
Proof.
  unfold extract_first_n_words. rewrite read_pages_spec. simpl.
  rewrite Z.sub_0_r. reflexivity.
Qed.

(** X18. The words [extract_first_n_words] joins are the first
    [n_words] words of the pages, in order, the words of a page being
    the runs [text.split()] finds; with [n_words] zero or negative
    there are none. *)
Theorem first_n_words_of_the_pages (pages : list string) (n : Z) :
  extract_first_n_words pages n =
    PyStr.join " " (firstn (Z.to_nat n) (List.concat (map split pages)))
  /\ (n <= 0 -> extract_first_n_words pages n = EmptyString).
Proof.
  split; [apply extract_spec|].
  intros Hn. rewrite extract_spec.
  replace (Z.to_nat n) with 0%nat by lia. reflexivity.
Qed.

Lemma forallb_concat {A} (f : A -> bool) (ls : list (list A)) :
  Forall (fun l => forallb f l = true) ls -> forallb f (List.concat ls) = true.
Proof.
  induction 1 as [|l ls Hl _ IH]; simpl; [reflexivity|].
  rewrite forallb_app, Hl, IH. reflexivity.
Qed.

Lemma forallb_firstn {A} (f : A -> bool) (n : nat) (l : list A) :
  forallb f l = true -> forallb f (firstn n l) = true.
Proof.
  revert l. induction n as [|n IH]; intros l Hl; [reflexivity|].
  destruct l as [|a l]; [reflexivity|]. simpl in *.
  apply andb_true_iff in Hl as [Ha Hl]. rewrite Ha, (IH _ Hl). reflexivity.
Qed.

(** X19. Splitting the extracted text gives the extracted words back:
    the text has no leading, trailing or doubled space, and its word
    count, the one [upload_pdf] reports, is [n_words] or the number of
    words in the file, whichever is smaller. *)
Theorem extracted_text_word_count (pages : list string) (n : Z) :
  split (extract_first_n_words pages n) =
    firstn (Z.to_nat n) (List.concat (map split pages))
  /\ length (split (extract_first_n_words pages n)) =
       Nat.min (Z.to_nat n) (length (List.concat (map split pages))).
Proof.
  assert (Hsplit : split (extract_first_n_words pages n) =
                   firstn (Z.to_nat n) (List.concat (map split pages))).
  { rewrite extract_spec.
    apply split_join, forallb_firstn, forallb_concat.
    induction pages as [|text rest IH]; simpl; constructor; [|exact IH].
    apply split_from_words. reflexivity. }
  split; [exact Hsplit|]. rewrite Hsplit. apply length_firstn.
Qed.

End Words.

(** ** What the main loop leaves behind *)

Section LoopEffects.
Context `{Env}.
Import Obs.

Lemma bind_raise {A B} (c : M A) (k : A -> M B) (w w' : world) (e : exn) :
  c w = (Raise e, w') -> bind c k w = (Raise e, w').
Proof. intros Hc. unfold bind. rewrite Hc. reflexivity. Qed.

Lemma bind_untyped {A B} (c : M A) (k : A -> M B) (w w' : world) :
  c w = (Untyped, w') -> bind c k w = (Untyped, w').
Proof. intros Hc. unfold bind. rewrite Hc. reflexivity. Qed.

Lemma leaves_refl (w : world) : leaves w w [] [] [].
Proof. unfold leaves. rewrite !app_nil_r. auto. Qed.

Lemma leaves_trans (w1 w2 w3 : world) (e1 e2 : list event)
    (n1 n2 : list dict) (p1 p2 : list string) :
  leaves w1 w2 e1 n1 p1 -> leaves w2 w3 e2 n2 p2 ->
  leaves w1 w3 (e1 ++ e2) (n1 ++ n2) (p1 ++ p2).
Proof.
  unfold leaves. intros (Ha & Hb & Hc) (Ha' & Hb' & Hc').
  rewrite Ha', Ha, Hb', Hb, Hc', Hc, !app_assoc. auto.
Qed.

Lemma leaves_send (e : event) (w : world) :
  leaves w (with_sent (sent w ++ [e]) w) [e] [] [].
Proof. unfold leaves. simpl. rewrite !app_nil_r. auto. Qed.

(** [save_session] touches the clock and the files only, and returns
    or raises. *)
Lemma save_session_any (filepath : option string) (w : world) :
  exists o w',
    ConversationManager.save_session filepath w = (o, w')
    /\ leaves w w' [] [] []
    /\ essay w' = essay w
    /\ o <> Untyped.
Proof.
  unfold ConversationManager.save_session.
  rewrite (bind_ok get_world _ w w w eq_refl).
  destruct (session_id (cm w)) as [sid|];
    [|eexists _, _; split; [reflexivity|];
      split; [apply leaves_refl|split; [reflexivity|discriminate]]].
  destruct (negb (PyStr.truthy sid));
    [eexists _, _; split; [reflexivity|];
     split; [apply leaves_refl|split; [reflexivity|discriminate]]|].
  assert (Hd : exists d w1,
            (match session_start (cm w) with
             | Some t0 =>
                 let* t := now in
                 ret (JFloat (WhisperSTT.total_seconds (t - t0)))
             | None => ret JNull
             end) w = (Ok d, w1)
            /\ leaves w w1 [] [] [] /\ essay w1 = essay w).
  { destruct (session_start (cm w)); eexists _, _;
      (split; [reflexivity|]); split; try reflexivity;
      unfold leaves; simpl; rewrite !app_nil_r; auto. }
  destruct Hd as (d & w1 & Hd & Hl & He).
  rewrite (bind_ok _ _ _ _ _ Hd).
  destruct (forallb speaks (conversation (cm w))) eqn:Hturns.
  - rewrite (bind_ok _ _ _ _ _ (count_speaker_value "student" _ w1 Hturns)).
    rewrite (bind_ok _ _ _ _ _ (count_speaker_value "bot" _ w1 Hturns)).
    eexists _, _. split; [reflexivity|].
    split; [|split; [exact He|discriminate]].
    destruct Hl as (Ha & Hb & Hc). unfold leaves. simpl. auto.
  - rewrite (bind_raise _ _ _ _ _ (count_speaker_raises "student" _ w1 Hturns)).
    eexists _, _. split; [reflexivity|].
    split; [exact Hl|split; [exact He|discriminate]].
Qed.

(** [add_message(speaker, text)] appends its turn, whatever happens
    when it saves. *)
Lemma add_message_any (speaker text : string) (w : world) :
  exists t o w',
    ConversationManager.add_message speaker text None None None w = (o, w')
    /\ leaves w w' [] [turn t speaker text] []
    /\ essay w' = essay w
    /\ o <> Untyped.
Proof.
  unfold ConversationManager.add_message.
  rewrite (bind_ok now _ _ _ _ (now_ok _)). cbn [app].
  set (t := clock w + delay (reads w)). fold (turn t speaker text).
  unfold bind at 1. unfold ConversationManager.update, modify at 1.
  set (w1 := with_cm _ _).
  destruct (save_session_any None w1) as (o & w2 & Hsave & (Ha & Hb & Hc) & He & Hno).
  exists t. unfold bind. rewrite Hsave.
  assert (Hl : leaves w w2 [] [turn t speaker text] []).
  { unfold leaves. rewrite Ha, Hb, Hc. subst w1. simpl.
    rewrite !app_nil_r. auto. }
  destruct o as [path| |]; [| |contradiction];
    eexists _, _; (split; [reflexivity|]);
    (split; [exact Hl|split; [exact He|discriminate]]).
Qed.

Lemma history_lines_world (msgs : list dict) (w : world) :
  snd (OllamaClient.history_lines msgs w) = w.
Proof.
  induction msgs as [|msg rest IH]; simpl; [reflexivity|].
  unfold bind at 1. unfold OllamaClient.history_line.
  destruct (Json.lookup "speaker" msg) as [[]|]; try reflexivity.
  destruct (Json.lookup "text" msg) as [[]|]; try reflexivity.
  unfold ret at 1. unfold bind.
  destruct (OllamaClient.history_lines rest w) as [[ls| |] w'];
    simpl in *; exact IH.
Qed.

(** The call of the client posts one prompt when it returns, and none
    otherwise. *)
Lemma stream_any (srv : string -> response) (input ctx : string)
    (history : list dict) (w : world) :
  exists o w' ps,
    OllamaClient.generate_socratic_response_stream srv input ctx history w
      = (o, w')
    /\ leaves w w' [] [] ps
    /\ essay w' = essay w
    /\ match o with
       | Ok chunks => exists p, ps = [p]
                                /\ chunks = OllamaClient.generate_stream srv p
       | _ => ps = []
       end.
Proof.
  unfold OllamaClient.generate_socratic_response_stream,
    OllamaClient.socratic_prompt.
  pose proof (history_lines_world (ConversationManager.last_n 6 history) w) as Hw.
  unfold bind at 1. unfold bind at 1.
  destruct (OllamaClient.history_lines _ w) as [[ls| |] w0]; simpl in Hw; subst w0.
  - eexists _, _, [_]. split; [reflexivity|].
    split; [unfold leaves; simpl; rewrite !app_nil_r; auto|].
    split; [reflexivity|]. eexists. split; reflexivity.
  - eexists _, _, []. split; [reflexivity|].
    split; [apply leaves_refl|]. split; reflexivity.
  - eexists _, _, []. split; [reflexivity|].
    split; [apply leaves_refl|]. split; reflexivity.
Qed.

(** Consuming the fragments sends chunk messages only. *)
Lemma consume_any (chunks : list json) :
  forall (full : string) (w : world),
  exists o w' evs,
    App.consume chunks full w = (o, w')
    /\ leaves w w' evs [] []
    /\ forallb is_chunk evs = true
    /\ o <> Untyped.
Proof.
  induction chunks as [|c rest IH]; intros full w; cbn [App.consume].
  - eexists _, _, []. split; [reflexivity|].
    split; [apply leaves_refl|]. split; [reflexivity|discriminate].
  - destruct (Json.truthy c); [|apply IH].
    destruct c;
      try (eexists _, _, []; split; [reflexivity|];
           split; [apply leaves_refl|]; split; [reflexivity|discriminate]).
    rewrite (bind_ok now _ _ _ _ (now_ok _)).
    rewrite (bind_ok _ _ _ _ _ (send_ok _ _)).
    match goal with |- context [App.consume rest ?f ?w0] =>
      destruct (IH f w0) as (o & w' & evs & Hrun & Hl & Hch & Hno)
    end.
    rewrite Hrun.
    exists o, w', (EvChunk s (isoformat (clock w + delay (reads w))) :: evs).
    split; [reflexivity|].
    split; [|split; [exact Hch|exact Hno]].
    destruct Hl as (Ha & Hb & Hc). unfold leaves.
    rewrite Ha, Hb, Hc. simpl. rewrite <- app_assoc. auto.
Qed.

Lemma count_final_app (a b : list event) :
  count_final (a ++ b) = (count_final a + count_final b)%nat.
Proof.
  induction a as [|e a IH]; simpl; [reflexivity|].
  destruct e; simpl; rewrite ?IH; try reflexivity.
  destruct phrase_complete; simpl; rewrite ?IH; reflexivity.
Qed.

Lemma count_complete_app (a b : list event) :
  count_complete (a ++ b) = (count_complete a + count_complete b)%nat.
Proof.
  induction a as [|e a IH]; simpl; [reflexivity|].
  destruct e; simpl; rewrite ?IH; reflexivity.
Qed.

Lemma chunks_are_ok (evs : list event) :
  forallb is_chunk evs = true ->
  forallb event_ok evs = true
  /\ count_final evs = 0%nat /\ count_complete evs = 0%nat.
Proof.
  induction evs as [|e evs IH]; simpl; [auto|].
  intros Hall. apply andb_true_iff in Hall as [He Hrest].
  destruct e; try discriminate. simpl. auto.
Qed.

(** The phrase round trip, however it ends: what it has sent, appended
    and posted. *)
Ltac tally :=
  rewrite ?forallb_app, ?count_final_app, ?count_complete_app; simpl;
  repeat match goal with
         | H : PyStr.truthy _ = true |- _ => rewrite H
         | H : forallb event_ok _ = true |- _ => rewrite H
         | H : count_final _ = 0%nat |- _ => rewrite H
         | H : count_complete _ = 0%nat |- _ => rewrite H
         end;
  simpl; repeat split; try lia; try assumption.

Lemma respond_effects (tk : App.tick) (r : WhisperSTT.result) (w : world) :
  PyStr.truthy (PyStr.strip (WhisperSTT.text r)) = true ->
  exists o w' evs new ps,
    App.respond tk r w = (o, w')
    /\ leaves w w' evs new ps
    /\ forallb event_ok evs = true
    /\ count_final evs = 1%nat
    /\ (count_complete evs <= length ps <= 1)%nat
    /\ dialogue new
    /\ match o with
       | Ok l => l = App.reset /\ exchanges new
                 /\ count_complete evs = 1%nat /\ length ps = 1%nat
       | _ => True
       end.
Proof.
  intros Htext. unfold App.respond.
  rewrite (bind_ok _ _ _ _ _ (send_ok _ w)).
  pose proof (leaves_send (EvTranscription (WhisperSTT.text r) true
                             (isoformat (WhisperSTT.timestamp r))) w) as L.
  set (wa := with_sent _ w) in *.
  destruct (add_message_any "student" (WhisperSTT.text r) wa)
    as (t1 & o1 & wb & Hadd & L1 & _ & Hno1).
  pose proof (leaves_trans _ _ _ _ _ _ _ _ _ L L1) as L2. clear L L1.
  assert (Hs : student_turn (turn t1 "student" (WhisperSTT.text r)))
    by (exists t1, (WhisperSTT.text r); auto).
  destruct o1 as [m|e|]; [| |contradiction].
  2: { rewrite (bind_raise _ _ _ _ _ Hadd).
       eexists _, _, _, _, _. split; [reflexivity|]. split; [exact L2|].
       tally. }
  rewrite (bind_ok _ _ _ _ _ Hadd).
  rewrite (bind_ok _ _ _ _ _ (send_ok _ wb)).
  pose proof (leaves_trans _ _ _ _ _ _ _ _ _ L2
                (leaves_send (EvStatus "analyzing") wb)) as L3. clear L2.
  set (wc := with_sent _ wb) in *.
  rewrite (bind_ok (ConversationManager.get_conversation_history (Some 10))
             _ wc wc _ eq_refl).
  rewrite (bind_ok _ _ _ _ _ (send_ok _ wc)).
  pose proof (leaves_trans _ _ _ _ _ _ _ _ _ L3
                (leaves_send (EvStatus "responding") wc)) as L4. clear L3.
  set (wd := with_sent _ wc) in *.
  rewrite (bind_ok get_world _ wd wd wd eq_refl).
  destruct (stream_any (App.server tk) (WhisperSTT.text r) (essay wd)
              (ConversationManager.last_n (Pos.to_nat 10)
                 (conversation (cm wc))) wd)
    as (o2 & we & ps & Hstream & L5 & _ & Hps).
  pose proof (leaves_trans _ _ _ _ _ _ _ _ _ L4 L5) as L6. clear L4 L5.
  destruct o2 as [chunks|e|].
  2: { rewrite (bind_raise _ _ _ _ _ Hstream). subst ps.
       eexists _, _, _, _, _. split; [reflexivity|]. split; [exact L6|].
       tally. }
  2: { rewrite (bind_untyped _ _ _ _ Hstream). subst ps.
       eexists _, _, _, _, _. split; [reflexivity|]. split; [exact L6|].
       tally. }
  destruct Hps as (prompt & -> & ->).
  rewrite (bind_ok _ _ _ _ _ Hstream).
  destruct (consume_any (OllamaClient.generate_stream (App.server tk) prompt)
              EmptyString we)
    as (o3 & wf & cevs & Hconsume & L7 & Hchunks & Hno3).
  destruct (chunks_are_ok cevs Hchunks) as (Hcok & Hcf & Hcc).
  pose proof (leaves_trans _ _ _ _ _ _ _ _ _ L6 L7) as L8. clear L6 L7.
  destruct o3 as [full|e|]; [| |contradiction].
  2: { rewrite (bind_raise _ _ _ _ _ Hconsume).
       eexists _, _, _, _, _. split; [reflexivity|]. split; [exact L8|].
       tally. }
  rewrite (bind_ok _ _ _ _ _ Hconsume).
  rewrite (bind_ok now _ _ _ _ (now_ok _)).
  rewrite (bind_ok _ _ _ _ _ (send_ok _ _)).
  set (t2 := clock wf + delay (reads wf)).
  assert (L9 : leaves wf
                 (with_sent
                    (sent (with_clock t2 (S (reads wf)) wf)
                     ++ [EvComplete full (isoformat t2)])
                    (with_clock t2 (S (reads wf)) wf))
                 [EvComplete full (isoformat t2)] [] []).
  { unfold leaves. simpl. rewrite !app_nil_r. auto. }
  pose proof (leaves_trans _ _ _ _ _ _ _ _ _ L8 L9) as L10. clear L8 L9.
  set (wg := with_sent
               (sent (with_clock t2 (S (reads wf)) wf)
                ++ [EvComplete full (isoformat t2)])
               (with_clock t2 (S (reads wf)) wf)) in *.
  destruct (add_message_any "bot" full wg)
    as (t3 & o4 & wh & Hbot & L11 & _ & Hno4).
  pose proof (leaves_trans _ _ _ _ _ _ _ _ _ L10 L11) as L12. clear L10 L11.
  assert (Hb : bot_turn (turn t3 "bot" full)) by (exists t3, full; auto).
  destruct o4 as [m'|e|]; [| |contradiction].
  2: { rewrite (bind_raise _ _ _ _ _ Hbot).
       eexists _, _, _, _, _. split; [reflexivity|]. split; [exact L12|].
       tally. }
  rewrite (bind_ok _ _ _ _ _ Hbot).
  assert (L13 : leaves wh
                  (with_clock (clock wh + 250000) (reads wh)
                     (with_sent (sent wh ++ [EvStatus "listening"]) wh))
                  [EvStatus "listening"] [] []).
  { unfold leaves. simpl. rewrite !app_nil_r. auto. }
  pose proof (leaves_trans _ _ _ _ _ _ _ _ _ L12 L13) as L14.
  eexists _, _, _, _, _. split; [reflexivity|].
  split; [exact L14|]. tally.
Qed.

Lemma poll_any (chunks : list WhisperSTT.bytes) (w : world) :
  exists res w1, App.poll chunks w = (Ok res, w1) /\ leaves w w1 [] [] [].
Proof.
  unfold App.poll, bind, modify, now, get_world, ret. simpl.
  destruct (WhisperSTT.process_audio_queue _ _ _) as [s' res].
  eexists _, _. split; [reflexivity|].
  unfold leaves. simpl. rewrite !app_nil_r. auto.
Qed.

Lemma pair_induction {A} (P : list A -> Prop) :
  P [] -> (forall x, P [x]) -> (forall x y l, P l -> P (x :: y :: l)) ->
  forall l, P l.
Proof.
  intros Hnil Hone Hstep. fix IH 1.
  intros [|x [|y l]]; [exact Hnil|apply Hone|apply Hstep, IH].
Qed.

Lemma exchanges_dialogue (a : list dict) : exchanges a -> dialogue a.
Proof.
  induction a as [| |x y l IH] using pair_induction; simpl; try tauto.
Qed.

Lemma exchanges_app_dialogue (a b : list dict) :
  exchanges a -> dialogue b -> dialogue (a ++ b).
Proof.
  induction a as [| |x y l IH] using pair_induction; simpl; tauto.
Qed.

Lemma exchanges_app (a b : list dict) :
  exchanges a -> exchanges b -> exchanges (a ++ b).
Proof.
  induction a as [| |x y l IH] using pair_induction; simpl; tauto.
Qed.

(** One iteration, however it ends. *)
Lemma iteration_effects (tk : App.tick) (l : App.locals) (w : world) :
  exists o w' evs new ps,
    App.iteration tk l w = (o, w')
    /\ leaves w w' evs new ps
    /\ forallb event_ok evs = true
    /\ (count_complete evs <= length ps <= count_final evs)%nat
    /\ dialogue new
    /\ match o with
       | Ok _ => exchanges new
                 /\ count_complete evs = length ps
                 /\ length ps = count_final evs
       | _ => True
       end.
Proof.
  unfold App.iteration.
  destruct (poll_any (App.arrived tk) w) as (res & w1 & Hpoll & L).
  rewrite (bind_ok _ _ _ _ _ Hpoll). unfold App.dispatch.
  assert (Lpause : forall w0, leaves w0
                     (with_clock (clock w0 + 250000) (reads w0) w0) [] [] []).
  { intros w0. unfold leaves. simpl. rewrite !app_nil_r. auto. }
  destruct res as [r|].
  2: { eexists _, _, _, _, _. split; [reflexivity|].
       split; [exact (leaves_trans _ _ _ _ _ _ _ _ _ L (Lpause w1))|].
       simpl. repeat split; lia. }
  destruct (WhisperSTT.pausing r).
  - unfold App.on_pausing.
    assert (Hdue : exists due w2,
              (match App.last_pausing_time l with
               | Some last =>
                   let* t := now in
                   ret (Qle_bool (1 # 2) (WhisperSTT.total_seconds (t - last)))
               | None => ret true
               end) w1 = (Ok due, w2) /\ leaves w1 w2 [] [] []).
    { destruct (App.last_pausing_time l); eexists _, _;
        (split; [reflexivity|]); unfold leaves; simpl;
        rewrite !app_nil_r; auto. }
    destruct Hdue as (due & w2 & Hdue & L2).
    rewrite (bind_ok _ _ _ _ _ Hdue).
    pose proof (leaves_trans _ _ _ _ _ _ _ _ _ L L2) as L3.
    destruct due.
    + eexists _, _, [EvPausing (WhisperSTT.time_remaining r)], [], [].
      split; [reflexivity|]. split.
      * destruct L3 as (Ha & Hb & Hc). unfold leaves. simpl.
        rewrite Ha, Hb, Hc, !app_nil_r. auto.
      * simpl. repeat split; lia.
    + eexists _, _, _, _, _. split; [reflexivity|].
      split; [exact (leaves_trans _ _ _ _ _ _ _ _ _ L3 (Lpause w2))|].
      simpl. repeat split; lia.
  - destruct (WhisperSTT.phrase_complete r).
    + destruct (PyStr.truthy (PyStr.strip (WhisperSTT.text r))) eqn:Htext.
      * change (negb true) with false. cbv iota.
        destruct (respond_effects tk r w1 Htext)
          as (o & w' & evs & new & ps & Hrun & L2 & Hok & Hfin & Hcount & Hdia & Hres).
        rewrite Hrun. eexists _, _, _, _, _. split; [reflexivity|].
        split; [exact (leaves_trans _ _ _ _ _ _ _ _ _ L L2)|].
        simpl. rewrite Hfin. split; [exact Hok|]. split; [lia|].
        split; [exact Hdia|]. destruct o; auto.
        destruct Hres as (_ & Hex & Hc & Hp). repeat split; auto; lia.
      * change (negb false) with true. cbv iota.
        rewrite (bind_ok _ _ _ _ _ (send_ok _ w1)).
        eexists _, _, _, _, _. split; [reflexivity|].
        split; [exact (leaves_trans _ _ _ _ _ _ _ _ _ L
                         (leaves_send (EvStatus "listening") w1))|].
        simpl. repeat split; lia.
    + unfold App.on_live.
      destruct (PyStr.truthy (WhisperSTT.text r)) eqn:Htext; simpl andb.
      * destruct (negb (String.eqb (WhisperSTT.text r)
                          (App.current_student_text l))).
        -- eexists _, _, [EvTranscription (WhisperSTT.text r) false
                              (isoformat (WhisperSTT.timestamp r));
                            EvStatus "listening"], [], [].
           split; [reflexivity|]. split.
           ++ destruct L as (Ha & Hb & Hc). unfold leaves. simpl.
              rewrite Ha, Hb, Hc, !app_nil_r, <- app_assoc. auto.
           ++ simpl. rewrite Htext. repeat split; lia.
        -- eexists _, _, _, _, _. split; [reflexivity|].
           split; [exact (leaves_trans _ _ _ _ _ _ _ _ _ L (Lpause w1))|].
           simpl. repeat split; lia.
      * eexists _, _, _, _, _. split; [reflexivity|].
        split; [exact (leaves_trans _ _ _ _ _ _ _ _ _ L (Lpause w1))|].
        simpl. repeat split; lia.
Qed.

(** The main loop over any ticks, however it ends. *)
Lemma main_loop_effects (ticks : list App.tick) :
  forall (l : App.locals) (w : world),
  exists o w' evs new ps,
    App.main_loop ticks l w = (o, w')
    /\ leaves w w' evs new ps
    /\ forallb event_ok evs = true
    /\ (count_complete evs <= length ps <= count_final evs)%nat
    /\ dialogue new
    /\ match o with
       | Ok _ => exchanges new
                 /\ count_complete evs = length ps
                 /\ length ps = count_final evs
       | _ => True
       end.
Proof.
  induction ticks as [|tk rest IH]; intros l w; simpl.
  - eexists _, _, [], [], []. split; [reflexivity|].
    split; [apply leaves_refl|]. simpl. repeat split; lia.
  - destruct (iteration_effects tk l w)
      as (o & w1 & evs & new & ps & Hrun & L & Hok & Hcount & Hdia & Hres).
    destruct o as [l1|e|].
    + rewrite (bind_ok _ _ _ _ _ Hrun).
      destruct (IH l1 w1)
        as (o2 & w2 & evs2 & new2 & ps2 & Hrun2 & L2 & Hok2 & Hcount2 & Hdia2 & Hres2).
      destruct Hres as (Hex & Hc & Hp).
      exists o2, w2, (evs ++ evs2), (new ++ new2), (ps ++ ps2).
      split; [exact Hrun2|].
      split; [exact (leaves_trans _ _ _ _ _ _ _ _ _ L L2)|].
      rewrite forallb_app, Hok, Hok2, count_complete_app, count_final_app,
        length_app.
      split; [reflexivity|]. split; [lia|].
      split; [apply exchanges_app_dialogue; assumption|].
      destruct o2; auto. destruct Hres2 as (Hex2 & Hc2 & Hp2).
      split; [apply exchanges_app; assumption|]. lia.
    + rewrite (bind_raise _ _ _ _ _ Hrun).
      exists (Raise e), w1, evs, new, ps. tauto.
    + rewrite (bind_untyped _ _ _ _ Hrun).
      exists Untyped, w1, evs, new, ps. tauto.
Qed.

(** X20. The main loop only appends to the conversation, and what it
    appends is a dialogue: student and bot turns in strict
    alternation, a student turn first, every student turn with a text
    that is not blank. While the loop is running the last turn
    appended is a bot turn. *)
Theorem loop_appends_a_dialogue (ticks : list App.tick) (l : App.locals)
    (w : world) :
  exists new,
    conversation (cm (snd (App.main_loop ticks l w)))
      = conversation (cm w) ++ new
    /\ dialogue new
    /\ (forall l', fst (App.main_loop ticks l w) = Ok l' -> exchanges new).
Proof.
  destruct (main_loop_effects ticks l w)
    as (o & w' & evs & new & ps & Hrun & (_ & Hconv & _) & _ & _ & Hdia & Hres).
  rewrite Hrun. exists new. simpl. split; [exact Hconv|]. split; [exact Hdia|].
  intros l' ->. apply Hres.
Qed.

(** X21. The main loop only appends to the messages sent, and what it
    sends is a status, a pausing notice, a chunk, a complete response,
    a live transcription with a text that is not empty or a final
    transcription with a text that is not blank; never a ready, history
    or error message. *)
Theorem loop_sends_well_formed_messages (ticks : list App.tick)
    (l : App.locals) (w : world) :
  exists evs,
    sent (snd (App.main_loop ticks l w)) = sent w ++ evs
    /\ forallb event_ok evs = true.
Proof.
  destruct (main_loop_effects ticks l w)
    as (o & w' & evs & new & ps & Hrun & (Hsent & _) & Hok & _).
  rewrite Hrun. exists evs. simpl. split; assumption.
Qed.

(** X22. In any run of the main loop there are at least as many final
    transcriptions sent as prompts posted, and at least as many prompts
    posted as complete responses sent: no prompt without a finished
    phrase, no response without a prompt. While the loop is running the
    three numbers are equal. *)
Theorem loop_counts_are_ordered (ticks : list App.tick) (l : App.locals)
    (w : world) :
  exists evs ps,
    sent (snd (App.main_loop ticks l w)) = sent w ++ evs
    /\ posted (snd (App.main_loop ticks l w)) = posted w ++ ps
    /\ (count_complete evs <= length ps <= count_final evs)%nat
    /\ (forall l', fst (App.main_loop ticks l w) = Ok l' ->
          count_complete evs = length ps /\ length ps = count_final evs).
Proof.
  destruct (main_loop_effects ticks l w)
    as (o & w' & evs & new & ps & Hrun & (Hsent & _ & Hposted) & _ & Hcount & _ & Hres).
  rewrite Hrun. exists evs, ps. simpl.
  split; [exact Hsent|]. split; [exact Hposted|]. split; [exact Hcount|].
  intros l' ->. destruct Hres as (_ & Hc & Hp). auto.
Qed.

End LoopEffects.

(** ** The cadence of the loop, the connection and its end *)

Section Connection.
Context `{Env}.
Import Obs.

Lemma complete_has_buffer asr (now : Z) (s s' : WhisperSTT.t)
    (r : WhisperSTT.result) :
  WhisperSTT.process_audio_queue asr now s = (s', Some r) ->
  WhisperSTT.phrase_complete r = true ->
  WhisperSTT.phrase_bytes s <> [].
Proof.
  unfold WhisperSTT.process_audio_queue.
  destruct (WhisperSTT.data_queue s).
  - destruct (WhisperSTT.phrase_time s); [|discriminate].
    destruct (WhisperSTT.phrase_bytes s); simpl; [discriminate|].
    intros _ _. discriminate.
  - intros Heq Hc. inversion Heq; subst. discriminate.
Qed.

(** An iteration that returns has slept, or has left the segmenter
    idle; an iteration that starts with an idle segmenter and returns
    has slept. *)
Lemma iteration_clock (delay_nonneg : forall k, 0 <= delay k)
    (tk : App.tick) (l l' : App.locals) (w w' : world) :
  App.iteration tk l w = (Ok l', w') ->
  clock w <= clock w'
  /\ (clock w + 250000 <= clock w'
      \/ WhisperSTT.phrase_bytes (stt w') = [])
  /\ (WhisperSTT.phrase_bytes (stt w) = [] -> clock w + 250000 <= clock w').
Proof.
  unfold App.iteration. unfold bind at 1. rewrite poll_spec. cbv zeta.
  set (s0 := fold_left _ (App.arrived tk) (stt w)).
  set (t := clock w + delay (reads w)).
  assert (Ht : clock w <= t) by (specialize (delay_nonneg (reads w)); lia).
  destruct (WhisperSTT.process_audio_queue transcribe t s0) as [s' res] eqn:Hp.
  simpl fst; simpl snd.
  set (w1 := with_stt s' (with_clock t (S (reads w)) (with_stt s0 w))).
  assert (Hbuf0 : WhisperSTT.phrase_bytes s0 = WhisperSTT.phrase_bytes (stt w))
    by apply push_keeps_buffer.
  destruct res as [r|].
  - unfold App.dispatch. destruct (WhisperSTT.pausing r) eqn:Hpause.
    + pose proof (pausing_has_buffer _ _ _ _ _ Hp Hpause) as Hne.
      unfold App.on_pausing.
      destruct (App.last_pausing_time l) as [last|].
      * unfold bind at 1. unfold bind at 1. unfold now at 1. cbv zeta.
        unfold ret at 1.
        pose proof (delay_nonneg (S (reads w))) as Hd1.
        pose proof (delay_nonneg (S (S (reads w)))) as Hd2.
        destruct (Qle_bool _ _);
          unfold bind, get_world, send_json, modify, now, App.pause, sleep, ret;
          simpl; intros Heq; inversion Heq; subst; simpl;
          (split; [lia|]); (split; [left; lia|]); intros; lia.
      * pose proof (delay_nonneg (S (reads w))) as Hd1.
        unfold bind, get_world, send_json, modify, now, App.pause, sleep, ret.
        simpl. intros Heq. inversion Heq; subst; simpl.
        split; [lia|]. split; [left; lia|]. intros; lia.
    + destruct (WhisperSTT.phrase_complete r) eqn:Hcomplete.
      * pose proof (complete_has_buffer _ _ _ _ _ Hp Hcomplete) as Hne.
        pose proof (complete_clears_buffer _ _ _ _ _ Hp Hcomplete) as Hclear.
        destruct (negb (PyStr.truthy (PyStr.strip (WhisperSTT.text r)))).
        -- unfold bind, send_json, modify, ret. simpl.
           intros Heq. inversion Heq; subst; simpl.
           split; [lia|]. split; [right; exact Hclear|].
           intros Hidle. rewrite Hbuf0 in Hne. contradiction.
        -- destruct (respond_ends_slept delay_nonneg tk r w1) as [Hf Hok].
           intros Hrun. rewrite Hrun in Hok. simpl in Hok.
           destruct (Hok l' eq_refl) as [_ Hclock].
           subst w1. simpl in Hclock.
           split; [lia|]. split; [left; lia|]. intros; lia.
      * unfold App.on_live.
        destruct (PyStr.truthy (WhisperSTT.text r) && _);
          unfold bind, send_json, App.pause, sleep, modify, ret; simpl;
          intros Heq; inversion Heq; subst; simpl;
          (split; [lia|]); (split; [left; lia|]); intros; lia.
  - unfold App.dispatch, bind, App.pause, sleep, modify, ret. simpl.
    intros Heq. inversion Heq; subst; simpl.
    split; [lia|]. split; [left; lia|]. intros; lia.
Qed.

(** X23. The loop does not spin: with a clock that does not run
    backwards, any two consecutive iterations that return take at least
    250 ms together. The iteration that skips its sleep, for an empty
    phrase, leaves the segmenter idle, and the iteration after it
    sleeps. *)
Theorem two_iterations_sleep (tk1 tk2 : App.tick) (l l1 l2 : App.locals)
    (w w1 w2 : world) :
  (forall k, 0 <= delay k) ->
  App.iteration tk1 l w = (Ok l1, w1) ->
  App.iteration tk2 l1 w1 = (Ok l2, w2) ->
  clock w + 250000 <= clock w2.
Proof.
  intros Hdelay Hfirst Hsecond.
  destruct (iteration_clock Hdelay _ _ _ _ _ Hfirst) as (Hle1 & Hcase & _).
  destruct (iteration_clock Hdelay _ _ _ _ _ Hsecond) as (Hle2 & _ & Hidle).
  destruct Hcase as [Hslept|Hnow_idle]; [lia|].
  specialize (Hidle Hnow_idle). lia.
Qed.

Lemma replay_records (msgs : list dict) (w : world) :
  forallb is_record msgs = true ->
  App.replay msgs w =
    (Ok tt, with_sent (sent w ++ map history_event msgs) w).
Proof.
  revert w. induction msgs as [|msg rest IH]; intros w Hall; simpl.
  - rewrite app_nil_r. destruct w; reflexivity.
  - apply andb_true_iff in Hall as [Hmsg Hrest].
    unfold is_record in Hmsg. unfold history_event at 1, Json.get.
    unfold bind, ConversationManager.subscript, ret.
    destruct (Json.lookup "speaker" msg) as [sp|]; [|discriminate].
    destruct (Json.lookup "text" msg) as [tx|]; [|discriminate].
    destruct (Json.lookup "timestamp" msg) as [ts|]; [|discriminate].
    rewrite send_ok, (IH _ Hrest). simpl. rewrite <- app_assoc. reflexivity.
Qed.

(** The handler around the loop: its [except] and [finally]. *)
Lemma handler_equation (s : WhisperSTT.t) (ticks : list App.tick) (w : world) :
  App.websocket_conversation true (Some s) ticks w =
    match (send_json EvReady ;;;
           let* history := ConversationManager.get_conversation_history None in
           App.replay history ;;;
           App.main_loop ticks App.reset)
            (with_stt (WhisperSTT.start_listening s) w) with
    | (Ok l, w') => (Ok (Some l), w')
    | (Raise e, w') =>
        (Ok None,
         with_stt (WhisperSTT.stop_listening (stt w'))
           (with_sent (sent w' ++ [EvError (exn_str e)]) w'))
    | (Untyped, w') => (Untyped, w')
    end.
Proof.
  unfold App.websocket_conversation.
  change (negb true) with false. cbv iota.
  rewrite (bind_ok (modify (with_stt (WhisperSTT.start_listening s))) _ w
             (with_stt (WhisperSTT.start_listening s) w) tt eq_refl).
  cbv beta.
  destruct ((send_json EvReady ;;;
             let* history := ConversationManager.get_conversation_history None in
             App.replay history ;;;
             App.main_loop ticks App.reset)
              (with_stt (WhisperSTT.start_listening s) w)) as [[l|e|] w'];
    reflexivity.
Qed.

(** X24. On connection, with an active session and a segmenter, the
    handler starts listening, sends [ready] and then replays the stored
    conversation, one message per turn in order, a bot turn as
    [bot_response] and any other as [transcription]; the loop variables
    start empty and nothing else changes. *)
Theorem connection_replays_history (s : WhisperSTT.t) (w : world) :
  forallb is_record (conversation (cm w)) = true ->
  App.websocket_conversation true (Some s) [] w =
    (Ok (Some App.reset),
     with_sent (sent w ++ EvReady :: map history_event (conversation (cm w)))
       (with_stt (WhisperSTT.start_listening s) w)).
Proof.
  intros Hall. rewrite handler_equation.
  set (w0 := with_stt (WhisperSTT.start_listening s) w).
  rewrite (bind_ok _ _ _ _ _ (send_ok EvReady w0)).
  set (w1 := with_sent (sent w0 ++ [EvReady]) w0).
  rewrite (bind_ok (ConversationManager.get_conversation_history None)
             _ w1 w1 (conversation (cm w)) eq_refl).
  rewrite (bind_ok _ _ _ _ _ (replay_records _ w1 Hall)).
  simpl. subst w1 w0. simpl. rewrite <- app_assoc. reflexivity.
Qed.

Lemma rstrip_all_space (s : string) :
  PyStr.all_space (PyStr.rstrip s) = true -> PyStr.rstrip s = EmptyString.
Proof.
  induction s as [|c r IH]; [reflexivity|]. simpl.
  destruct (PyStr.rstrip r) as [|c' r'] eqn:Hr.
  - destruct (PyStr.isspace c) eqn:Hc; [reflexivity|].
    simpl. rewrite Hc. discriminate.
  - intros Hall. simpl in Hall. apply andb_prop in Hall as [_ Hall].
    specialize (IH Hall). discriminate.
Qed.

(** Stripping what is already stripped leaves a non-empty text
    non-empty: the second [strip()] of line 234 decides as the first. *)
Lemma strip_truthy_again (s : string) :
  PyStr.truthy (PyStr.strip s) = true ->
  PyStr.truthy (PyStr.strip (PyStr.strip s)) = true.
Proof.
  intros Ht.
  destruct (PyStr.truthy (PyStr.strip (PyStr.strip s))) eqn:H2; [reflexivity|].
  apply strip_falsy_iff in H2. unfold PyStr.strip in H2 at 1.
  apply rstrip_all_space in H2. fold (PyStr.strip s) in H2.
  rewrite H2 in Ht. discriminate.
Qed.

(** X25. A phrase finished while the manager has no session ends the
    connection: the final transcription is sent, the student turn is
    appended, [save_session] raises, and the handler sends the error
    message ["No active session to save"], stops listening and
    returns. Nothing is written and no prompt is posted. *)
Theorem phrase_without_session_ends_connection (s : WhisperSTT.t)
    (tk : App.tick) (w : world) (last : Z) :
  session_id (cm w) = None ->
  conversation (cm w) = [] ->
  App.arrived tk = [] ->
  WhisperSTT.data_queue s = [] ->
  WhisperSTT.phrase_bytes s <> [] ->
  WhisperSTT.phrase_time s = Some last ->
  (WhisperSTT.phrase_timeout s
   <= WhisperSTT.total_seconds (clock w + delay (reads w) - last))%Q ->
  PyStr.truthy (PyStr.strip (transcribe (WhisperSTT.phrase_bytes s))) = true ->
  exists t1 w',
    App.websocket_conversation true (Some s) [tk] w = (Ok None, w')
    /\ sent w' =
         sent w ++ [EvReady;
                    EvTranscription
                      (PyStr.strip (transcribe (WhisperSTT.phrase_bytes s)))
                      true (isoformat (clock w + delay (reads w)));
                    EvError "No active session to save"]
    /\ conversation (cm w') =
         [turn t1 "student"
            (PyStr.strip (transcribe (WhisperSTT.phrase_bytes s)))]
    /\ files w' = files w
    /\ posted w' = posted w
    /\ WhisperSTT.is_running (stt w') = false.
Proof.
  intros Hsid Hconv Harrived Hq Hbuf Htime Hle Htext.
  rewrite handler_equation.
  set (s1 := WhisperSTT.start_listening s).
  assert (Hs1 : WhisperSTT.data_queue s1 = []
                /\ WhisperSTT.phrase_bytes s1 = WhisperSTT.phrase_bytes s
                /\ WhisperSTT.phrase_time s1 = Some last
                /\ WhisperSTT.phrase_timeout s1 = WhisperSTT.phrase_timeout s).
  { subst s1. unfold WhisperSTT.start_listening.
    destruct (WhisperSTT.is_running s); simpl; auto. }
  destruct Hs1 as (Hq1 & Hb1 & Ht1 & Hto1).
  set (w0 := with_stt s1 w).
  rewrite (bind_ok _ _ _ _ _ (send_ok EvReady w0)).
  set (w1 := with_sent (sent w0 ++ [EvReady]) w0).
  rewrite (bind_ok (ConversationManager.get_conversation_history None)
             _ w1 w1 (conversation (cm w)) eq_refl).
  rewrite Hconv.
  rewrite (bind_ok (App.replay []) _ w1 w1 tt eq_refl).
  set (t := clock w + delay (reads w)) in *.
  set (text := PyStr.strip (transcribe (WhisperSTT.phrase_bytes s))) in *.
  set (s2 := WhisperSTT.mk [] [] None (WhisperSTT.phrase_timeout s1)
               (WhisperSTT.is_running s1)).
  set (w2 := with_stt s2 (with_clock t (S (reads w)) w1)).
  assert (Hpoll : App.poll (App.arrived tk) w1 =
                  (Ok (Some (WhisperSTT.mk_result text true false 0 t)), w2)).
  { rewrite poll_spec, Harrived. cbv zeta. simpl fold_left.
    change (stt w1) with s1. change (clock w1 + delay (reads w1)) with t.
    unfold WhisperSTT.process_audio_queue.
    rewrite Hq1, Ht1, Hb1, (nonempty_true _ Hbuf). simpl negb. cbv iota.
    rewrite Hto1. apply Qle_bool_iff in Hle. rewrite Hle.
    simpl. subst w2 s2. rewrite Hto1. destruct w; reflexivity. }
  assert (Hrespond : exists t1 w3,
            App.respond tk (WhisperSTT.mk_result text true false 0 t) w2 =
              (Raise no_session, w3)
            /\ sent w3 = sent w2 ++ [EvTranscription text true (isoformat t)]
            /\ conversation (cm w3) = [turn t1 "student" text]
            /\ files w3 = files w /\ posted w3 = posted w /\ stt w3 = s2).
  { unfold App.respond. rewrite (bind_ok _ _ _ _ _ (send_ok _ w2)).
    set (wa := with_sent _ w2).
    destruct (add_message_dangling "student" text wa Hsid)
      as (t1 & w3 & Hadd & Hc & Hf & Hs & Hp & Hst).
    exists t1, w3. rewrite (bind_raise _ _ _ _ _ Hadd).
    split; [reflexivity|]. rewrite Hc, Hf, Hs, Hp, Hst. subst wa. simpl.
    rewrite Hconv. repeat split. }
  destruct Hrespond as (t1 & w3 & Hrespond & Hs3 & Hc3 & Hf3 & Hp3 & Hst3).
  assert (Hloop : App.main_loop [tk] App.reset w1 = (Raise no_session, w3)).
  { cbn [App.main_loop]. unfold App.iteration.
    rewrite bind_assoc, (bind_ok _ _ _ _ _ Hpoll).
    unfold App.dispatch. simpl WhisperSTT.pausing.
    simpl WhisperSTT.phrase_complete. simpl WhisperSTT.text. cbv iota.
    pose proof (strip_truthy_again _ Htext) as Hagain.
    change (PyStr.truthy (PyStr.strip text) = true) in Hagain.
    rewrite Hagain. change (negb true) with false. cbv iota.
    rewrite (bind_raise _ _ _ _ _ Hrespond). reflexivity. }
  rewrite Hloop. exists t1. eexists. split; [reflexivity|].
  simpl. rewrite Hs3, Hc3, Hf3, Hp3. subst w2 w1 w0. simpl.
  rewrite <- !app_assoc. repeat split.
Qed.

End Connection.

(** ** The further properties at work in the small environment *)


(** X6 at work: a turn without its speaker. *)
Lemma X6_witness :
  exists w',
    ConversationManager.save_session (H := Demo.env) None Demo.world_nameless =
      (Raise {| exn_class := "KeyError"; exn_str := "'speaker'" |}, w')
    /\ files w' = files Demo.world_nameless
    /\ cm w' = cm Demo.world_nameless.
Proof.
  apply (save_session_needs_speakers (H := Demo.env) None Demo.world_nameless
           "1970-01-01_00-00-00"); reflexivity.
Defined.

(** X7 at work: one student turn and one bot turn. *)
Lemma X7_witness :
  exists path doc w',
    ConversationManager.save_session (H := Demo.env) None Demo.world_talked
      = (Ok path, w')
    /\ files w' !! path = Some (JObj doc)
    /\ Json.lookup "message_count" doc = Some (JInt 2)
    /\ Json.lookup "student_messages" doc = Some (JInt 1)
    /\ Json.lookup "bot_messages" doc = Some (JInt 1).
Proof.
  destruct (saved_counts (H := Demo.env) Demo.world_talked "1970-01-01_00-00-00")
    as (path & doc & w' & Hrun & Hfile & Hn & Hs & Hb & _); [reflexivity..|].
  exists path, doc, w'. auto.
Defined.

(** X8 at work: a message for a manager that has no session. *)
Lemma X8_witness :
  exists t w',
    ConversationManager.add_message (H := Demo.env) "student" "la" None None None
      Demo.world_closed = (Raise Obs.no_session, w')
    /\ conversation (cm w') = [Obs.turn (H := Demo.env) t "student" "la"]
    /\ files w' = files Demo.world_closed.
Proof.
  apply (add_message_without_session (H := Demo.env) "student" "la"
           Demo.world_closed).
  reflexivity.
Defined.

(** X9 at work: a first message in the session of the small
    environment. *)
Lemma X9_witness :
  exists t doc w',
    ConversationManager.add_message (H := Demo.env) "student" "la" None None None
      Demo.world0 = (Ok (Obs.turn (H := Demo.env) t "student" "la"), w')
    /\ files w' !! "conversations/1970-01-01_00-00-00.json" = Some (JObj doc)
    /\ Json.lookup "conversation" doc =
         Some (JArr [JObj (Obs.turn (H := Demo.env) t "student" "la")]).
Proof.
  destruct (add_message_persists (H := Demo.env) "student" "la" Demo.world0
              "1970-01-01_00-00-00")
    as (t & doc & w' & Hrun & _ & Hfile & Hdoc & _); [reflexivity..|].
  exists t, doc, w'. auto.
Defined.

(** X10 at work: a file without a conversation. *)
Lemma X10_witness :
  exists w',
    ConversationManager.load_session (H := Demo.env) "other" Demo.world_stub
      = (Ok false, w')
    /\ session_id (cm w') = Some "other"
    /\ pdf_context (cm w') = "Another essay."
    /\ conversation (cm w') = conversation (cm Demo.world_stub).
Proof.
  destruct (load_session_fails_half_way (H := Demo.env) "other" Demo.world_stub
              Demo.stub "other" "Another essay.")
    as (w' & Hrun & Hid & _ & Hctx & _ & Hconv); [reflexivity..|].
  exists w'. auto.
Defined.

(** X13 at work: a new session over the one that has talked. *)
Lemma X13_witness :
  exists w1 t doc w2,
    ConversationManager.start_session (H := Demo.env) "A new essay." JNull
      Demo.world_talked = (Ok "1970-01-01_00-00-00", w1)
    /\ conversation (cm w1) = []
    /\ pdf_metadata (cm w1) = JObj []
    /\ conversation (cm w2) = [Obs.turn (H := Demo.env) t "student" "la"]
    /\ files w2 !! "conversations/1970-01-01_00-00-00.json" = Some (JObj doc)
    /\ Json.lookup "pdf_context" doc = Some (JStr "A new essay.").
Proof.
  destruct (start_session_then_add_message (H := Demo.env) "A new essay."
              "student" "la" JNull Demo.world_talked)
    as (sid & w1 & t & doc & w2 & Hstart & -> & _ & Hc1 & Hm & _ & Hc2 & Hfile
        & Hctx & _); [reflexivity|].
  exists w1, t, doc, w2.
  split; [exact Hstart|]. split; [exact Hc1|]. split; [exact Hm|].
  split; [exact Hc2|]. split; [exact Hfile|exact Hctx].
Defined.

(** X15 at work: a line that is not JSON between two fragments. *)
Lemma X15_witness :
  OllamaClient.generate_stream (H := Demo.env) Demo.stuttering_server "prompt"
  = OllamaClient.generate_stream (H := Demo.env) Demo.talking_server "prompt".
Proof.
  apply (skipped_lines_do_not_matter (H := Demo.env) Demo.stuttering_server
           Demo.talking_server "prompt" [[Byte.x01]] [[Byte.x02]] [Byte.x00]).
  - right. reflexivity.
  - reflexivity.
  - reflexivity.
  - reflexivity.
Defined.

(** X16 at work: a line that is not UTF-8 after one fragment. *)
Lemma X16_witness :
  OllamaClient.generate_stream (H := Demo.env_strict) Demo.garbled_server "prompt"
  = [JStr "Why? ";
     JStr "[Error: 'utf-8' codec can't decode byte 0xff in position 0: invalid start byte]"].
Proof.
  apply (body_fault_ends_the_stream (H := Demo.env_strict) Demo.garbled_server
           "prompt" [[Byte.x01]] [[Byte.x02]] [Byte.xff] [JStr "Why? "]
           Demo.not_utf8); reflexivity.
Defined.

(** X17 at work: two lines, two fragments. *)
Lemma X17_witness :
  OllamaClient.generate_stream (H := Demo.env) Demo.talking_server "prompt"
  = [JStr "Why? "; JStr "Why? "].
Proof.
  rewrite (clean_stream_is_the_responses (H := Demo.env) Demo.talking_server
             "prompt").
  - reflexivity.
  - repeat constructor; try discriminate; eexists; reflexivity.
  - reflexivity.
Defined.

(** X23 at work: the iteration that discards an empty phrase does not
    sleep, the one after it does. *)
Lemma X23_witness :
  clock (snd (App.iteration (H := Demo.env) Demo.quiet App.reset
                Demo.world_silence)) = 6001000
  /\ 6000000 + 250000
     <= clock (snd (App.iteration (H := Demo.env) Demo.quiet App.reset
                      (snd (App.iteration (H := Demo.env) Demo.quiet App.reset
                              Demo.world_silence)))).
Proof.
  split; [reflexivity|].
  apply (two_iterations_sleep (H := Demo.env) Demo.quiet Demo.quiet
           App.reset App.reset App.reset Demo.world_silence
           (snd (App.iteration (H := Demo.env) Demo.quiet App.reset
                   Demo.world_silence))).
  - intros k. simpl. lia.
  - reflexivity.
  - reflexivity.
Defined.

(** X24 at work: a connection to the session that has talked. *)
Lemma X24_witness :
  sent (snd (App.websocket_conversation (H := Demo.env) true
               (Some (WhisperSTT.init 5)) [] Demo.world_talked))
  = [EvReady;
     EvHistory false (JStr "la") (JStr Demo.epoch);
     EvHistory true (JStr "Why? ") (JStr Demo.epoch)].
Proof.
  rewrite (connection_replays_history (H := Demo.env) (WhisperSTT.init 5)
             Demo.world_talked).
  - reflexivity.
  - reflexivity.
Defined.

(** X25 at work: a phrase that ends while no session is open. *)
Lemma X25_witness :
  exists t1 w',
    App.websocket_conversation (H := Demo.env) true
      (Some (WhisperSTT.mk [] Demo.chunk (Some 0) 5 false)) [Demo.quiet]
      Demo.world_closed = (Ok None, w')
    /\ sent w' = [EvReady; EvTranscription "la la" true Demo.epoch;
                  EvError "No active session to save"]
    /\ conversation (cm w') = [Obs.turn (H := Demo.env) t1 "student" "la la"]
    /\ files w' = files Demo.world_closed
    /\ posted w' = []
    /\ WhisperSTT.is_running (stt w') = false.
Proof.
  apply (phrase_without_session_ends_connection (H := Demo.env)
           (WhisperSTT.mk [] Demo.chunk (Some 0) 5 false) Demo.quiet
           Demo.world_closed 0).
  - reflexivity.
  - reflexivity.
  - reflexivity.
  - reflexivity.
  - discriminate.
  - reflexivity.
  - vm_compute. discriminate.
  - reflexivity.
Defined.
